(** * The Resume Hub: the document store, the polish client and the LaTeX preview

    A shallow embedding of the client-side state logic of the resume builder:
    - [ResumeBuilder.tsx]: [handleUpdate] (the document store) and
      [handlePolish] (the content-polishing client);
    - [PDFPreview.tsx]: [scrapeTemplate], [initializeLatex] and
      [updateLatexSection] (template acquisition and the document generator);
    - the [handleAdd] functions of the section components (entry ids).

    The code is TypeScript, so at run time every piece of resume data is a
    JavaScript value and [UpdateMessage.content] has type [any].  The model
    therefore works on an explicit type of JavaScript values, with the
    [TypeError]s that property access on [null]/[undefined] raises. *)

From Stdlib Require Import ZArith Lia.
From stdpp Require Import base option list strings pretty.

Set Warnings "-register-all".

Local Open Scope Z_scope.
Local Open Scope string_scope.

(** ** JavaScript values *)

Module JS.

(** JSON-shaped values.  Numbers are the integer-valued ones (all the code
    does with a number is test its truthiness or print it).  An object is the
    list of its own properties in insertion order; [lookup] takes the first
    binding of a key and [setProp] never creates a second one. *)
Inductive value :=
| Undefined
| Null
| Bool (b : bool)
| Num (n : Z)
| Str (s : string)
| Arr (l : list value)
| Obj (fs : list (string * value)).

(** The result of evaluating code that may throw: [Thrown msg] stands for an
    [Error] whose [message] is [msg]. *)
Inductive outcome (A : Type) :=
| Returned (a : A)
| Thrown (msg : string).
Arguments Returned {A} a.
Arguments Thrown {A} msg.

Definition bind {A B} (m : outcome A) (k : A → outcome B) : outcome B :=
  match m with
  | Returned a => k a
  | Thrown msg => Thrown msg
  end.

Fixpoint lookup (k : string) (fs : list (string * value)) : value :=
  match fs with
  | [] => Undefined
  | (k', v) :: fs' => if String.eqb k' k then v else lookup k fs'
  end.

Fixpoint hasKey (k : string) (fs : list (string * value)) : bool :=
  match fs with
  | [] => false
  | (k', _) :: fs' => if String.eqb k' k then true else hasKey k fs'
  end.

Fixpoint store (k : string) (v : value) (fs : list (string * value))
  : list (string * value) :=
  match fs with
  | [] => [(k, v)]
  | (k', v') :: fs' =>
      if String.eqb k' k then (k, v) :: fs' else (k', v') :: store k v fs'
  end.

Definition isNullish (v : value) : bool :=
  match v with
  | Undefined | Null => true
  | _ => false
  end.

(** [if (v)]: the falsy JSON values are [undefined], [null], [false], [0]
    and the empty string. *)
Definition truthy (v : value) : bool :=
  match v with
  | Undefined | Null => false
  | Bool b => b
  | Num n => negb (n =? 0)%Z
  | Str s => negb (String.eqb s "")
  | Arr _ | Obj _ => true
  end.

Definition typeName (v : value) : string :=
  match v with
  | Undefined => "undefined"
  | Null => "null"
  | Bool _ => "boolean"
  | Num _ => "number"
  | Str _ => "string"
  | Arr _ | Obj _ => "object"
  end.

(** [v.k].  Reading a property of [null] or [undefined] throws a [TypeError]
    (the message text is V8's); a primitive or an array has none of the
    property names this program reads. *)
Definition getProp (v : value) (k : string) : outcome value :=
  match v with
  | Undefined | Null =>
      Thrown ("Cannot read properties of " ++ typeName v
              ++ " (reading '" ++ k ++ "')")
  | Obj fs => Returned (lookup k fs)
  | _ => Returned Undefined
  end.

(** [v?.k] *)
Definition optProp (v : value) (k : string) : value :=
  match v with
  | Obj fs => lookup k fs
  | _ => Undefined
  end.

(** [a ?? b] *)
Definition nullish (a b : value) : value :=
  if isNullish a then b else a.

(** [a || b] *)
Definition or (a b : value) : value :=
  if truthy a then a else b.

(** [v.k = x] in strict-mode code (an ES module): it throws on [null],
    [undefined] and on primitives.  An array would take [k] as an extra
    property; arrays with extra properties are outside [value], and the
    embedding reports that case as a throw as well. *)
Definition setProp (v : value) (k : string) (x : value) : outcome value :=
  match v with
  | Obj fs => Returned (Obj (store k x fs))
  | Undefined | Null =>
      Thrown ("Cannot set properties of " ++ typeName v
              ++ " (setting '" ++ k ++ "')")
  | _ => Thrown ("Cannot create property '" ++ k ++ "' on " ++ typeName v)
  end.

(** [v === s] for a string [s]. *)
Definition strictEqStr (v : value) (s : string) : bool :=
  match v with
  | Str s' => String.eqb s' s
  | _ => false
  end.

(** [String(v)] for the elements of an array being joined. *)
Definition joinWith (f : value → string) (l : list value) : string :=
  String.concat ","
    (map (λ v, if isNullish v then "" else f v) l).

(** [String(v)], as [new Error(v)] and template literals compute it. *)
Fixpoint toString (v : value) : string :=
  match v with
  | Undefined => "undefined"
  | Null => "null"
  | Bool true => "true"
  | Bool false => "false"
  | Num n => pretty n
  | Str s => s
  | Arr l => joinWith toString l
  | Obj _ => "[object Object]"
  end.

End JS.

Notation "'let!' x ':=' m 'in' k" := (JS.bind m (λ x, k))
  (at level 10, x name, m at level 100, k at level 200, only parsing).

Import JS.

(** ** The resume document ([types/resume.ts]) *)

(** [ResumeData].  The five list-valued sections are arrays from
    [initialData] on and every updater keeps them arrays; what an entry is,
    and what [name] and [aboutMe] hold, is whatever an [UpdateMessage]
    carried. *)
Record ResumeData := {
  name : value;
  aboutMe : value;
  education : list value;
  experience : list value;
  contact : list value;
  skills : list value;
  customSections : list value
}.

Inductive ChangeType := add | update | delete.

Record UpdateMessage := {
  section : string;
  entryId : string;
  changeType : ChangeType;
  content : value
}.

Definition initialData : ResumeData := {|
  name := Obj [("firstName", Str ""); ("lastName", Str "")];
  aboutMe := Obj [("description", Str ""); ("polishedDescription", Str "")];
  education := [];
  experience := [];
  contact := [];
  skills := [];
  customSections := []
|}.

Definition set_name (v : value) (d : ResumeData) : ResumeData :=
  {| name := v; aboutMe := aboutMe d; education := education d;
     experience := experience d; contact := contact d; skills := skills d;
     customSections := customSections d |}.
Definition set_aboutMe (v : value) (d : ResumeData) : ResumeData :=
  {| name := name d; aboutMe := v; education := education d;
     experience := experience d; contact := contact d; skills := skills d;
     customSections := customSections d |}.
Definition set_education (l : list value) (d : ResumeData) : ResumeData :=
  {| name := name d; aboutMe := aboutMe d; education := l;
     experience := experience d; contact := contact d; skills := skills d;
     customSections := customSections d |}.
Definition set_experience (l : list value) (d : ResumeData) : ResumeData :=
  {| name := name d; aboutMe := aboutMe d; education := education d;
     experience := l; contact := contact d; skills := skills d;
     customSections := customSections d |}.
Definition set_contact (l : list value) (d : ResumeData) : ResumeData :=
  {| name := name d; aboutMe := aboutMe d; education := education d;
     experience := experience d; contact := l; skills := skills d;
     customSections := customSections d |}.
Definition set_skills (l : list value) (d : ResumeData) : ResumeData :=
  {| name := name d; aboutMe := aboutMe d; education := education d;
     experience := experience d; contact := contact d; skills := l;
     customSections := customSections d |}.
Definition set_customSections (l : list value) (d : ResumeData) : ResumeData :=
  {| name := name d; aboutMe := aboutMe d; education := education d;
     experience := experience d; contact := contact d; skills := skills d;
     customSections := l |}.

(** ** The document store: [handleUpdate] ([ResumeBuilder.tsx]) *)

(** [l.findIndex(e => e.id === entryId)]: the index of the first match, or
    [-1]; the callback throws on a [null]/[undefined] element it reaches. *)
Fixpoint findIndex (entryId : string) (l : list value) : outcome Z :=
  match l with
  | [] => Returned (-1)
  | e :: l' =>
      let! i := getProp e "id" in
      if strictEqStr i entryId then Returned 0
      else
        let! r := findIndex entryId l' in
        Returned (if (r <? 0)%Z then -1 else (r + 1)%Z)
  end.

(** [l.filter(e => e.id !== entryId)] *)
Fixpoint filterOut (entryId : string) (l : list value) : outcome (list value) :=
  match l with
  | [] => Returned []
  | e :: l' =>
      let! i := getProp e "id" in
      let! r := filterOut entryId l' in
      Returned (if strictEqStr i entryId then r else e :: r)
  end.

(** The body the five list-valued [case]s of [handleUpdate] share: they
    differ only in the field they work on.  [push] and the indexed assignment
    change the array the previous state holds too; the model follows the
    value of the store from one updater run to the next. *)
Definition applyChange (u : UpdateMessage) (l : list value)
  : outcome (list value) :=
  match changeType u with
  | add => Returned (l ++ [content u])%list
  | update =>
      let! idx := findIndex (entryId u) l in
      Returned (if (0 <=? idx)%Z then <[Z.to_nat idx := content u]> l else l)
  | delete => filterOut (entryId u) l
  end.

(** The updater [handleUpdate] hands to [setResumeData]. *)
Definition handleUpdate (u : UpdateMessage) (prev : ResumeData)
  : outcome ResumeData :=
  if String.eqb (section u) "name" then
    Returned (set_name (content u) prev)
  else if String.eqb (section u) "aboutMe" then
    Returned (set_aboutMe (content u) prev)
  else if String.eqb (section u) "education" then
    let! l := applyChange u (education prev) in
    Returned (set_education l prev)
  else if String.eqb (section u) "experience" then
    let! l := applyChange u (experience prev) in
    Returned (set_experience l prev)
  else if String.eqb (section u) "contact" then
    let! l := applyChange u (contact prev) in
    Returned (set_contact l prev)
  else if String.eqb (section u) "skills" then
    let! l := applyChange u (skills prev) in
    Returned (set_skills l prev)
  else if String.eqb (section u) "customSections" then
    let! l := applyChange u (customSections prev) in
    Returned (set_customSections l prev)
  else Returned prev.

(** A sequence of update messages: React applies each queued updater once,
    in the order of the calls, to the state the previous one left. *)
Fixpoint handleUpdates (us : list UpdateMessage) (prev : ResumeData)
  : outcome ResumeData :=
  match us with
  | [] => Returned prev
  | u :: us' =>
      let! d := handleUpdate u prev in
      handleUpdates us' d
  end.

(** ** Network calls *)

(** What [await fetch(...)] gives: the promise rejects (transport failure),
    or it resolves to a response.  [json] is the result of
    [await response.json()], which rejects on a malformed body; [text] that
    of [await response.text()]. *)
Record Response := {
  ok : bool;
  status : Z;
  text : string;
  json : outcome value
}.

Inductive FetchResult :=
| Rejected (msg : string)
| Resolved (res : Response).

(** ** The content-polishing client: [handlePolish] ([ResumeBuilder.tsx]) *)

Record SubmitTrigger := {
  trigSection : string;
  trigEntryId : string;
  trigChangeType : string;
  timestamp : Z
}.

(** The state of the [ResumeBuilder] component, and the messages it passed
    to [console.error]. *)
Record Builder := {
  resumeData : ResumeData;
  isPolishing : option string;
  submitTrigger : option SubmitTrigger;
  errorLog : list string
}.

(** [envelope && typeof envelope === 'object' && 'content' in envelope
      ? envelope.content : envelope] *)
Definition unwrapContent (envelope : value) : value :=
  match envelope with
  | Obj fs => if hasKey "content" fs then lookup "content" fs else envelope
  | _ => envelope
  end.

(** [data.improvedContent ?? data.content ?? data], then [unwrapContent]. *)
Definition normalize (data : value) : outcome value :=
  let! improvedContent := getProp data "improvedContent" in
  let! content := getProp data "content" in
  Returned (unwrapContent (nullish (nullish improvedContent content) data)).

Definition getImprovedText (obj : value) : value :=
  nullish
    (nullish
       (nullish
          (nullish (optProp obj "polishedDescription")
                   (optProp obj "description"))
          (optProp obj "summary"))
       (optProp obj "text"))
    (Str "").

(** The normaliser as a whole: the improved text of a response body. *)
Definition improvedTextOf (data : value) : outcome value :=
  let! normalized := normalize data in
  Returned (getImprovedText normalized).

(** [l[i].k = x] for an index [i] that [findIndex] returned. *)
Definition setEntryProp (i : Z) (k : string) (x : value) (l : list value)
  : outcome (list value) :=
  let! e := setProp (default Undefined (l !! Z.to_nat i)) k x in
  Returned (<[Z.to_nat i := e]> l).

(** The two assignments the [aboutMe], [education] and [experience] cases
    make. *)
Definition setPolished (improvedText : value) (e : value) : outcome value :=
  let! e1 := setProp e "polishedDescription" improvedText in
  setProp e1 "description" improvedText.

Definition setPolishedAt (i : Z) (improvedText : value) (l : list value)
  : outcome (list value) :=
  let! l1 := setEntryProp i "polishedDescription" improvedText l in
  setEntryProp i "description" improvedText l1.

(** The updater [handlePolish] hands to [setResumeData]. *)
Definition polishUpdater (sec entryId : string) (normalized improvedText : value)
    (prev : ResumeData) : outcome ResumeData :=
  if String.eqb sec "aboutMe" then
    if truthy improvedText then
      let! a := setPolished improvedText (aboutMe prev) in
      Returned (set_aboutMe a prev)
    else Returned prev
  else if String.eqb sec "education" then
    let! i := findIndex entryId (education prev) in
    if (0 <=? i)%Z && truthy improvedText then
      let! l := setPolishedAt i improvedText (education prev) in
      Returned (set_education l prev)
    else Returned prev
  else if String.eqb sec "experience" then
    let! i := findIndex entryId (experience prev) in
    if (0 <=? i)%Z && truthy improvedText then
      let! l := setPolishedAt i improvedText (experience prev) in
      Returned (set_experience l prev)
    else Returned prev
  else if String.eqb sec "customSections" then
    let! i := findIndex entryId (customSections prev) in
    if (0 <=? i)%Z then
      let improvedContentText :=
        nullish (optProp normalized "content") improvedText in
      if truthy improvedContentText then
        let! l := setEntryProp i "content" improvedContentText
                    (customSections prev) in
        Returned (set_customSections l prev)
      else Returned prev
    else Returned prev
  else Returned prev.

(** The [try] block of [handlePolish] up to the two state updates: the
    request, the status checks and the normalisation.  It gives
    [(normalized, improvedText)] or throws. *)
Definition polishResponse (net : FetchResult) : outcome (value * value) :=
  match net with
  | Rejected msg => Thrown msg
  | Resolved res =>
      if negb (ok res) then Thrown ("HTTP " ++ pretty (status res))
      else
        let! data := json res in
        let! success := getProp data "success" in
        if negb (truthy success) then
          let! message := getProp data "message" in
          Thrown (toString (or message (Str "Polish failed")))
        else
          let! normalized := normalize data in
          Returned (normalized, getImprovedText normalized)
  end.

(** [handlePolish(section, entryId, content)], run at clock reading [now]
    against the network result [net]; [st] is the state of the builder when
    the response has arrived.  The request body plays no part in what
    happens next.  The outer [outcome] is [Thrown] when the queued updater
    throws while React applies it, which the [try] of [handlePolish] does
    not cover. *)
Definition handlePolish (sec entryId : string) (now : Z) (net : FetchResult)
    (st : Builder) : outcome Builder :=
  match polishResponse net with
  | Returned (normalized, improvedText) =>
      let! d := polishUpdater sec entryId normalized improvedText
                  (resumeData st) in
      Returned {| resumeData := d;
                  isPolishing := None;
                  submitTrigger :=
                    Some {| trigSection := sec; trigEntryId := entryId;
                            trigChangeType := "update"; timestamp := now |};
                  errorLog := errorLog st |}
  | Thrown msg =>
      Returned {| resumeData := resumeData st;
                  isPolishing := None;
                  submitTrigger := submitTrigger st;
                  errorLog := (errorLog st ++ [msg])%list |}
  end.

(** ** The LaTeX preview ([PDFPreview.tsx]) *)

Inductive Request :=
| ScrapeTemplate                  (* POST /api/template/scrape *)
| LatexUpdate (payload : value).  (* POST /api/latex-update *)

(** The state of the [PDFPreview] component that the generation code reads or
    writes: its [useState] cells, the ref [isInitializedRef] and the requests
    sent so far.  ([lastDuration] is a wall-clock measurement and is left
    out; [pdfUrl] and [showLatex] belong to [generatePdf].) *)
Record Preview := {
  latexCode : value;
  isUpdating : bool;
  error : option string;
  updates : Z;
  hasGeneratedPreview : bool;
  templateScraped : bool;
  isScrapingTemplate : bool;
  isInitialized : bool;
  sent : list Request
}.

(** What the functions of one render read from their closure: the [data]
    prop and the value [isTemplateScraped] had when the component rendered.
    A [setIsTemplateScraped] made while such a function runs does not change
    what that function, or the functions it calls, see. *)
Record Closure := {
  data : ResumeData;
  isTemplateScraped : bool
}.

Definition render (d : ResumeData) (st : Preview) : Closure :=
  {| data := d; isTemplateScraped := templateScraped st |}.

Definition initialPreview : Preview :=
  {| latexCode := Str ""; isUpdating := false; error := None; updates := 0;
     hasGeneratedPreview := false; templateScraped := false;
     isScrapingTemplate := false; isInitialized := false; sent := [] |}.

(** The network: the answer to the request sent when [n] requests had been
    sent before it. *)
Definition Network := nat → FetchResult.

Definition send (r : Request) (st : Preview) : Preview :=
  {| latexCode := latexCode st; isUpdating := isUpdating st;
     error := error st; updates := updates st;
     hasGeneratedPreview := hasGeneratedPreview st;
     templateScraped := templateScraped st;
     isScrapingTemplate := isScrapingTemplate st;
     isInitialized := isInitialized st; sent := (sent st ++ [r])%list |}.

Definition setError (e : option string) (st : Preview) : Preview :=
  {| latexCode := latexCode st; isUpdating := isUpdating st;
     error := e; updates := updates st;
     hasGeneratedPreview := hasGeneratedPreview st;
     templateScraped := templateScraped st;
     isScrapingTemplate := isScrapingTemplate st;
     isInitialized := isInitialized st; sent := sent st |}.

Definition setIsUpdating (b : bool) (st : Preview) : Preview :=
  {| latexCode := latexCode st; isUpdating := b;
     error := error st; updates := updates st;
     hasGeneratedPreview := hasGeneratedPreview st;
     templateScraped := templateScraped st;
     isScrapingTemplate := isScrapingTemplate st;
     isInitialized := isInitialized st; sent := sent st |}.

Definition setIsScrapingTemplate (b : bool) (st : Preview) : Preview :=
  {| latexCode := latexCode st; isUpdating := isUpdating st;
     error := error st; updates := updates st;
     hasGeneratedPreview := hasGeneratedPreview st;
     templateScraped := templateScraped st;
     isScrapingTemplate := b;
     isInitialized := isInitialized st; sent := sent st |}.

Definition setIsTemplateScraped (b : bool) (st : Preview) : Preview :=
  {| latexCode := latexCode st; isUpdating := isUpdating st;
     error := error st; updates := updates st;
     hasGeneratedPreview := hasGeneratedPreview st;
     templateScraped := b;
     isScrapingTemplate := isScrapingTemplate st;
     isInitialized := isInitialized st; sent := sent st |}.

(** [setLatexCode(code); isInitializedRef.current = true;
     setHasGeneratedPreview(true)] *)
Definition setInitialized (code : value) (st : Preview) : Preview :=
  {| latexCode := code; isUpdating := isUpdating st;
     error := error st; updates := updates st;
     hasGeneratedPreview := true;
     templateScraped := templateScraped st;
     isScrapingTemplate := isScrapingTemplate st;
     isInitialized := true; sent := sent st |}.

(** [setLatexCode(code); setCompileStats(prev => ...updates: prev.updates + 1)] *)
Definition setSectionUpdated (code : value) (st : Preview) : Preview :=
  {| latexCode := code; isUpdating := isUpdating st;
     error := error st; updates := (updates st + 1)%Z;
     hasGeneratedPreview := hasGeneratedPreview st;
     templateScraped := templateScraped st;
     isScrapingTemplate := isScrapingTemplate st;
     isInitialized := isInitialized st; sent := sent st |}.

(** The response checks of [scrapeTemplate]'s [try] block. *)
Definition scrapeResult (net : FetchResult) : outcome unit :=
  match net with
  | Rejected msg => Thrown msg
  | Resolved res =>
      if negb (ok res) then Thrown ("HTTP " ++ pretty (status res))
      else
        let! result := json res in
        let! success := getProp result "success" in
        if truthy success then Returned ()
        else
          let! err := getProp result "error" in
          Thrown (toString (or err (Str "Template scraping failed")))
  end.

Definition scrapeTemplate (c : Closure) (net : Network) (st : Preview)
  : Preview :=
  if isTemplateScraped c then st
  else
    let st1 := send ScrapeTemplate (setIsScrapingTemplate true st) in
    let st2 :=
      match scrapeResult (net (length (sent st))) with
      | Returned _ => setIsTemplateScraped true st1
      | Thrown msg => setError (Some msg) st1
      end in
    setIsScrapingTemplate false st2.

(** [hasData(resumeData)], as the condition [!hasData(data)] reads it. *)
Definition hasData (d : ResumeData) : outcome bool :=
  let! firstName := getProp (name d) "firstName" in
  if truthy firstName then Returned true else
  let! lastName := getProp (name d) "lastName" in
  if truthy lastName then Returned true else
  let! description := getProp (aboutMe d) "description" in
  if truthy description then Returned true else
  Returned ((0 <? length (contact d))%nat
            || (0 <? length (education d))%nat
            || (0 <? length (experience d))%nat
            || (0 <? length (skills d))%nat
            || (0 <? length (customSections d))%nat).

(** The response checks that [initializeLatex] and [updateLatexSection]
    share: the LaTeX code, or the error thrown.  [fallback] is the message
    used when the body names no error. *)
Definition latexResult (fallback : string) (net : FetchResult)
  : outcome value :=
  match net with
  | Rejected msg => Thrown msg
  | Resolved res =>
      if negb (ok res) then
        Thrown ("HTTP " ++ pretty (status res) ++ ": " ++ text res)
      else
        let! result := json res in
        let! success := getProp result "success" in
        let! code := getProp result "latexCode" in
        if truthy success && truthy code then Returned code
        else
          let! err := getProp result "error" in
          Thrown (toString (or err (Str fallback)))
  end.

Definition headerPayload (d : ResumeData) : value :=
  Obj [("type", Str "header"); ("action", Str "update");
       ("data", Obj [("name", name d); ("contact", Arr (contact d))])].

(** [initializeLatex()].  [Thrown] is a rejection of the promise it returns:
    only [hasData] can throw outside the [try]. *)
Definition initializeLatex (c : Closure) (net : Network) (st : Preview)
  : outcome Preview :=
  let! has := hasData (data c) in
  if negb has || negb (isTemplateScraped c) then Returned st
  else
    let st1 := setError None (setIsUpdating true st) in
    let st2 := scrapeTemplate c net st1 in
    let st3 := send (LatexUpdate (headerPayload (data c))) st2 in
    let st4 :=
      match latexResult "No LaTeX code returned from header update"
              (net (length (sent st2))) with
      | Returned code => setInitialized code st3
      | Thrown msg => setError (Some msg) st3
      end in
    Returned (setIsUpdating false st4).

(** The [switch] of [updateLatexSection] over the section name. *)
Definition sectionData (sectionName : string) (d : ResumeData) : value :=
  if String.eqb sectionName "aboutMe" then aboutMe d
  else if String.eqb sectionName "education" then Arr (education d)
  else if String.eqb sectionName "experience" then Arr (experience d)
  else if String.eqb sectionName "skills" then Arr (skills d)
  else if String.eqb sectionName "customSections" then Arr (customSections d)
  else Null.

Definition sectionPayload (updateInfo : SubmitTrigger) (d : ResumeData)
  : value :=
  Obj [("type", Str "section");
       ("action", Str (trigChangeType updateInfo));
       ("data", Obj [("section", Str (trigSection updateInfo));
                     ("entry", sectionData (trigSection updateInfo) d)])].

(** [updateLatexSection(updateInfo)] *)
Definition updateLatexSection (c : Closure) (updateInfo : SubmitTrigger)
    (net : Network) (st : Preview) : outcome Preview :=
  let st0 := if negb (isTemplateScraped c) then scrapeTemplate c net st
             else st in
  if negb (isInitialized st0) then initializeLatex c net st0
  else
    let st1 := setError None (setIsUpdating true st0) in
    let st2 := send (LatexUpdate (sectionPayload updateInfo (data c))) st1 in
    match latexResult "No LaTeX code returned from section update"
            (net (length (sent st1))) with
    | Returned code => Returned (setIsUpdating false (setSectionUpdated code st2))
    | Thrown _ =>
        let! st3 := initializeLatex c net st2 in
        Returned (setIsUpdating false st3)
    end.

(** The effect on [onSubmitUpdate]: one submit trigger, handled by the
    functions of the render that received it. *)
Definition processSubmit (c : Closure) (onSubmitUpdate : SubmitTrigger)
    (net : Network) (st : Preview) : outcome Preview :=
  if String.eqb (trigSection onSubmitUpdate) "header"
  then initializeLatex c net st
  else updateLatexSection c onSubmitUpdate net st.

(** What the user can do to the preview: submit a section (the parent sets
    [onSubmitUpdate]; "Try Again" and "Regenerate" call [initializeLatex] as
    a submit of the header does) or click "Scrape Template".  Each event
    comes with the document the component was last rendered with. *)
Inductive Event :=
| Submit (d : ResumeData) (trigger : SubmitTrigger)
| ClickScrape (d : ResumeData).

(** One event, handled by the functions of the latest render. *)
Definition step (ev : Event) (net : Network) (st : Preview)
  : outcome Preview :=
  match ev with
  | Submit d trigger => processSubmit (render d st) trigger net st
  | ClickScrape d => Returned (scrapeTemplate (render d st) net st)
  end.

(** A session: events handled one after the other. *)
Fixpoint run (evs : list Event) (net : Network) (st : Preview)
  : outcome Preview :=
  match evs with
  | [] => Returned st
  | ev :: evs' =>
      let! st' := step ev net st in
      run evs' net st'
  end.

(** ** Creating entries: [handleAdd] of the section components *)

Module EducationSection.

(** The form state [newEducation : Omit<Education, 'id'>]. *)
Record NewEducation := {
  degree : string;
  institution : string;
  startDate : string;
  endDate : string;
  description : string
}.

(** [handleAdd()] at clock reading [now = Date.now()]: the message passed to
    [onUpdate], if any. *)
Definition handleAdd (newEducation : NewEducation) (now : Z)
  : option UpdateMessage :=
  if negb (String.eqb (degree newEducation) "")
     && negb (String.eqb (institution newEducation) "") then
    let education :=
      Obj [("id", Str ("edu_" ++ pretty now));
           ("degree", Str (degree newEducation));
           ("institution", Str (institution newEducation));
           ("startDate", Str (startDate newEducation));
           ("endDate", Str (endDate newEducation));
           ("description", Str (description newEducation))] in
    Some {| section := "education";
            entryId := "edu_" ++ pretty now;
            changeType := add;
            content := education |}
  else None.

End EducationSection.

Module SkillsSection.

Section Builtins.

(** [String.prototype.trim] and [String.prototype.toLowerCase]. *)
Variable trim : string → string.
Variable toLowerCase : string → string.

(** [data.some(s => s.skill.toLowerCase() === target)] *)
Fixpoint someSkill (target : string) (data : list value) : outcome bool :=
  match data with
  | [] => Returned false
  | s :: data' =>
      let! skill := getProp s "skill" in
      match skill with
      | Str x =>
          if String.eqb (toLowerCase x) target then Returned true
          else someSkill target data'
      | Undefined | Null =>
          Thrown ("Cannot read properties of " ++ typeName skill
                  ++ " (reading 'toLowerCase')")
      | _ => Thrown "s.skill.toLowerCase is not a function"
      end
  end.

(** [handleAdd()] for the text [newSkill] of the input box, the [data] prop
    and the clock reading [now]. *)
Definition handleAdd (data : list value) (newSkill : string) (now : Z)
  : outcome (option UpdateMessage) :=
  if String.eqb (trim newSkill) "" then Returned None
  else
    let! dup := someSkill (toLowerCase (trim newSkill)) data in
    if dup then Returned None
    else
      let skill := Obj [("id", Str ("skill_" ++ pretty now));
                        ("skill", Str (trim newSkill))] in
      Returned (Some {| section := "skills";
                        entryId := "skill_" ++ pretty now;
                        changeType := add;
                        content := skill |}).

End Builtins.

End SkillsSection.

(** One click on "Add Education" at clock reading [fst ev] with the form
    holding [snd ev], and the store update it causes. *)
Definition addEducation (ev : Z * EducationSection.NewEducation)
    (d : ResumeData) : outcome ResumeData :=
  match EducationSection.handleAdd (snd ev) (fst ev) with
  | Some u => handleUpdate u d
  | None => Returned d
  end.

Fixpoint addEducations (evs : list (Z * EducationSection.NewEducation))
    (d : ResumeData) : outcome ResumeData :=
  match evs with
  | [] => Returned d
  | ev :: evs' =>
      let! d' := addEducation ev d in
      addEducations evs' d'
  end.

(** The same for "Add Skill"; the component is rendered with the skills the
    store holds at that moment. *)
Definition addSkill (trim toLowerCase : string → string) (ev : Z * string)
    (d : ResumeData) : outcome ResumeData :=
  let! r := SkillsSection.handleAdd trim toLowerCase (skills d) (snd ev)
              (fst ev) in
  match r with
  | Some u => handleUpdate u d
  | None => Returned d
  end.

Fixpoint addSkills (trim toLowerCase : string → string)
    (evs : list (Z * string)) (d : ResumeData) : outcome ResumeData :=
  match evs with
  | [] => Returned d
  | ev :: evs' =>
      let! d' := addSkill trim toLowerCase ev d in
      addSkills trim toLowerCase evs' d'
  end.

(** The ids of the entries of a list. *)
Definition ids (l : list value) : list value :=
  (λ e, optProp e "id") <$> l.

(** The id [handleAdd] builds from a prefix and a clock reading:
    [Date.now()] is an integer number of milliseconds, which a template
    literal prints in plain decimal. *)
Definition idOf (prefix : string) (now : Z) : value :=
  Str (prefix ++ pretty now).

(** ** Reference definitions the theorems compare the code with *)

Inductive ListSection :=
| Education | Experience | Contact | Skills | CustomSections.

#[global] Instance ListSection_eq_dec : EqDecision ListSection.
Proof. solve_decision. Defined.

Definition sectionName (s : ListSection) : string :=
  match s with
  | Education => "education"
  | Experience => "experience"
  | Contact => "contact"
  | Skills => "skills"
  | CustomSections => "customSections"
  end.

Definition entries (s : ListSection) (d : ResumeData) : list value :=
  match s with
  | Education => education d
  | Experience => experience d
  | Contact => contact d
  | Skills => skills d
  | CustomSections => customSections d
  end.

Definition listSectionOf (sec : string) : option ListSection :=
  if String.eqb sec "education" then Some Education
  else if String.eqb sec "experience" then Some Experience
  else if String.eqb sec "contact" then Some Contact
  else if String.eqb sec "skills" then Some Skills
  else if String.eqb sec "customSections" then Some CustomSections
  else None.

Definition setEntries (s : ListSection) (l : list value) (d : ResumeData)
  : ResumeData :=
  match s with
  | Education => set_education l d
  | Experience => set_experience l d
  | Contact => set_contact l d
  | Skills => set_skills l d
  | CustomSections => set_customSections l d
  end.

(** An entry whose [id] is the string [entryId]. *)
Definition hasId (entryId : string) (e : value) : bool :=
  strictEqStr (optProp e "id") entryId.

(** The replay of the spec, written from its words: [add] appends the
    content, [update] replaces the entry whose id is [entryId] (the first
    one, should several carry it), [delete] removes the entries with that
    id; a message for another section leaves the list alone. *)
Fixpoint replaceFirst (entryId : string) (c : value) (l : list value)
  : list value :=
  match l with
  | [] => []
  | e :: l' =>
      if hasId entryId e then c :: l' else e :: replaceFirst entryId c l'
  end.

Definition removeId (entryId : string) (l : list value) : list value :=
  List.filter (λ e, negb (hasId entryId e)) l.

Definition replayOne (u : UpdateMessage) (l : list value) : list value :=
  match changeType u with
  | add => (l ++ [content u])%list
  | update => replaceFirst (entryId u) (content u) l
  | delete => removeId (entryId u) l
  end.

Definition replay (s : ListSection) (us : list UpdateMessage)
    (l : list value) : list value :=
  fold_left
    (λ acc u,
       if String.eqb (section u) (sectionName s) then replayOne u acc
       else acc)
    us l.

(** Entries and messages as the section components build them: no entry is
    [null] or [undefined], and a message that adds or updates an entry of a
    list carries one. *)
Definition entriesOk (l : list value) : bool :=
  forallb (λ e, negb (isNullish e)) l.

Definition documentOk (d : ResumeData) : bool :=
  entriesOk (education d) && entriesOk (experience d)
  && entriesOk (contact d) && entriesOk (skills d)
  && entriesOk (customSections d).

Definition messageOk (u : UpdateMessage) : bool :=
  match listSectionOf (section u), changeType u with
  | Some _, (add | update) => negb (isNullish (content u))
  | _, _ => true
  end.

(** The keys [getImprovedText] tries, in its order. *)
Definition textKeys : list string :=
  ["polishedDescription"; "description"; "summary"; "text"].

(** The spec's reading of [getImprovedText]: the first of the keys whose
    value is non-empty, or the empty string. *)
Definition firstNonEmpty (obj : value) : value :=
  match List.filter truthy (map (optProp obj) textKeys) with
  | v :: _ => v
  | [] => Str ""
  end.

(** The first of the keys whose value is neither [null] nor [undefined]. *)
Definition firstPresent (obj : value) : value :=
  match List.filter (λ v, negb (isNullish v)) (map (optProp obj) textKeys) with
  | v :: _ => v
  | [] => Str ""
  end.

(** Skills as [SkillsSection.handleAdd] builds them: objects with a string
    [skill]. *)
Definition skillsOk (l : list value) : Prop :=
  Forall (λ e, ∃ fs s, e = Obj fs ∧ lookup "skill" fs = Str s) l.

(** The envelope shapes the spec lists, for an improved text [x]. *)
Definition envelopeShapes (x : string) : list (list (string * value)) :=
  [ [("content", Obj [("description", Str x)])];
    [("polishedDescription", Str x)];
    [("summary", Str x)] ].

(** [e'] is the object [e] with the properties [ks] holding [t] and every
    other property as it was. *)
Definition overwrites (ks : list string) (t : value) (e e' : value) : Prop :=
  (∃ fs fs', e = Obj fs ∧ e' = Obj fs')
  ∧ ∀ k, optProp e' k
         = if existsb (String.eqb k) ks then t else optProp e k.

(** The trigger [handlePolish] emits after a polish it takes as successful. *)
Definition polishTrigger (sec entryId : string) (now : Z) : SubmitTrigger :=
  {| trigSection := sec; trigEntryId := entryId; trigChangeType := "update";
     timestamp := now |}.

(** The state [handlePolish] leaves when its [catch] block ran with an error
    of message [msg]: the message is logged, nothing else changed. *)
Definition polishFailed (msg : string) (st : Builder) : Builder :=
  {| resumeData := resumeData st; isPolishing := None;
     submitTrigger := submitTrigger st;
     errorLog := (errorLog st ++ [msg])%list |}.

(** The requests a call added to the log. *)
Definition newRequests (before after : Preview) : list Request :=
  drop (length (sent before)) (sent after).

Definition isGeneration (r : Request) : bool :=
  match r with
  | LatexUpdate _ => true
  | ScrapeTemplate => false
  end.

(** A section-scope payload: its [type] is ["section"]. *)
Definition isSectionRequest (r : Request) : bool :=
  match r with
  | LatexUpdate p => strictEqStr (optProp p "type") "section"
  | ScrapeTemplate => false
  end.

(** A generation response that [latexResult] takes as a failure: the request
    failed in transport, the status is not a success, the body is malformed,
    or the body lacks a truthy [success] or [latexCode]. *)
Definition failedGeneration (r : FetchResult) : bool :=
  match r with
  | Rejected _ => true
  | Resolved res =>
      negb (ok res)
      || match json res with
         | Thrown _ => true
         | Returned body =>
             negb (truthy (optProp body "success")
                   && truthy (optProp body "latexCode"))
         end
  end.

(** The [j]-th request of the log is a scrape request that succeeded. *)
Definition acquiredAt (net : Network) (log : list Request) (j : nat) : Prop :=
  log !! j = Some ScrapeTemplate ∧ scrapeResult (net j) = Returned ().

(** The generator is never initialized without the template scraped. *)
Definition initializedAfterScrape (st : Preview) : Prop :=
  isInitialized st = true → templateScraped st = true.

(** What holds of every state a session reaches on the network [net]: the
    scraped flag is backed by a scrape request that succeeded, the generator
    is initialized only after that, and every generation request in the log
    comes after such a scrape request. *)
Definition acquisitionInvariant (net : Network) (st : Preview) : Prop :=
  (templateScraped st = true → ∃ j, acquiredAt net (sent st) j)
  ∧ initializedAfterScrape st
  ∧ ∀ k r, sent st !! k = Some r → isGeneration r = true →
           ∃ j, (j < k)%nat ∧ acquiredAt net (sent st) j.

(** ** Sample data *)

Definition okResponse (body : value) : FetchResult :=
  Resolved {| ok := true; status := 200; text := ""; json := Returned body |}.

Definition serverError : FetchResult :=
  Resolved {| ok := false; status := 500; text := "Internal Server Error";
              json := Thrown "Unexpected token I in JSON at position 0" |}.

Definition sampleEducation : value :=
  Obj [("id", Str "edu_1"); ("degree", Str "BSc"); ("institution", Str "MIT");
       ("startDate", Str ""); ("endDate", Str "");
       ("description", Str "studied things")].

Definition sampleCustom : value :=
  Obj [("id", Str "7"); ("title", Str "Awards"); ("content", Str "won")].

Definition sampleDocument : ResumeData :=
  {| name := Obj [("firstName", Str "Ada"); ("lastName", Str "Lovelace")];
     aboutMe := Obj [("description", Str "i like coding");
                     ("polishedDescription", Str "")];
     education := [sampleEducation];
     experience := [];
     contact := [];
     skills := [];
     customSections := [sampleCustom] |}.

Definition sampleBuilder : Builder :=
  {| resumeData := sampleDocument; isPolishing := None;
     submitTrigger := None; errorLog := [] |}.

Definition sampleMessages : list UpdateMessage :=
  [ {| section := "education"; entryId := "edu_2"; changeType := add;
       content := Obj [("id", Str "edu_2"); ("degree", Str "MSc")] |};
    {| section := "name"; entryId := "name"; changeType := update;
       content := Obj [("firstName", Str "A"); ("lastName", Str "L")] |};
    {| section := "education"; entryId := "edu_1"; changeType := update;
       content := Obj [("id", Str "edu_1"); ("degree", Str "BA")] |};
    {| section := "education"; entryId := "edu_9"; changeType := update;
       content := Obj [("id", Str "edu_9"); ("degree", Str "PhD")] |};
    {| section := "education"; entryId := "edu_2"; changeType := delete;
       content := Null |};
    {| section := "education"; entryId := "edu_9"; changeType := delete;
       content := Null |} ].

(** The message the [handleDelete] functions build. *)
Definition deleteMessage (sec entryId : string) : UpdateMessage :=
  {| section := sec; entryId := entryId; changeType := delete;
     content := Null |}.

(** A network on which every request succeeds. *)
Definition allFine : Network :=
  λ _, okResponse (Obj [("success", Bool true);
                        ("latexCode", Str "\documentclass{article}")]).

(** A network on which every request gets a 500. *)
Definition allDown : Network := λ _, serverError.

(** A network whose first request gets a 500; the later ones succeed. *)
Definition firstDown : Network :=
  λ n, match n with O => serverError | S _ => allFine n end.

(** A network whose third request gets a 500; the others succeed. *)
Definition thirdDown : Network :=
  λ n, match n with 2%nat => serverError | _ => allFine n end.

(** The preview once the template is scraped, and once the header has been
    generated as well. *)
Definition scrapedPreview : Preview :=
  setIsTemplateScraped true initialPreview.

Definition initializedPreview : Preview :=
  setInitialized (Str "\documentclass{article}") scrapedPreview.

(** The response of the spec's polish scenario. *)
Definition polishedAbout : value :=
  Obj [("success", Bool true);
       ("content",
        Obj [("polishedDescription",
              Str "I am a passionate software engineer.")])].

Definition submitOf (sec : string) : SubmitTrigger :=
  {| trigSection := sec; trigEntryId := sec; trigChangeType := "update";
     timestamp := 0 |}.

Definition bscForm : EducationSection.NewEducation :=
  {| EducationSection.degree := "BSc";
     EducationSection.institution := "MIT";
     EducationSection.startDate := "";
     EducationSection.endDate := "";
     EducationSection.description := "" |}.

Definition mscForm : EducationSection.NewEducation :=
  {| EducationSection.degree := "MSc";
     EducationSection.institution := "ETH";
     EducationSection.startDate := "";
     EducationSection.endDate := "";
     EducationSection.description := "" |}.

(** Three submits in a row, the first one made before the template is
    scraped. *)
Definition sampleSession : list Event :=
  [Submit sampleDocument (submitOf "education");
   Submit sampleDocument (submitOf "education");
   Submit sampleDocument (submitOf "skills")].

(** ** Messages as the section components build them *)

Definition addMessage (sec entryId : string) (c : value) : UpdateMessage :=
  {| section := sec; entryId := entryId; changeType := add; content := c |}.

Definition updateMessage (sec entryId : string) (c : value) : UpdateMessage :=
  {| section := sec; entryId := entryId; changeType := update; content := c |}.

(** ** Editing existing entries: the handlers of the section components *)

(** [data.find(e => e.id === id)].  Only an object can have an [id] equal
    to a string, so what is found is given by its properties; [None] is
    [undefined].  The callback throws on a [null]/[undefined] element it
    reaches. *)
Fixpoint findEntry (id : string) (data : list value)
  : outcome (option (list (string * value))) :=
  match data with
  | [] => Returned None
  | e :: rest =>
      match e with
      | Obj fs =>
          if strictEqStr (lookup "id" fs) id then Returned (Some fs)
          else findEntry id rest
      | _ =>
          let! _ := getProp e "id" in
          findEntry id rest
      end
  end.

(** The [handleUpdate] the section components share, for the section [sec]:
    [const entry = data.find(e => e.id === id);
     if (entry) onUpdate({section, entryId: id, changeType: 'update',
                          content: {...entry, [field]: value}})]. *)
Definition editEntry (sec : string) (data : list value) (id field : string)
    (v : value) : outcome (option UpdateMessage) :=
  let! found := findEntry id data in
  Returned
    (match found with
     | Some fs => Some (updateMessage sec id (Obj (store field v fs)))
     | None => None
     end).

Module ExistingEducation.

(** [handleUpdate(id, field, value)] of [EducationSection] *)
Definition handleUpdate (data : list value) (id field value : string)
  : outcome (option UpdateMessage) :=
  editEntry "education" data id field (Str value).

(** [handleDelete(id)] *)
Definition handleDelete (id : string) : UpdateMessage :=
  deleteMessage "education" id.

End ExistingEducation.

Module ExistingSkills.

(** [handleUpdate(id, skill)] of [SkillsSection] *)
Definition handleUpdate (data : list value) (id skill : string)
  : outcome (option UpdateMessage) :=
  editEntry "skills" data id "skill" (Str skill).

Definition handleDelete (id : string) : UpdateMessage :=
  deleteMessage "skills" id.

End ExistingSkills.

Module ContactSection.

(** The form state [newContact : Omit<Contact, 'id'>]. *)
Record NewContact := {
  type : string;
  value : string
}.

Definition handleAdd (newContact : NewContact) (now : Z)
  : option UpdateMessage :=
  if negb (String.eqb (type newContact) "")
     && negb (String.eqb (value newContact) "") then
    Some (addMessage "contact" ("contact_" ++ pretty now)
            (Obj [("id", Str ("contact_" ++ pretty now));
                  ("type", Str (type newContact));
                  ("value", Str (value newContact))]))
  else None.

Definition handleUpdate (data : list JS.value) (id field value : string)
  : outcome (option UpdateMessage) :=
  editEntry "contact" data id field (Str value).

Definition handleDelete (id : string) : UpdateMessage :=
  deleteMessage "contact" id.

End ContactSection.

Module ExperienceSection.

(** The form state [newExperience : Omit<Experience, 'id'>]. *)
Record NewExperience := {
  title : string;
  company : string;
  startDate : string;
  endDate : string;
  description : string;
  keywords : list string
}.

Definition setKeywords (ks : list string) (e : NewExperience) : NewExperience :=
  {| title := title e; company := company e; startDate := startDate e;
     endDate := endDate e; description := description e; keywords := ks |}.

Definition handleAdd (newExperience : NewExperience) (now : Z)
  : option UpdateMessage :=
  if negb (String.eqb (title newExperience) "")
     && negb (String.eqb (company newExperience) "") then
    Some (addMessage "experience" ("exp_" ++ pretty now)
            (Obj [("id", Str ("exp_" ++ pretty now));
                  ("title", Str (title newExperience));
                  ("company", Str (company newExperience));
                  ("startDate", Str (startDate newExperience));
                  ("endDate", Str (endDate newExperience));
                  ("description", Str (description newExperience));
                  ("keywords", Arr (Str <$> keywords newExperience))]))
  else None.

(** [handleUpdate(id, field, value)]; [value] is [any] here. *)
Definition handleUpdate (data : list value) (id field : string) (v : value)
  : outcome (option UpdateMessage) :=
  editEntry "experience" data id field v.

Definition handleDelete (id : string) : UpdateMessage :=
  deleteMessage "experience" id.

(** [s1.includes(s2)] on strings. *)
Fixpoint stringIncludes (needle hay : string) : bool :=
  String.prefix needle hay
  || match hay with
     | EmptyString => false
     | String _ hay' => stringIncludes needle hay'
     end.

Section Builtins.

Variable trim : string → string.

(** The elements [[...s]] spreads a string [s] into. *)
Variable codePoints : string → list string.

(** [keywords.includes(x)] for a string [x], on whatever [keywords] holds:
    an array compares its elements with [x], a string looks for [x] inside
    itself, anything else has no [includes]. *)
Definition includesKeyword (keywords : value) (x : string) : outcome bool :=
  match keywords with
  | Arr l => Returned (existsb (λ k, strictEqStr k x) l)
  | Str s => Returned (stringIncludes x s)
  | Undefined | Null =>
      Thrown ("Cannot read properties of " ++ typeName keywords
              ++ " (reading 'includes')")
  | _ => Thrown "experience.keywords.includes is not a function"
  end.

(** [[...keywords, x]]; [includesKeyword] has run before, so [keywords] is
    an array or a string. *)
Definition appendKeyword (keywords : value) (x : string) : outcome value :=
  match keywords with
  | Arr l => Returned (Arr (l ++ [Str x]))
  | Str s => Returned (Arr ((Str <$> codePoints s) ++ [Str x]))
  | _ => Thrown (typeName keywords ++ " is not iterable")
  end.

(** [addKeyword(id, keyword)]: the second lookup is the one
    [handleUpdate] makes. *)
Definition addKeyword (data : list value) (id keyword : string)
  : outcome (option UpdateMessage) :=
  let! experience := findEntry id data in
  match experience with
  | None => Returned None
  | Some fs =>
      if String.eqb (trim keyword) "" then Returned None
      else
        let! present := includesKeyword (lookup "keywords" fs) (trim keyword) in
        if present then Returned None
        else
          let! updated := appendKeyword (lookup "keywords" fs) (trim keyword) in
          handleUpdate data id "keywords" updated
  end.

(** [keywords.filter(k => k !== keywordToRemove)] *)
Definition withoutKeyword (keywords : value) (x : string) : outcome value :=
  match keywords with
  | Arr l => Returned (Arr (List.filter (λ k, negb (strictEqStr k x)) l))
  | Undefined | Null =>
      Thrown ("Cannot read properties of " ++ typeName keywords
              ++ " (reading 'filter')")
  | _ => Thrown "experience.keywords.filter is not a function"
  end.

(** [removeKeyword(id, keywordToRemove)] *)
Definition removeKeyword (data : list value) (id keywordToRemove : string)
  : outcome (option UpdateMessage) :=
  let! experience := findEntry id data in
  match experience with
  | None => Returned None
  | Some fs =>
      let! updated := withoutKeyword (lookup "keywords" fs) keywordToRemove in
      handleUpdate data id "keywords" updated
  end.

(** [addNewKeyword(keyword)] and [removeNewKeyword(keywordToRemove)], on
    the keywords of the form. *)
Definition addNewKeyword (keyword : string) (e : NewExperience)
  : NewExperience :=
  if negb (String.eqb (trim keyword) "")
     && negb (existsb (String.eqb (trim keyword)) (keywords e))
  then setKeywords (keywords e ++ [trim keyword]) e
  else e.

Definition removeNewKeyword (keywordToRemove : string) (e : NewExperience)
  : NewExperience :=
  setKeywords
    (List.filter (λ k, negb (String.eqb k keywordToRemove)) (keywords e)) e.

End Builtins.

End ExperienceSection.

(** The texts of the skills of a list. *)
Definition skillNames (l : list value) : list string :=
  omap (λ e, match optProp e "skill" with Str s => Some s | _ => None end) l.

(** The entry with id [id] that [findEntry] finds has the array [ks] as its
    [keywords]. *)
Definition keywordsOf (id : string) (l : list value) (ks : list value)
  : Prop :=
  ∃ fs, findEntry id l = Returned (Some fs) ∧ lookup "keywords" fs = Arr ks.

Definition sampleExperience : value :=
  Obj [("id", Str "exp_1"); ("title", Str "Engineer");
       ("company", Str "ACME"); ("startDate", Str "2020-01");
       ("endDate", Str ""); ("description", Str "built things");
       ("keywords", Arr [Str "Rocq"; Str "OCaml"])].

Definition experiencedDocument : ResumeData :=
  set_experience [sampleExperience] sampleDocument.

(** ** Polishing a draft: [polishNewDraft] of the education and experience
    forms *)

(** [normalized?.polishedDescription ?? normalized?.description ?? ''] *)
Definition draftImprovedText (normalized : value) : value :=
  nullish
    (nullish (optProp normalized "polishedDescription")
             (optProp normalized "description"))
    (Str "").

(** What a call of [polishNewDraft] does to the form: nothing is sent when
    the description is blank; otherwise the request fails (the error is
    logged), or it succeeds and the description is rewritten when the
    improved text is truthy. *)
Inductive DraftOutcome :=
| DraftNotSent
| DraftFailed (msg : string)
| DraftUnchanged
| DraftRewritten (description : value).

(** [polishNewDraft()] for the description the form holds.  The request,
    the status checks and the unwrapping of the envelope are those of
    [handlePolish], word for word; the improved text is read with
    [draftImprovedText]. *)
Definition polishNewDraft (trim : string → string) (description : string)
    (net : FetchResult) : DraftOutcome :=
  if String.eqb (trim description) "" then DraftNotSent
  else
    match polishResponse net with
    | Thrown msg => DraftFailed msg
    | Returned (normalized, _) =>
        if truthy (draftImprovedText normalized)
        then DraftRewritten (draftImprovedText normalized)
        else DraftUnchanged
    end.

(** ** The rest of the preview: the PDF, the panel shown, the submit buttons *)

(** The submit buttons of [ResumeBuilder]: the trigger each
    [handleSubmit...] sets at clock reading [now]. *)
Definition submitTriggerOf (sec entryId : string) (now : Z) : SubmitTrigger :=
  {| trigSection := sec; trigEntryId := entryId; trigChangeType := "update";
     timestamp := now |}.

Definition handleSubmitHeader := submitTriggerOf "header" "header_bundle".
Definition handleSubmitAboutMe := submitTriggerOf "aboutMe" "about".
Definition handleSubmitEducation := submitTriggerOf "education" "education".
Definition handleSubmitExperience := submitTriggerOf "experience" "experience".
Definition handleSubmitSkills := submitTriggerOf "skills" "skills".
Definition handleSubmitCustomSections :=
  submitTriggerOf "customSections" "customSections".

Definition sectionSubmitButtons : list (Z → SubmitTrigger) :=
  [handleSubmitAboutMe; handleSubmitEducation; handleSubmitExperience;
   handleSubmitSkills; handleSubmitCustomSections].

(** The number of section requests of [log] that the network answers with
    LaTeX code, the first request of [log] being the [j]-th of the
    session. *)
Fixpoint sectionSuccesses (net : Network) (j : nat) (log : list Request) : Z :=
  match log with
  | [] => 0
  | r :: rest =>
      (if isSectionRequest r && negb (failedGeneration (net j)) then 1 else 0)
      + sectionSuccesses net (S j) rest
  end.

(** What [await fetch('/api/generate-final-pdf', ...)] and
    [await response.blob()] give. *)
Inductive PdfResult :=
| PdfRejected (msg : string)
| PdfResponse (ok : bool) (text : string) (blob : outcome unit).

(** The preview with the state [generatePdf] works on: [pdfUrl] and
    [showLatex], the object URLs created and not yet revoked, the number of
    URLs created (an object URL is never handed out twice) and the number of
    PDF requests sent. *)
Record FullPreview := {
  core : Preview;
  pdfUrl : option nat;
  showLatex : bool;
  liveUrls : list nat;
  createdUrls : nat;
  pdfRequests : nat
}.

Definition initialFullPreview : FullPreview :=
  {| core := initialPreview; pdfUrl := None; showLatex := true;
     liveUrls := []; createdUrls := 0; pdfRequests := 0 |}.

Definition withCore (c : Preview) (st : FullPreview) : FullPreview :=
  {| core := c; pdfUrl := pdfUrl st; showLatex := showLatex st;
     liveUrls := liveUrls st; createdUrls := createdUrls st;
     pdfRequests := pdfRequests st |}.

Definition setHasGeneratedPreview (b : bool) (st : Preview) : Preview :=
  {| latexCode := latexCode st; isUpdating := isUpdating st;
     error := error st; updates := updates st;
     hasGeneratedPreview := b;
     templateScraped := templateScraped st;
     isScrapingTemplate := isScrapingTemplate st;
     isInitialized := isInitialized st; sent := sent st |}.

(** [URL.revokeObjectURL(u)] *)
Definition revoke (u : nat) (live : list nat) : list nat :=
  List.filter (λ v, negb (Nat.eqb v u)) live.

Definition revokeIfSet (u : option nat) (live : list nat) : list nat :=
  match u with
  | Some v => revoke v live
  | None => live
  end.

(** The [try] block of [generatePdf] up to the blob. *)
Definition pdfResult (r : PdfResult) : outcome unit :=
  match r with
  | PdfRejected msg => Thrown msg
  | PdfResponse ok text blob =>
      if negb ok then Thrown ("Failed to generate PDF: " ++ text) else blob
  end.

(** [generatePdf()], followed by the cleanup of the effect on [pdfUrl]
    when the URL changed: the cleanup revokes the URL of the render it was
    set up in. *)
Definition generatePdf (pdfNet : nat → PdfResult) (st : FullPreview)
  : FullPreview :=
  match pdfResult (pdfNet (pdfRequests st)) with
  | Returned _ =>
      let url := createdUrls st in
      {| core := setIsUpdating false
                   (setError None
                      (setHasGeneratedPreview true
                         (setIsUpdating true (core st))));
         pdfUrl := Some url;
         showLatex := false;
         liveUrls :=
           revokeIfSet (pdfUrl st)
             (revokeIfSet (pdfUrl st) (liveUrls st) ++ [url]);
         createdUrls := S (createdUrls st);
         pdfRequests := S (pdfRequests st) |}
  | Thrown msg =>
      {| core := setIsUpdating false
                   (setError (Some msg) (setIsUpdating true (core st)));
         pdfUrl := pdfUrl st;
         showLatex := showLatex st;
         liveUrls := liveUrls st;
         createdUrls := createdUrls st;
         pdfRequests := S (pdfRequests st) |}
  end.

(** The cleanup that runs when the component unmounts. *)
Definition unmount (st : FullPreview) : list nat :=
  revokeIfSet (pdfUrl st) (liveUrls st).

(** What happens to the preview: the events of [step], a click on
    "Generate PDF" or on "Show LaTeX", and the PDF frame failing to load. *)
Inductive FullEvent :=
| CoreEvent (ev : Event)
| ClickGeneratePdf
| ClickShowLatex
| PdfLoadError.

Definition fullStep (ev : FullEvent) (net : Network)
    (pdfNet : nat → PdfResult) (st : FullPreview) : outcome FullPreview :=
  match ev with
  | CoreEvent e =>
      let! c := step e net (core st) in
      Returned (withCore c st)
  | ClickGeneratePdf => Returned (generatePdf pdfNet st)
  | ClickShowLatex =>
      Returned {| core := core st; pdfUrl := pdfUrl st; showLatex := true;
                  liveUrls := liveUrls st; createdUrls := createdUrls st;
                  pdfRequests := pdfRequests st |}
  | PdfLoadError =>
      Returned (withCore
                  (setError (Some "Failed to load PDF in preview") (core st))
                  st)
  end.

Fixpoint fullRun (evs : list FullEvent) (net : Network)
    (pdfNet : nat → PdfResult) (st : FullPreview) : outcome FullPreview :=
  match evs with
  | [] => Returned st
  | ev :: evs' =>
      let! st' := fullStep ev net pdfNet st in
      fullRun evs' net pdfNet st'
  end.

(** The panel the preview area shows: the chain of conditionals of the
    JSX. *)
Inductive Panel :=
| ErrorPanel (msg : string)
| EmptyPanel
| SpinnerPanel
| WaitingPanel
| LatexPanel (code : value)
| PdfPanel (url : nat)
| ProcessingPanel.

Definition falsyError (e : option string) : bool :=
  match e with
  | Some msg => String.eqb msg ""
  | None => true
  end.

Definition panel (d : ResumeData) (st : FullPreview) : outcome Panel :=
  if negb (falsyError (error (core st))) then
    Returned (ErrorPanel (default "" (error (core st))))
  else
    let! has := hasData d in
    if negb has then Returned EmptyPanel
    else if isUpdating (core st) then Returned SpinnerPanel
    else if negb (hasGeneratedPreview (core st)) then Returned WaitingPanel
    else if showLatex st && truthy (latexCode (core st)) then
      Returned (LatexPanel (latexCode (core st)))
    else
      match pdfUrl st with
      | Some u => Returned (PdfPanel u)
      | None => Returned ProcessingPanel
      end.

(** What holds of the preview between two events. *)
Definition previewInvariant (net : Network) (st : FullPreview) : Prop :=
  isUpdating (core st) = false
  ∧ isScrapingTemplate (core st) = false
  ∧ (isInitialized (core st) = true →
     truthy (latexCode (core st)) = true
     ∧ hasGeneratedPreview (core st) = true)
  ∧ (hasGeneratedPreview (core st) = true →
     isInitialized (core st) = true ∨ is_Some (pdfUrl st))
  ∧ (showLatex st = false → is_Some (pdfUrl st))
  ∧ updates (core st) = sectionSuccesses net 0 (sent (core st))
  ∧ liveUrls st = match pdfUrl st with Some u => [u] | None => [] end
  ∧ (∀ u, pdfUrl st = Some u → (u < createdUrls st)%nat).

(** ** The local state of [CustomSectionsSection] *)

Module CustomSectionsSection.

(** [addSection()] at clock reading [now]: the sections the component keeps
    and the message it passes to [onUpdate].  [Date.now().toString()] prints
    the integer in plain decimal. *)
Definition addSection (now : Z) (sections : list value)
  : list value * UpdateMessage :=
  let newSection := Obj [("id", Str (pretty now)); ("title", Str "");
                         ("content", Str "")] in
  ((sections ++ [newSection])%list,
   addMessage "customSections" (pretty now) newSection).

(** [sections.map(section =>
       section.id === id ? { ...section, [field]: value } : section)].
    Only an object can have an [id] equal to a string; the callback throws
    on a [null]/[undefined] element. *)
Fixpoint withField (id field : string) (v : value) (sections : list value)
  : outcome (list value) :=
  match sections with
  | [] => Returned []
  | e :: rest =>
      let! e' := match e with
                 | Obj fs =>
                     Returned (if strictEqStr (lookup "id" fs) id
                               then Obj (store field v fs) else e)
                 | _ =>
                     let! _ := getProp e "id" in
                     Returned e
                 end in
      let! rest' := withField id field v rest in
      Returned (e' :: rest')
  end.

(** [updateSection(id, field, value)] *)
Definition updateSection (id field value : string) (sections : list JS.value)
  : outcome (list JS.value * option UpdateMessage) :=
  let! updatedSections := withField id field (Str value) sections in
  let! updatedSection := findEntry id updatedSections in
  Returned (updatedSections,
            match updatedSection with
            | Some fs => Some (updateMessage "customSections" id (Obj fs))
            | None => None
            end).

(** [deleteSection(id)] *)
Definition deleteSection (id : string) (sections : list value)
  : outcome (list value * UpdateMessage) :=
  let! updatedSections := filterOut id sections in
  Returned (updatedSections, deleteMessage "customSections" id).

(** What the user can do in the component. *)
Inductive Action :=
| AddSection (now : Z)
| UpdateSection (id field value : string)
| DeleteSection (id : string).

(** One action on the component mounted in [ResumeBuilder]: the handler
    runs on the local [sections], and the builder applies the message passed
    to [onUpdate] to its document. *)
Definition act (a : Action) (sections : list value) (d : ResumeData)
  : outcome (list value * ResumeData) :=
  match a with
  | AddSection now =>
      let r := addSection now sections in
      let! d' := handleUpdate r.2 d in
      Returned (r.1, d')
  | UpdateSection id field v =>
      let! r := updateSection id field v sections in
      match r.2 with
      | Some u =>
          let! d' := handleUpdate u d in
          Returned (r.1, d')
      | None => Returned (r.1, d)
      end
  | DeleteSection id =>
      let! r := deleteSection id sections in
      let! d' := handleUpdate r.2 d in
      Returned (r.1, d')
  end.

(** The side condition of an action: a new section gets an id no section
    has, and an edit does not write the [id]. *)
Definition actionOk (a : Action) (sections : list value) : Prop :=
  match a with
  | AddSection now => Str (pretty now) ∉ ids sections
  | UpdateSection _ field _ => field ≠ "id"
  | DeleteSection _ => True
  end.

End CustomSectionsSection.

(** ** [AboutMeSection] *)

Module AboutMeSection.

(** [handleChange(description)]; [data] is the [aboutMe] of the document.
    (The message carries a [triggerLatex] as well, which [handleUpdate] of
    [ResumeBuilder] does not read.) *)
Definition handleChange (data : value) (description : string)
  : outcome UpdateMessage :=
  let! p := getProp data "polishedDescription" in
  Returned (updateMessage "aboutMe" "about"
              (Obj [("description", Str description);
                    ("polishedDescription", p)])).

(** [handleSubmit()] *)
Definition handleSubmit (data : value) : outcome UpdateMessage :=
  let! desc := getProp data "description" in
  let! p := getProp data "polishedDescription" in
  Returned (updateMessage "aboutMe" "about"
              (Obj [("description", desc); ("polishedDescription", p)])).

(** [handleUsePolished()]: the message, if one is sent. *)
Definition handleUsePolished (data : value) : outcome (option UpdateMessage) :=
  let! p := getProp data "polishedDescription" in
  if truthy p then
    Returned (Some (updateMessage "aboutMe" "about"
                      (Obj [("description", p); ("polishedDescription", p)])))
  else Returned None.

End AboutMeSection.

(** [showing && e.polishedDescription ? e.polishedDescription : e.description],
    the [currentDescription] that [AboutMeSection], [EducationSection] and
    [ExperienceSection] put in the text area; [showing] is the truthiness of
    [showPolished] (of [showPolished[e.id]] for an entry of a list). *)
Definition currentDescription (showing : bool) (e : value) : outcome value :=
  if showing then
    let! p := getProp e "polishedDescription" in
    if truthy p then Returned p else getProp e "description"
  else getProp e "description".

(** A PDF service that always answers with a PDF, and a session that uses
    the controls of the preview. *)
Definition pdfFine : nat → PdfResult := λ _, PdfResponse true "" (Returned ()).

Definition sampleFullSession : list FullEvent :=
  (CoreEvent <$> sampleSession)
  ++ [ClickGeneratePdf; ClickGeneratePdf; ClickShowLatex;
      CoreEvent (Submit sampleDocument (submitOf "skills")); PdfLoadError].

(** * Theorems *)

(** ** Property access and the array helpers *)

Lemma getProp_present (e : value) (k : string) :
  isNullish e = false → getProp e k = Returned (optProp e k).
Proof. by destruct e. Qed.

Lemma entriesOk_cons (e : value) (l : list value) :
  entriesOk (e :: l) = true ↔ isNullish e = false ∧ entriesOk l = true.
Proof.
  unfold entriesOk; simpl. rewrite andb_true_iff, negb_true_iff. tauto.
Qed.

Lemma entriesOk_app (l1 l2 : list value) :
  entriesOk (l1 ++ l2) = entriesOk l1 && entriesOk l2.
Proof. apply forallb_app. Qed.

(** [findIndex] finds what [replaceFirst] replaces. *)
Lemma findIndex_replaceFirst (entryId : string) (l : list value) :
  entriesOk l = true →
  ∃ i : Z,
    findIndex entryId l = Returned i
    ∧ (-1 ≤ i < Z.of_nat (length l))%Z
    ∧ (i = (-1)%Z ↔ forallb (λ e, negb (hasId entryId e)) l = true)
    ∧ ∀ c, (if (0 <=? i)%Z then <[Z.to_nat i := c]> l else l)
           = replaceFirst entryId c l.
Proof.
  induction l as [|e l IH]; intros Hok.
  - exists (-1)%Z. simpl. repeat split; auto; lia.
  - apply entriesOk_cons in Hok as [He Hl].
    destruct (IH Hl) as (i & Hi & Hrange & Hnone & Hrep).
    cbn [findIndex replaceFirst forallb]. rewrite (getProp_present _ _ He).
    cbn [bind]. change (strictEqStr (optProp e "id") entryId)
      with (hasId entryId e).
    destruct (hasId entryId e) eqn:Hid.
    + exists 0%Z. cbn [length]. repeat split; try lia; try discriminate.
    + rewrite Hi. cbn [bind negb andb].
      destruct (Z.ltb_spec i 0) as [Hneg|Hpos].
      * exists (-1)%Z. cbn [length].
        assert (i = (-1)%Z) as -> by lia.
        repeat split; try lia.
        -- intros _. by apply Hnone.
        -- intros c. specialize (Hrep c). simpl in Hrep. simpl.
           by rewrite <- Hrep.
      * exists (i + 1)%Z. cbn [length].
        repeat split; try lia.
        -- intros Hall. apply Hnone in Hall. lia.
        -- intros c. specialize (Hrep c).
           destruct (Z.leb_spec 0 i); [|lia].
           destruct (Z.leb_spec 0 (i + 1)); [|lia].
           replace (Z.to_nat (i + 1)) with (S (Z.to_nat i)) by lia.
           simpl. by rewrite Hrep.
Qed.

Lemma filterOut_removeId (entryId : string) (l : list value) :
  entriesOk l = true → filterOut entryId l = Returned (removeId entryId l).
Proof.
  induction l as [|e l IH]; intros Hok; [done|].
  apply entriesOk_cons in Hok as [He Hl].
  cbn [filterOut]. rewrite (getProp_present _ _ He), (IH Hl).
  cbn [bind]. unfold removeId. cbn [List.filter].
  change (strictEqStr (optProp e "id") entryId) with (hasId entryId e).
  by destruct (hasId entryId e).
Qed.

Lemma replaceFirst_none (entryId : string) (c : value) (l : list value) :
  forallb (λ e, negb (hasId entryId e)) l = true →
  replaceFirst entryId c l = l.
Proof.
  induction l as [|e l IH]; [done|].
  cbn [forallb replaceFirst]. intros [He Hl]%andb_true_iff.
  apply negb_true_iff in He. rewrite He. by rewrite IH.
Qed.

Lemma removeId_none (entryId : string) (l : list value) :
  forallb (λ e, negb (hasId entryId e)) l = true →
  removeId entryId l = l.
Proof.
  induction l as [|e l IH]; [done|].
  cbn [forallb]. intros [He Hl]%andb_true_iff.
  unfold removeId. cbn [List.filter]. rewrite He. f_equal. by apply IH.
Qed.

Lemma entriesOk_replaceFirst (entryId : string) (c : value) (l : list value) :
  isNullish c = false → entriesOk l = true →
  entriesOk (replaceFirst entryId c l) = true.
Proof.
  intros Hc. induction l as [|e l IH]; [done|].
  intros [He Hl]%entriesOk_cons. cbn [replaceFirst].
  destruct (hasId entryId e); apply entriesOk_cons; auto.
Qed.

Lemma entriesOk_removeId (entryId : string) (l : list value) :
  entriesOk l = true → entriesOk (removeId entryId l) = true.
Proof.
  induction l as [|e l IH]; [done|].
  intros [He Hl]%entriesOk_cons. unfold removeId. cbn [List.filter].
  destruct (negb (hasId entryId e)); [apply entriesOk_cons|]; auto.
Qed.

(** On well-formed entries the shared [case] body is the replay step. *)
Lemma applyChange_replayOne (u : UpdateMessage) (l : list value) :
  entriesOk l = true → applyChange u l = Returned (replayOne u l).
Proof.
  intros Hok. unfold applyChange, replayOne.
  destruct (changeType u); [done| |by apply filterOut_removeId].
  destruct (findIndex_replaceFirst (entryId u) l Hok) as (i & -> & _ & _ & Hrep).
  cbn [bind]. by rewrite Hrep.
Qed.

Lemma entriesOk_replayOne (u : UpdateMessage) (l : list value) :
  (changeType u ≠ delete → isNullish (content u) = false) →
  entriesOk l = true → entriesOk (replayOne u l) = true.
Proof.
  intros Hc Hok. unfold replayOne. destruct (changeType u).
  - rewrite entriesOk_app, Hok. unfold entriesOk. simpl.
    by rewrite Hc.
  - by apply entriesOk_replaceFirst; [apply Hc|].
  - by apply entriesOk_removeId.
Qed.

(** ** The document store *)

Lemma listSectionOf_Some (sec : string) (s : ListSection) :
  listSectionOf sec = Some s ↔ sec = sectionName s.
Proof.
  unfold listSectionOf. split.
  - repeat match goal with
           | |- context [String.eqb sec ?k] =>
               destruct (String.eqb_spec sec k) as [->|?]
           end; intros [= <-]; reflexivity.
  - intros ->. by destruct s.
Qed.

Lemma sectionName_eqb (s s' : ListSection) :
  String.eqb (sectionName s) (sectionName s') = bool_decide (s = s').
Proof.
  destruct s, s'; (rewrite bool_decide_eq_true_2 by reflexivity; reflexivity)
                  || (rewrite bool_decide_eq_false_2 by discriminate; reflexivity).
Qed.

Lemma handleUpdate_list (s : ListSection) (u : UpdateMessage) (d : ResumeData) :
  section u = sectionName s →
  handleUpdate u d
  = (let! l := applyChange u (entries s d) in Returned (setEntries s l d)).
Proof. intros Hs. unfold handleUpdate. rewrite Hs. by destruct s. Qed.

Lemma handleUpdate_other (u : UpdateMessage) (d : ResumeData) :
  listSectionOf (section u) = None →
  ∃ d', handleUpdate u d = Returned d'
        ∧ ∀ s, entries s d' = entries s d.
Proof.
  unfold listSectionOf, handleUpdate.
  destruct (String.eqb (section u) "name");
    [intros _; eexists; split; [reflexivity|by intros []]|].
  destruct (String.eqb (section u) "aboutMe");
    [intros _; eexists; split; [reflexivity|by intros []]|].
  repeat match goal with
         | |- context [String.eqb (section u) ?k] =>
             destruct (String.eqb (section u) k); [discriminate|]
         end.
  intros _. eexists; split; [reflexivity|done].
Qed.

Lemma entries_setEntries (s s' : ListSection) (l : list value) (d : ResumeData) :
  entries s' (setEntries s l d) = if bool_decide (s = s') then l else entries s' d.
Proof. by destruct s, s'. Qed.

Lemma documentOk_entries (d : ResumeData) :
  documentOk d = true ↔ ∀ s, entriesOk (entries s d) = true.
Proof.
  unfold documentOk. rewrite !andb_true_iff. split.
  - intros ((((? & ?) & ?) & ?) & ?) []; assumption.
  - intros H. repeat split;
      [apply (H Education)|apply (H Experience)|apply (H Contact)
      |apply (H Skills)|apply (H CustomSections)].
Qed.

(** One message: the updater returns, keeps the document well formed, and
    changes the list of the message's section by one replay step. *)
Lemma handleUpdate_step (u : UpdateMessage) (d : ResumeData) :
  documentOk d = true → messageOk u = true →
  ∃ d', handleUpdate u d = Returned d'
        ∧ documentOk d' = true
        ∧ ∀ s, entries s d'
               = if String.eqb (section u) (sectionName s)
                 then replayOne u (entries s d) else entries s d.
Proof.
  intros Hd Hu. rewrite documentOk_entries in Hd.
  destruct (listSectionOf (section u)) as [s0|] eqn:Hsec.
  - pose proof Hsec as Hname. apply listSectionOf_Some in Hname.
    rewrite (handleUpdate_list s0 u d Hname).
    rewrite (applyChange_replayOne u _ (Hd s0)). cbn [bind].
    eexists; split; [reflexivity|].
    assert (∀ s, entries s (setEntries s0 (replayOne u (entries s0 d)) d)
                 = if String.eqb (section u) (sectionName s)
                   then replayOne u (entries s d) else entries s d) as Hent.
    { intros s. rewrite entries_setEntries, Hname, sectionName_eqb.
      case_bool_decide; by subst. }
    split; [|exact Hent].
    apply documentOk_entries. intros s. rewrite Hent.
    destruct (String.eqb (section u) (sectionName s)); [|apply Hd].
    apply entriesOk_replayOne; [|apply Hd].
    unfold messageOk in Hu. rewrite Hsec in Hu.
    intros Hct. destruct (changeType u); try done; by apply negb_true_iff.
  - destruct (handleUpdate_other u d Hsec) as (d' & Hret & Hent).
    exists d'. split; [exact Hret|].
    assert (∀ s, String.eqb (section u) (sectionName s) = false) as Hne.
    { intros s. apply String.eqb_neq. intros Heq.
      apply listSectionOf_Some in Heq. congruence. }
    split.
    + apply documentOk_entries. intros s. rewrite Hent. apply Hd.
    + intros s. by rewrite Hne, Hent.
Qed.

(** C1. For every sequence of update messages applied to the store, a
    list-valued section (education, experience, contact, skills,
    customSections) ends up as the replay of the messages addressed to it, in
    order: [add] appends the content, [update] replaces the entry whose id is
    [entryId], [delete] removes it.  An [update] or [delete] whose [entryId]
    matches no entry returns the document unchanged, without an error.
    Entries and added or updated contents are entries as the section
    components build them (objects, never [null] or [undefined]). *)
Theorem handleUpdates_replay (s : ListSection) (d : ResumeData) :
  documentOk d = true →
  (∀ us, forallb messageOk us = true →
         ∃ d', handleUpdates us d = Returned d'
               ∧ entries s d' = replay s us (entries s d))
  ∧ (∀ u, section u = sectionName s → changeType u ≠ add →
          forallb (λ e, negb (hasId (entryId u) e)) (entries s d) = true →
          handleUpdate u d = Returned d).
Proof.
  intros Hd. split.
  - intros us. revert d Hd. induction us as [|u us IH]; intros d Hd Hus.
    + by exists d.
    + cbn [forallb] in Hus. apply andb_true_iff in Hus as [Hu Hus].
      destruct (handleUpdate_step u d Hd Hu) as (d1 & Hret & Hd1 & Hent).
      destruct (IH d1 Hd1 Hus) as (d' & Hret' & Hent').
      exists d'. cbn [handleUpdates]. rewrite Hret. cbn [bind].
      split; [exact Hret'|].
      rewrite Hent', Hent. unfold replay. cbn [fold_left].
      by destruct (String.eqb (section u) (sectionName s)).
  - intros u Hs Hct Hnone.
    rewrite (handleUpdate_list s u d Hs).
    apply documentOk_entries with (s := s) in Hd.
    rewrite (applyChange_replayOne u _ Hd). cbn [bind].
    unfold replayOne. destruct (changeType u); [done| |].
    + rewrite replaceFirst_none by done. by destruct s, d.
    + rewrite removeId_none by done. by destruct s, d.
Qed.

Lemma handleUpdates_replay_witness :
  ∃ d', handleUpdates sampleMessages sampleDocument = Returned d'
        ∧ entries Education d'
          = [Obj [("id", Str "edu_1"); ("degree", Str "BA")]].
Proof.
  destruct (handleUpdates_replay Education sampleDocument eq_refl) as [H _].
  destruct (H sampleMessages eq_refl) as (d' & Hret & Hent).
  exists d'. split; [exact Hret|]. rewrite Hent. reflexivity.
Defined.



(** ** The polish-response normaliser *)

Lemma polishResponse_improvedTextOf (body : value) (n t : value) :
  polishResponse (okResponse body) = Returned (n, t) →
  improvedTextOf body = Returned t.
Proof.
  unfold polishResponse, improvedTextOf, okResponse. cbn [ok json negb bind].
  destruct (getProp body "success") as [success|]; [|discriminate].
  cbn [bind]. destruct (truthy success); cbn [negb].
  - destruct (normalize body); [|discriminate]. cbn [bind]. congruence.
  - destruct (getProp body "message"); discriminate.
Qed.

(** C4 fails as stated: a key that is present with the empty string is the
    match the normaliser returns, although a later key holds a non-empty
    text.  Here the body is
    [{success: true, content: {polishedDescription: "", description: "X"}}]. *)
Lemma getImprovedText_empty_match :
  let body := Obj [("success", Bool true);
                   ("content", Obj [("polishedDescription", Str "");
                                    ("description", Str "X")])] in
  ∃ normalized,
    polishResponse (okResponse body) = Returned (normalized, Str "")
    ∧ improvedTextOf body = Returned (Str "")
    ∧ firstNonEmpty normalized = Str "X".
Proof. eexists. repeat split. Qed.

(** C4, amended. The normaliser maps a response body to one improved-text
    value by trying the keys [polishedDescription], [description], [summary],
    [text] in that order and taking the first one that is present (neither
    [null] nor [undefined], the empty string included), the empty string if
    none is; the envelopes [{content: {description: X}}],
    [{polishedDescription: X}] and [{summary: X}] each yield [X], bare or
    with [success: true] next to them. *)
Theorem getImprovedText_firstPresent :
  (∀ obj, getImprovedText obj = firstPresent obj)
  ∧ (∀ x fs, In fs (envelopeShapes x) →
       improvedTextOf (Obj fs) = Returned (Str x)
       ∧ ∃ n, polishResponse (okResponse (Obj (("success", Bool true) :: fs)))
              = Returned (n, Str x)).
Proof.
  split.
  - intros obj. unfold getImprovedText, firstPresent, textKeys, nullish.
    cbn [map List.filter].
    generalize (optProp obj "polishedDescription") (optProp obj "description")
               (optProp obj "summary") (optProp obj "text").
    intros a b c d.
    destruct (isNullish a) eqn:Ha, (isNullish b) eqn:Hb,
             (isNullish c) eqn:Hc, (isNullish d) eqn:Hd;
      cbn [negb]; repeat (cbv iota; rewrite ?Ha, ?Hb, ?Hc, ?Hd);
      reflexivity.
  - intros x fs Hin. cbn [envelopeShapes In] in Hin.
    destruct Hin as [<-|[<-|[<-|[]]]]; (split; [reflexivity|eexists; reflexivity]).
Qed.

Lemma getImprovedText_firstPresent_witness :
  improvedTextOf (Obj [("summary", Str "Seasoned engineer.")])
  = Returned (Str "Seasoned engineer.").
Proof.
  apply (proj2 getImprovedText_firstPresent "Seasoned engineer."
           [("summary", Str "Seasoned engineer.")]).
  cbn. auto.
Defined.

(** ** The polish client *)

Lemma lookup_store (q k : string) (v : value) (fs : list (string * value)) :
  lookup q (store k v fs) = if String.eqb q k then v else lookup q fs.
Proof.
  induction fs as [|[k' v'] fs IH]; cbn [store lookup].
  - by rewrite (String.eqb_sym k q).
  - destruct (String.eqb_spec k' k) as [->|Hne]; cbn [lookup].
    + rewrite (String.eqb_sym k q). by destruct (String.eqb q k).
    + rewrite IH. destruct (String.eqb_spec k' q) as [->|Hne'];
        [|reflexivity].
      destruct (String.eqb_spec q k); [congruence|reflexivity].
Qed.

Lemma hasId_object (entryId : string) (e : value) :
  hasId entryId e = true → ∃ fs, e = Obj fs.
Proof. destruct e; try discriminate. eauto. Qed.

(** A non-negative result of [findIndex] is the position of an entry with
    the id looked for. *)
Lemma findIndex_found (entryId : string) (l : list value) (i : Z) :
  findIndex entryId l = Returned i → (0 ≤ i)%Z →
  ∃ e, l !! Z.to_nat i = Some e ∧ hasId entryId e = true.
Proof.
  revert i. induction l as [|e l IH]; intros i; cbn [findIndex].
  - intros [= <-]. lia.
  - destruct (getProp e "id") as [v|] eqn:Hv; [|discriminate]. cbn [bind].
    assert (strictEqStr v entryId = hasId entryId e) as ->.
    { destruct e; try discriminate; by injection Hv as <-. }
    destruct (hasId entryId e) eqn:Hid.
    + intros [= <-] _. by exists e.
    + destruct (findIndex entryId l) as [r|]; [|discriminate]. cbn [bind].
      destruct (Z.ltb_spec r 0); intros [= <-] Hi; [lia|].
      destruct (IH r eq_refl) as (e' & He' & Hid'); [lia|].
      exists e'. split; [|exact Hid'].
      replace (Z.to_nat (r + 1)) with (S (Z.to_nat r)) by lia. exact He'.
Qed.

Lemma setEntryProp_object (i : Z) (k : string) (x : value) (l : list value)
    (fs : list (string * value)) :
  l !! Z.to_nat i = Some (Obj fs) →
  setEntryProp i k x l = Returned (<[Z.to_nat i := Obj (store k x fs)]> l).
Proof. intros Hl. unfold setEntryProp. by rewrite Hl. Qed.

Lemma setPolishedAt_object (i : Z) (t : value) (l : list value)
    (fs : list (string * value)) :
  l !! Z.to_nat i = Some (Obj fs) →
  setPolishedAt i t l
  = Returned (<[Z.to_nat i :=
                 Obj (store "description" t (store "polishedDescription" t fs))]> l).
Proof.
  intros Hl. unfold setPolishedAt.
  rewrite (setEntryProp_object _ _ _ _ _ Hl). cbn [bind].
  erewrite setEntryProp_object
    by (apply list_lookup_insert_eq; by eapply lookup_lt_Some).
  by rewrite list_insert_insert_eq.
Qed.



(** With nothing to write, the polish updater returns the document it got. *)
Lemma polishUpdater_nothing (sec entryId : string) (n t : value)
    (d : ResumeData) :
  documentOk d = true → truthy t = false →
  (sec = "customSections" → truthy (nullish (optProp n "content") t) = false) →
  polishUpdater sec entryId n t d = Returned d.
Proof.
  intros Hd Ht Hc. rewrite documentOk_entries in Hd. unfold polishUpdater.
  rewrite Ht.
  destruct (String.eqb sec "aboutMe"); [done|].
  destruct (String.eqb sec "education").
  { destruct (findIndex_replaceFirst entryId _ (Hd Education)) as (i & Hi & _).
    cbn [entries] in Hi. rewrite Hi. cbn [bind].
    by rewrite andb_false_r. }
  destruct (String.eqb sec "experience").
  { destruct (findIndex_replaceFirst entryId _ (Hd Experience)) as (i & Hi & _).
    cbn [entries] in Hi. rewrite Hi. cbn [bind].
    by rewrite andb_false_r. }
  destruct (String.eqb_spec sec "customSections") as [Hs|]; [|done].
  destruct (findIndex_replaceFirst entryId _ (Hd CustomSections)) as (i & Hi & _).
  cbn [entries] in Hi. rewrite Hi. cbn [bind].
  rewrite (Hc Hs). by destruct (0 <=? i)%Z.
Qed.

(** C5 fails as stated: a successful response whose improved text is empty
    is not treated as an error.  With the body
    [{success: true, content: {description: ""}}] nothing is logged by the
    [catch] block and a submit trigger is emitted, as after a polish that
    worked. *)
Lemma handlePolish_empty_text_not_an_error :
  let body := Obj [("success", Bool true);
                   ("content", Obj [("description", Str "")])] in
  improvedTextOf body = Returned (Str "")
  ∧ handlePolish "aboutMe" "about" 1700000000000 (okResponse body) sampleBuilder
    = Returned {| resumeData := sampleDocument;
                  isPolishing := None;
                  submitTrigger :=
                    Some (polishTrigger "aboutMe" "about" 1700000000000);
                  errorLog := [] |}.
Proof. split; reflexivity. Qed.

(** C5, amended. A polish call whose request fails in transport, whose
    response has a non-success status or a malformed body, or whose body has
    no truthy [success], ends in the [catch] block: the error is logged and
    the document and the submit trigger are left as they were.  A successful
    response whose improved text is empty is not an error: nothing is logged
    and a submit trigger is emitted, and the document is still left as it
    was (for [customSections], when the improved content is empty too). *)
Theorem handlePolish_failure (sec entryId : string) (now : Z)
    (net : FetchResult) (st : Builder) :
  (∀ msg, polishResponse net = Thrown msg →
          handlePolish sec entryId now net st = Returned (polishFailed msg st))
  ∧ (∀ msg, net = Rejected msg → polishResponse net = Thrown msg)
  ∧ (∀ res, net = Resolved res → ok res = false →
            polishResponse net = Thrown ("HTTP " ++ pretty (status res)))
  ∧ (∀ res msg, net = Resolved res → ok res = true → json res = Thrown msg →
                polishResponse net = Thrown msg)
  ∧ (∀ res body, net = Resolved res → ok res = true →
                 json res = Returned body →
                 truthy (optProp body "success") = false →
                 ∃ msg, polishResponse net = Thrown msg)
  ∧ (∀ n t, polishResponse net = Returned (n, t) → truthy t = false →
            (sec = "customSections" →
             truthy (nullish (optProp n "content") t) = false) →
            documentOk (resumeData st) = true →
            handlePolish sec entryId now net st
            = Returned {| resumeData := resumeData st;
                          isPolishing := None;
                          submitTrigger := Some (polishTrigger sec entryId now);
                          errorLog := errorLog st |}).
Proof.
  repeat split.
  - intros msg Hr. unfold handlePolish. by rewrite Hr.
  - by intros msg ->.
  - intros res -> Hok. unfold polishResponse. by rewrite Hok.
  - intros res msg -> Hok Hj. unfold polishResponse. by rewrite Hok, Hj.
  - intros res body -> Hok Hj Hs. unfold polishResponse. rewrite Hok, Hj.
    cbn [negb bind]. destruct (isNullish body) eqn:Hb.
    + destruct body; try discriminate; eexists; reflexivity.
    + rewrite !getProp_present by done. cbn [bind]. rewrite Hs.
      eexists; reflexivity.
  - intros n t Hr Ht Hc Hd. unfold handlePolish. rewrite Hr.
    by rewrite (polishUpdater_nothing sec entryId n t _ Hd Ht Hc).
Qed.

Lemma handlePolish_failure_witness :
  handlePolish "education" "edu_1" 5 (Rejected "Failed to fetch") sampleBuilder
  = Returned (polishFailed "Failed to fetch" sampleBuilder)
  ∧ handlePolish "education" "edu_1" 5 serverError sampleBuilder
    = Returned (polishFailed "HTTP 500" sampleBuilder)
  ∧ handlePolish "education" "edu_1" 5
      (okResponse (Obj [("success", Bool false); ("message", Str "quota")]))
      sampleBuilder
    = Returned (polishFailed "quota" sampleBuilder)
  ∧ handlePolish "education" "edu_1" 5
      (okResponse (Obj [("success", Bool true)])) sampleBuilder
    = Returned {| resumeData := sampleDocument; isPolishing := None;
                  submitTrigger := Some (polishTrigger "education" "edu_1" 5);
                  errorLog := [] |}.
Proof.
  split; [|split; [|split]].
  - apply (handlePolish_failure "education" "edu_1" 5
             (Rejected "Failed to fetch") sampleBuilder). reflexivity.
  - apply (handlePolish_failure "education" "edu_1" 5 serverError
             sampleBuilder). reflexivity.
  - apply (handlePolish_failure "education" "edu_1" 5
             (okResponse (Obj [("success", Bool false); ("message", Str "quota")]))
             sampleBuilder). reflexivity.
  - apply (handlePolish_failure "education" "edu_1" 5
             (okResponse (Obj [("success", Bool true)])) sampleBuilder)
      with (n := Obj [("success", Bool true)]) (t := Str "");
      [reflexivity|reflexivity|discriminate|reflexivity].
Defined.



(** ** Template acquisition *)

Lemma scrapeTemplate_scraped (c : Closure) (net : Network) (st : Preview) :
  isTemplateScraped c = true → scrapeTemplate c net st = st.
Proof. intros Hc. unfold scrapeTemplate. by rewrite Hc. Qed.

Lemma scrapeTemplate_sent (c : Closure) (net : Network) (st : Preview) :
  sent (scrapeTemplate c net st)
  = if isTemplateScraped c then sent st
    else (sent st ++ [ScrapeTemplate])%list.
Proof.
  unfold scrapeTemplate. destruct (isTemplateScraped c); [done|].
  by destruct (scrapeResult _).
Qed.

Lemma scrapeTemplate_isInitialized (c : Closure) (net : Network) (st : Preview) :
  isInitialized (scrapeTemplate c net st) = isInitialized st.
Proof.
  unfold scrapeTemplate. destruct (isTemplateScraped c); [done|].
  by destruct (scrapeResult _).
Qed.

Lemma scrapeTemplate_monotone (c : Closure) (net : Network) (st : Preview) :
  templateScraped st = true → templateScraped (scrapeTemplate c net st) = true.
Proof.
  unfold scrapeTemplate. destruct (isTemplateScraped c); [done|].
  by destruct (scrapeResult _).
Qed.

(** What [initializeLatex] does to the request log and the two flags. *)
Lemma initializeLatex_effect (c : Closure) (net : Network) (st st' : Preview) :
  initializeLatex c net st = Returned st' →
  (st' = st
   ∨ (isTemplateScraped c = true
      ∧ hasData (data c) = Returned true
      ∧ sent st' = (sent st ++ [LatexUpdate (headerPayload (data c))])%list))
  ∧ templateScraped st' = templateScraped st
  ∧ (isInitialized st' = true →
     isInitialized st = true ∨ isTemplateScraped c = true).
Proof.
  unfold initializeLatex.
  destruct (hasData (data c)) as [has|]; [|discriminate]. cbn [bind].
  destruct has, (isTemplateScraped c) eqn:Hc; cbn [negb orb];
    try (intros [= <-]; by auto).
  rewrite scrapeTemplate_scraped by done.
  destruct (latexResult _ _); intros [= <-]; cbn; auto 10.
Qed.

(** What [updateLatexSection] does to the request log and the two flags. *)
Lemma updateLatexSection_effect (c : Closure) (u : SubmitTrigger)
    (net : Network) (st st' : Preview) :
  updateLatexSection c u net st = Returned st' →
  (∃ rs, sent st' = (sent st ++ rs)%list
         ∧ (isTemplateScraped c = true → forallb isGeneration rs = true)
         ∧ (isTemplateScraped c = false → isInitialized st = false →
            forallb (λ r, negb (isGeneration r)) rs = true)
         ∧ (isInitialized st = false →
            forallb (λ r, negb (isSectionRequest r)) rs = true))
  ∧ (templateScraped st = true → templateScraped st' = true)
  ∧ (isInitialized st' = true →
     isInitialized st = true ∨ isTemplateScraped c = true).
Proof.
  unfold updateLatexSection.
  set (st0 := if negb (isTemplateScraped c) then scrapeTemplate c net st else st).
  assert (sent st0 = if isTemplateScraped c then sent st
                     else (sent st ++ [ScrapeTemplate])%list) as Hsent0.
  { subst st0. destruct (isTemplateScraped c) eqn:Hc; cbn [negb]; [done|].
    by rewrite scrapeTemplate_sent, Hc. }
  assert (isInitialized st0 = isInitialized st) as Hinit0.
  { subst st0. destruct (negb (isTemplateScraped c)); [|done].
    apply scrapeTemplate_isInitialized. }
  assert (templateScraped st = true → templateScraped st0 = true) as Hmono0.
  { subst st0. destruct (negb (isTemplateScraped c)); [|done].
    apply scrapeTemplate_monotone. }
  clearbody st0. rewrite Hinit0.
  destruct (isInitialized st) eqn:Hinit; cbn [negb].
  - destruct (latexResult _ _) as [code|msg].
    + intros [= <-]. cbn. rewrite Hsent0. split; [|auto].
      destruct (isTemplateScraped c).
      * eexists. split; [reflexivity|]. repeat split; done.
      * eexists. split; [by rewrite <- app_assoc|]. repeat split; done.
    + destruct (initializeLatex c net _) as [st3|] eqn:H3; [|discriminate].
      cbn [bind]. intros [= <-].
      apply initializeLatex_effect in H3 as (Hs3 & Ht3 & Hi3).
      cbn in Hs3, Ht3, Hi3. cbn. rewrite Ht3. split; [|auto].
      destruct Hs3 as [-> | (Hc & _ & ->)]; cbn; rewrite Hsent0.
      * destruct (isTemplateScraped c).
        -- eexists. split; [reflexivity|]. repeat split; done.
        -- eexists. split; [by rewrite <- app_assoc|]. repeat split; done.
      * rewrite Hc. eexists. split; [by rewrite <- app_assoc|].
        repeat split; done.
  - intros H3. apply initializeLatex_effect in H3 as (Hs3 & Ht3 & Hi3).
    rewrite Ht3, Hinit0 in *. split; [|auto].
    destruct Hs3 as [-> | (Hc & _ & ->)]; rewrite Hsent0.
    + destruct (isTemplateScraped c).
      * exists []. rewrite app_nil_r. repeat split; auto.
      * eexists. split; [reflexivity|]. repeat split; auto; done.
    + rewrite Hc. eexists. split; [reflexivity|]. repeat split; done.
Qed.

(** One event: the log only grows; once the template is scraped no further
    scrape request is sent and the flag stays set; before that no generation
    request is sent. *)
Lemma step_effect (ev : Event) (net : Network) (st st' : Preview) :
  step ev net st = Returned st' →
  ∃ rs, sent st' = (sent st ++ rs)%list
        ∧ (templateScraped st = true →
           forallb isGeneration rs = true ∧ templateScraped st' = true)
        ∧ (initializedAfterScrape st → initializedAfterScrape st')
        ∧ (initializedAfterScrape st → templateScraped st = false →
           forallb (λ r, negb (isGeneration r)) rs = true).
Proof.
  unfold initializedAfterScrape.
  destruct ev as [d u|d]; cbn [step]; [unfold processSubmit|].
  - destruct (String.eqb (trigSection u) "header").
    + intros H. apply initializeLatex_effect in H as (Hs & Ht & Hi).
      cbn [render isTemplateScraped data] in *. rewrite Ht.
      destruct Hs as [-> | (Hc & _ & ->)].
      * exists []. rewrite app_nil_r. repeat split; auto.
      * eexists. split; [reflexivity|]. rewrite Hc.
        repeat split; auto; discriminate.
    + intros H. apply updateLatexSection_effect in H
        as ((rs & Hs & Hgen & Hnogen & _) & Ht & Hi).
      cbn [render isTemplateScraped data] in *.
      exists rs. split; [exact Hs|]. repeat split; auto.
      * intros Hinv H'. destruct (Hi H'); auto.
      * intros Hinv Hf. apply Hnogen; [exact Hf|].
        destruct (isInitialized st); [|done]. rewrite Hinv in Hf; done.
  - intros [= <-]. rewrite scrapeTemplate_sent, scrapeTemplate_isInitialized.
    cbn [render isTemplateScraped].
    destruct (templateScraped st) eqn:Ht.
    + exists []. rewrite app_nil_r. repeat split; auto;
        intros; by apply scrapeTemplate_monotone.
    + eexists. split; [reflexivity|]. repeat split; try done.
      intros Hinv Hi. by specialize (Hinv Hi).
Qed.


Lemma run_initializedAfterScrape (evs : list Event) (net : Network)
    (st st' : Preview) :
  initializedAfterScrape st → run evs net st = Returned st' →
  initializedAfterScrape st'.
Proof.
  revert st. induction evs as [|ev evs IH]; intros st Hinv; cbn [run].
  - by intros [= <-].
  - destruct (step ev net st) as [st1|] eqn:H1; [|discriminate]. cbn [bind].
    apply step_effect in H1 as (_ & _ & _ & Hinv1 & _). eauto.
Qed.



(** ** The document generator *)

Lemma newRequests_app (st st' : Preview) (rs : list Request) :
  sent st' = (sent st ++ rs)%list → newRequests st st' = rs.
Proof. intros Hs. unfold newRequests. rewrite Hs. apply drop_app_length. Qed.

Lemma latexResult_failed (fallback : string) (r : FetchResult) :
  failedGeneration r = true ↔ ∃ msg, latexResult fallback r = Thrown msg.
Proof.
  unfold failedGeneration, latexResult.
  destruct r as [msg|res]; [split; eauto|].
  destruct (ok res); cbn [negb orb]; [|split; eauto].
  destruct (json res) as [body|msg]; cbn [bind]; [|split; eauto].
  destruct (isNullish body) eqn:Hb.
  - destruct body; try discriminate; cbn; split; eauto.
  - rewrite !getProp_present by done. cbn [bind].
    destruct (truthy (optProp body "success") && truthy (optProp body "latexCode"));
      cbn [negb]; split; eauto; try discriminate.
    intros [msg [=]].
Qed.

(** Past its guard [initializeLatex] sends the header request and ends with
    that request's outcome: the code and the initialized state, or the
    error. *)
Lemma initializeLatex_runs (c : Closure) (net : Network) (st : Preview) :
  hasData (data c) = Returned true → isTemplateScraped c = true →
  ∃ st', initializeLatex c net st = Returned st'
         ∧ sent st' = (sent st ++ [LatexUpdate (headerPayload (data c))])%list
         ∧ isUpdating st' = false
         ∧ match latexResult "No LaTeX code returned from header update"
                   (net (length (sent st))) with
           | Returned code =>
               latexCode st' = code ∧ error st' = None
               ∧ isInitialized st' = true
           | Thrown msg =>
               error st' = Some msg ∧ latexCode st' = latexCode st
               ∧ isInitialized st' = isInitialized st
           end.
Proof.
  intros Hhas Hc. unfold initializeLatex. rewrite Hhas, Hc. cbn [bind negb orb].
  rewrite scrapeTemplate_scraped by done.
  eexists. split; [reflexivity|]. cbn.
  destruct (latexResult _ _); cbn; auto.
Qed.




(** C3 fails as stated: when the section request fails while the document
    is empty, the fallback [initializeLatex] returns at its guard.  No full
    generation is requested, and no error is shown for the failed section
    request either.  The session scrapes the template and generates the
    header for a document that is then emptied; the submit of the skills
    section gets a 500. *)
Lemma updateLatexSection_no_fallback :
  ∃ st st',
    run [ClickScrape sampleDocument;
         Submit sampleDocument (submitOf "header")] thirdDown initialPreview
    = Returned st
    ∧ isInitialized st = true
    ∧ failedGeneration (thirdDown (length (sent st))) = true
    ∧ updateLatexSection (render initialData st) (submitOf "skills")
        thirdDown st = Returned st'
    ∧ newRequests st st'
      = [LatexUpdate (sectionPayload (submitOf "skills") initialData)]
    ∧ error st' = None
    ∧ latexCode st' = latexCode st.
Proof.
  do 2 eexists. split; [vm_compute; reflexivity|].
  repeat split; vm_compute; reflexivity.
Qed.

(** C3, amended. While the generator is initialized, the template scraped
    and the document not empty, every failure of a section-scope generation
    (transport failure, non-success status, malformed body, or a body without
    a truthy [success] or [latexCode]) is followed, before the call settles,
    by exactly one header generation, and the result shown is that
    generation's: its LaTeX code with no error, or its error, which is set
    as the visible error and not retried. *)
Theorem updateLatexSection_fallback (c : Closure) (u : SubmitTrigger)
    (net : Network) (st : Preview) :
  isInitialized st = true →
  isTemplateScraped c = true →
  hasData (data c) = Returned true →
  failedGeneration (net (length (sent st))) = true →
  ∃ st', updateLatexSection c u net st = Returned st'
         ∧ newRequests st st'
           = [LatexUpdate (sectionPayload u (data c));
              LatexUpdate (headerPayload (data c))]
         ∧ isUpdating st' = false
         ∧ match latexResult "No LaTeX code returned from header update"
                   (net (S (length (sent st)))) with
           | Returned code => latexCode st' = code ∧ error st' = None
           | Thrown msg => error st' = Some msg ∧ latexCode st' = latexCode st
           end.
Proof.
  intros Hinit Hc Hhas Hfail.
  apply (latexResult_failed "No LaTeX code returned from section update")
    in Hfail as [msg Hfail].
  unfold updateLatexSection. rewrite Hc. cbn [negb]. rewrite Hinit.
  cbn [negb]. cbn [setError setIsUpdating sent]. rewrite Hfail.
  set (st2 := send _ _).
  destruct (initializeLatex_runs c net st2 Hhas Hc)
    as (st3 & -> & Hs3 & _ & Hres).
  cbn [bind]. eexists. split; [reflexivity|].
  split.
  { apply newRequests_app. cbn. rewrite Hs3. subst st2. cbn.
    by rewrite <- app_assoc. }
  split; [reflexivity|].
  subst st2. cbn [send sent] in Hres. rewrite length_app in Hres.
  cbn [length] in Hres. rewrite Nat.add_1_r in Hres.
  destruct (latexResult _ (net (S _))); cbn; tauto.
Qed.

Lemma updateLatexSection_fallback_witness :
  (∃ st', updateLatexSection (render sampleDocument initializedPreview)
            (submitOf "experience") firstDown initializedPreview
          = Returned st'
          ∧ length (newRequests initializedPreview st') = 2%nat
          ∧ latexCode st' = Str "\documentclass{article}"
          ∧ error st' = None)
  ∧ (∃ st', updateLatexSection (render sampleDocument initializedPreview)
              (submitOf "experience") allDown initializedPreview
            = Returned st'
            ∧ length (newRequests initializedPreview st') = 2%nat
            ∧ error st' = Some "HTTP 500: Internal Server Error").
Proof.
  split.
  - destruct (updateLatexSection_fallback
                (render sampleDocument initializedPreview)
                (submitOf "experience") firstDown initializedPreview
                eq_refl eq_refl eq_refl eq_refl)
      as (st' & Hret & Hnew & _ & Hcode & Herr).
    exists st'. split; [exact Hret|]. rewrite Hnew. auto.
  - destruct (updateLatexSection_fallback
                (render sampleDocument initializedPreview)
                (submitOf "experience") allDown initializedPreview
                eq_refl eq_refl eq_refl eq_refl)
      as (st' & Hret & Hnew & _ & Herr & _).
    exists st'. split; [exact Hret|]. rewrite Hnew. auto.
Defined.

(** ** Generation and template acquisition *)

Lemma scrapeTemplate_acquired (c : Closure) (net : Network) (st : Preview) :
  templateScraped (scrapeTemplate c net st) = true →
  templateScraped st = true
  ∨ (isTemplateScraped c = false
     ∧ scrapeResult (net (length (sent st))) = Returned ()).
Proof.
  unfold scrapeTemplate. destruct (isTemplateScraped c); [auto|].
  destruct (scrapeResult _) as [[]|]; cbn; auto.
Qed.

Lemma initializeLatex_guard (c : Closure) (net : Network) (st st' : Preview) :
  isTemplateScraped c = false →
  initializeLatex c net st = Returned st' → st' = st.
Proof.
  intros Hc. unfold initializeLatex. rewrite Hc.
  destruct (hasData (data c)); [|discriminate]. cbn [bind negb].
  rewrite orb_true_r. congruence.
Qed.

(** A section-scope call made by a render that saw no template sends the
    scrape request before anything else. *)
Lemma updateLatexSection_scrapes_first (c : Closure) (u : SubmitTrigger)
    (net : Network) (st st' : Preview) :
  isTemplateScraped c = false →
  updateLatexSection c u net st = Returned st' →
  ∃ rs, sent st' = (sent st ++ ScrapeTemplate :: rs)%list
        ∧ (templateScraped st' = true →
           templateScraped st = true
           ∨ scrapeResult (net (length (sent st))) = Returned ()).
Proof.
  intros Hc. unfold updateLatexSection. rewrite Hc. cbn [negb].
  pose proof (scrapeTemplate_sent c net st) as Hs0. rewrite Hc in Hs0.
  pose proof (scrapeTemplate_acquired c net st) as Ha0.
  set (st0 := scrapeTemplate c net st) in *. clearbody st0.
  destruct (isInitialized st0); cbn [negb].
  - destruct (latexResult _ _).
    + intros [= <-]. eexists. cbn. rewrite Hs0, <- app_assoc.
      split; [reflexivity|]. intros H. destruct (Ha0 H); tauto.
    + destruct (initializeLatex c net _) as [st3|] eqn:H3; [|discriminate].
      apply (initializeLatex_guard _ _ _ _ Hc) in H3 as ->.
      cbn [bind]. intros [= <-]. eexists. cbn. rewrite Hs0, <- app_assoc.
      split; [reflexivity|]. intros H. destruct (Ha0 H); tauto.
  - intros H3. apply (initializeLatex_guard _ _ _ _ Hc) in H3 as ->.
    exists []. split; [exact Hs0|]. intros H. destruct (Ha0 H); tauto.
Qed.

Lemma updateLatexSection_returns (c : Closure) (u : SubmitTrigger)
    (net : Network) (st : Preview) (has : bool) :
  hasData (data c) = Returned has →
  ∃ st', updateLatexSection c u net st = Returned st'.
Proof.
  intros Hhas.
  assert (∀ st1, ∃ st', initializeLatex c net st1 = Returned st') as Hinit.
  { intros st1. unfold initializeLatex. rewrite Hhas. cbn [bind].
    destruct (negb has || negb (isTemplateScraped c)); eauto. }
  unfold updateLatexSection.
  destruct (isInitialized _); cbn [negb]; [|apply Hinit].
  destruct (latexResult _ _); [eauto|].
  destruct (Hinit (send (LatexUpdate (sectionPayload u (data c)))
              (setError None (setIsUpdating true
                 (if negb (isTemplateScraped c)
                  then scrapeTemplate c net st else st))))) as [st3 ->].
  cbn [bind]. eauto.
Qed.

(** When an event sets the scraped flag, its first request is a scrape
    request that succeeded. *)
Lemma step_flag (ev : Event) (net : Network) (st st' : Preview) :
  step ev net st = Returned st' → templateScraped st' = true →
  templateScraped st = true
  ∨ (scrapeResult (net (length (sent st))) = Returned ()
     ∧ ∃ rs, sent st' = (sent st ++ ScrapeTemplate :: rs)%list).
Proof.
  destruct ev as [d u|d]; cbn [step]; [unfold processSubmit|].
  - destruct (String.eqb (trigSection u) "header").
    + intros H. apply initializeLatex_effect in H as (_ & Ht & _).
      rewrite Ht. auto.
    + destruct (templateScraped st) eqn:Ht; [auto|]. intros Hret Ht'.
      destruct (updateLatexSection_scrapes_first (render d st) u net st st'
                  Ht Hret) as (rs & Hs & Hacq).
      destruct (Hacq Ht') as [?|?]; [congruence|]. right. eauto.
  - intros [= <-] Ht'.
    destruct (scrapeTemplate_acquired _ _ _ Ht') as [?|[Hc Hres]]; [auto|].
    right. split; [exact Hres|]. exists [].
    rewrite scrapeTemplate_sent. by rewrite Hc.
Qed.

Lemma acquiredAt_app (net : Network) (log rs : list Request) (j : nat) :
  acquiredAt net log j → acquiredAt net (log ++ rs) j.
Proof. intros [Hl Hr]. split; [by apply lookup_app_l_Some|exact Hr]. Qed.

Lemma forallb_lookup {A} (f : A → bool) (l : list A) (i : nat) (x : A) :
  forallb f l = true → l !! i = Some x → f x = true.
Proof.
  intros Hall Hi. rewrite forallb_forall in Hall. apply Hall.
  apply list_elem_of_In. by eapply list_elem_of_lookup_2.
Qed.

Lemma step_acquisitionInvariant (ev : Event) (net : Network)
    (st st' : Preview) :
  step ev net st = Returned st' →
  acquisitionInvariant net st → acquisitionInvariant net st'.
Proof.
  intros Hstep (Hflag & Hinit & Hgen).
  pose proof (step_flag _ _ _ _ Hstep) as Hnew.
  apply step_effect in Hstep as (rs & Hs & Hscraped & Hinit' & Hnone).
  assert (templateScraped st' = true → ∃ j, acquiredAt net (sent st') j)
    as Hflag'.
  { intros Ht'. destruct (Hnew Ht') as [Ht|[Hres [rs' Hs']]].
    - destruct (Hflag Ht) as [j Hj]. exists j. rewrite Hs.
      by apply acquiredAt_app.
    - exists (length (sent st)). split; [|exact Hres].
      rewrite Hs'. by apply list_lookup_middle. }
  split; [exact Hflag'|]. split; [auto|].
  intros k r Hk Hr. rewrite Hs in Hk.
  apply lookup_app_Some in Hk as [Hk|[Hlen Hk]].
  - destruct (Hgen k r Hk Hr) as (j & Hjk & Hj).
    exists j. split; [exact Hjk|]. rewrite Hs. by apply acquiredAt_app.
  - destruct (templateScraped st) eqn:Ht.
    + destruct (Hflag eq_refl) as [j Hj]. exists j.
      split; [|rewrite Hs; by apply acquiredAt_app].
      destruct Hj as [Hj _]. apply lookup_lt_Some in Hj.
      destruct (decide (k = length (sent st))) as [->|]; [lia|lia].
    + pose proof (forallb_lookup _ _ _ _ (Hnone Hinit eq_refl) Hk) as Hno.
      cbv beta in Hno. by rewrite Hr in Hno.
Qed.

Lemma run_acquisitionInvariant (evs : list Event) (net : Network)
    (st st' : Preview) :
  run evs net st = Returned st' →
  acquisitionInvariant net st → acquisitionInvariant net st'.
Proof.
  revert st. induction evs as [|ev evs IH]; intros st; cbn [run].
  - by intros [= <-].
  - destruct (step ev net st) as [st1|] eqn:H1; [|discriminate]. cbn [bind].
    intros Hrun Hinv. apply (IH st1 Hrun).
    by apply (step_acquisitionInvariant ev net st).
Qed.

Lemma initialPreview_acquisitionInvariant (net : Network) :
  acquisitionInvariant net initialPreview.
Proof. split; [done|]. split; [done|]. intros k r Hk. by destruct k. Qed.

(** C8 fails as stated: a header-scope generation call made while the
    template is not acquired does not trigger the acquisition; it returns at
    its guard and nothing is sent. *)
Lemma initializeLatex_without_template :
  templateScraped initialPreview = false
  ∧ hasData sampleDocument = Returned true
  ∧ step (Submit sampleDocument (submitOf "header")) allFine initialPreview
    = Returned initialPreview.
Proof. repeat split. Qed.

(** C8, amended. A section-scope generation call made while the template is
    not acquired sends the acquisition request before anything else; a
    header-scope call made then returns at once, with neither acquisition
    nor generation; and in every session each generation request is sent
    after an acquisition request that succeeded. *)
Theorem generation_after_acquisition :
  (∀ c u net st has,
     isTemplateScraped c = false → hasData (data c) = Returned has →
     ∃ st' rs, updateLatexSection c u net st = Returned st'
               ∧ sent st' = (sent st ++ ScrapeTemplate :: rs)%list)
  ∧ (∀ c net st has,
       isTemplateScraped c = false → hasData (data c) = Returned has →
       initializeLatex c net st = Returned st)
  ∧ (∀ evs net st,
       run evs net initialPreview = Returned st →
       ∀ k r, sent st !! k = Some r → isGeneration r = true →
              ∃ j, (j < k)%nat ∧ acquiredAt net (sent st) j).
Proof.
  split; [|split].
  - intros c u net st has Hc Hhas.
    destruct (updateLatexSection_returns c u net st has Hhas) as [st' Hret].
    destruct (updateLatexSection_scrapes_first c u net st st' Hc Hret)
      as (rs & Hs & _). eauto.
  - intros c net st has Hc Hhas. unfold initializeLatex.
    rewrite Hhas, Hc. cbn [bind negb]. by rewrite orb_true_r.
  - intros evs net st Hrun.
    apply (run_acquisitionInvariant evs net initialPreview st Hrun).
    apply initialPreview_acquisitionInvariant.
Qed.

Lemma generation_after_acquisition_witness :
  ∃ st, run sampleSession allFine initialPreview = Returned st
        ∧ sent st
          = [ScrapeTemplate;
             LatexUpdate (headerPayload sampleDocument);
             LatexUpdate (sectionPayload (submitOf "skills") sampleDocument)]
        ∧ ∃ j, (j < 1)%nat ∧ acquiredAt allFine (sent st) j.
Proof.
  eexists. split; [vm_compute; reflexivity|].
  split; [vm_compute; reflexivity|].
  refine (proj2 (proj2 generation_after_acquisition) sampleSession allFine _
            _ 1%nat (LatexUpdate (headerPayload sampleDocument)) _ _);
    vm_compute; reflexivity.
Defined.

(** ** Entry ids *)

Lemma append_inj (p a b : string) : p ++ a = p ++ b → a = b.
Proof. induction p as [|c p IH]; cbn; [done|]. intros [= H]. auto. Qed.

Lemma idOf_inj (prefix : string) : Inj (=) (=) (idOf prefix).
Proof.
  intros t1 t2 [= H]. apply append_inj in H. by apply (inj pretty).
Qed.

Lemma ids_app (l1 l2 : list value) : ids (l1 ++ l2) = (ids l1 ++ ids l2)%list.
Proof. apply fmap_app. Qed.

(** One "Add Education": the list grows by at most the id built from the
    event's clock reading. *)
Lemma addEducation_ids (ev : Z * EducationSection.NewEducation)
    (d : ResumeData) :
  ∃ d', addEducation ev d = Returned d'
        ∧ (ids (education d') = ids (education d)
           ∨ ids (education d')
             = (ids (education d) ++ [idOf "edu_" (fst ev)])%list).
Proof.
  unfold addEducation, EducationSection.handleAdd.
  destruct (_ && _); [|eauto].
  eexists. split; [reflexivity|]. right. cbn. by rewrite ids_app.
Qed.

Lemma addEducations_ids (evs : list (Z * EducationSection.NewEducation))
    (d : ResumeData) :
  ∃ d' ts, addEducations evs d = Returned d'
           ∧ ts `sublist_of` (fst <$> evs)
           ∧ ids (education d')
             = (ids (education d) ++ (idOf "edu_" <$> ts))%list.
Proof.
  revert d. induction evs as [|ev evs IH]; intros d; cbn [addEducations].
  - exists d, []. by rewrite app_nil_r.
  - destruct (addEducation_ids ev d) as (d1 & -> & Hids). cbn [bind].
    destruct (IH d1) as (d' & ts & Hret & Hsub & Hids').
    destruct Hids as [Hsame|Hgrow].
    + exists d', ts. split; [exact Hret|]. split.
      * by apply sublist_cons.
      * by rewrite Hids', Hsame.
    + exists d', (fst ev :: ts). split; [exact Hret|]. split.
      * by apply sublist_skip.
      * rewrite Hids', Hgrow, <- app_assoc. reflexivity.
Qed.

Lemma someSkill_returns (trim toLowerCase : string → string)
    (target : string) (l : list value) :
  skillsOk l → ∃ b, SkillsSection.someSkill toLowerCase target l = Returned b.
Proof.
  induction 1 as [|e l (fs & s & -> & Hs) _ IH]; cbn; [eauto|].
  rewrite Hs. destruct (String.eqb _ _); eauto.
Qed.

Lemma addSkill_ids (trim toLowerCase : string → string) (ev : Z * string)
    (d : ResumeData) :
  skillsOk (skills d) →
  ∃ d', addSkill trim toLowerCase ev d = Returned d'
        ∧ skillsOk (skills d')
        ∧ (ids (skills d') = ids (skills d)
           ∨ ids (skills d')
             = (ids (skills d) ++ [idOf "skill_" (fst ev)])%list).
Proof.
  intros Hok. unfold addSkill, SkillsSection.handleAdd.
  destruct (String.eqb _ _); cbn [bind]; [eauto|].
  destruct (someSkill_returns trim toLowerCase
              (toLowerCase (trim (snd ev))) _ Hok) as [dup ->].
  cbn [bind]. destruct dup; cbn [bind]; [eauto|].
  eexists. split; [reflexivity|]. cbn. split.
  - apply Forall_app. split; [exact Hok|].
    constructor; [|constructor]. eauto.
  - right. by rewrite ids_app.
Qed.

Lemma addSkills_ids (trim toLowerCase : string → string)
    (evs : list (Z * string)) (d : ResumeData) :
  skillsOk (skills d) →
  ∃ d' ts, addSkills trim toLowerCase evs d = Returned d'
           ∧ ts `sublist_of` (fst <$> evs)
           ∧ ids (skills d')
             = (ids (skills d) ++ (idOf "skill_" <$> ts))%list.
Proof.
  revert d. induction evs as [|ev evs IH]; intros d Hok; cbn [addSkills].
  - exists d, []. by rewrite app_nil_r.
  - destruct (addSkill_ids trim toLowerCase ev d Hok)
      as (d1 & -> & Hok1 & Hids). cbn [bind].
    destruct (IH d1 Hok1) as (d' & ts & Hret & Hsub & Hids').
    destruct Hids as [Hsame|Hgrow].
    + exists d', ts. split; [exact Hret|]. split.
      * by apply sublist_cons.
      * by rewrite Hids', Hsame.
    + exists d', (fst ev :: ts). split; [exact Hret|]. split.
      * by apply sublist_skip.
      * rewrite Hids', Hgrow, <- app_assoc. reflexivity.
Qed.

(** C9 fails as stated: the id is the clock reading in milliseconds behind a
    fixed prefix, so two entries added at the same reading share their id. *)
Lemma handleAdd_same_millisecond :
  ∃ d, addEducations [(1700000000000%Z, bscForm); (1700000000000%Z, mscForm)]
         initialData = Returned d
       ∧ ids (education d)
         = [Str "edu_1700000000000"; Str "edu_1700000000000"]
       ∧ ¬ NoDup (ids (education d)).
Proof.
  eexists. split; [reflexivity|]. split; [reflexivity|].
  intros Hnd. apply NoDup_cons in Hnd as [Hnotin _].
  apply Hnotin. by left.
Qed.

(** C9, amended. An entry created by an add operation carries the id built
    from the clock reading of the click ([edu_] or [skill_] followed by
    [Date.now()]); when the adds of a session happen at pairwise distinct
    clock readings, no two entries of the list share an id. *)
Theorem handleAdd_ids_unique :
  (∀ evs, NoDup (fst <$> evs) →
     ∃ d, addEducations evs initialData = Returned d
          ∧ NoDup (ids (education d)))
  ∧ (∀ trim toLowerCase evs, NoDup (fst <$> evs) →
       ∃ d, addSkills trim toLowerCase evs initialData = Returned d
            ∧ NoDup (ids (skills d))).
Proof.
  split.
  - intros evs Hnd.
    destruct (addEducations_ids evs initialData) as (d & ts & Hret & Hsub & Hids).
    exists d. split; [exact Hret|]. rewrite Hids. cbn.
    pose proof (idOf_inj "edu_") as Hinj. apply (NoDup_fmap_2 _).
    by apply (sublist_NoDup _ _ Hnd).
  - intros trim toLowerCase evs Hnd.
    destruct (addSkills_ids trim toLowerCase evs initialData)
      as (d & ts & Hret & Hsub & Hids); [constructor|].
    exists d. split; [exact Hret|]. rewrite Hids. cbn.
    pose proof (idOf_inj "skill_") as Hinj. apply (NoDup_fmap_2 _).
    by apply (sublist_NoDup _ _ Hnd).
Qed.

Lemma handleAdd_ids_unique_witness :
  (∃ d, addEducations [(1700000000000%Z, bscForm); (1700000000001%Z, mscForm)]
          initialData = Returned d
        ∧ NoDup (ids (education d)))
  ∧ (∃ d, addSkills id id [(5%Z, "Rocq"); (6%Z, "OCaml"); (7%Z, "Rocq")]
            initialData = Returned d
          ∧ NoDup (ids (skills d))).
Proof.
  split.
  - apply (proj1 handleAdd_ids_unique). cbn. compute_done.
  - apply (proj2 handleAdd_ids_unique). cbn. compute_done.
Defined.

(** * Further properties of the code *)

(** ** The document store: how messages compose *)

Lemma hasId_spec (entryId : string) (e : value) :
  hasId entryId e = true ↔ optProp e "id" = Str entryId.
Proof.
  unfold hasId, strictEqStr. destruct (optProp e "id"); try (split; discriminate).
  rewrite String.eqb_eq. split; congruence.
Qed.

Lemma handleUpdate_list_returns (s : ListSection) (u : UpdateMessage)
    (d : ResumeData) :
  documentOk d = true → section u = sectionName s →
  handleUpdate u d = Returned (setEntries s (replayOne u (entries s d)) d).
Proof.
  intros Hd Hs. rewrite (handleUpdate_list s u d Hs).
  apply documentOk_entries with (s := s) in Hd.
  by rewrite (applyChange_replayOne u _ Hd).
Qed.

Lemma setEntries_same (s : ListSection) (d : ResumeData) :
  setEntries s (entries s d) d = d.
Proof. by destruct s, d. Qed.

Lemma setEntries_twice (s : ListSection) (l l' : list value) (d : ResumeData) :
  setEntries s l (setEntries s l' d) = setEntries s l d.
Proof. by destruct s. Qed.

Lemma name_setEntries (s : ListSection) (l : list value) (d : ResumeData) :
  name (setEntries s l d) = name d ∧ aboutMe (setEntries s l d) = aboutMe d.
Proof. by destruct s. Qed.

Lemma applyChange_of_returned (s : ListSection) (u : UpdateMessage)
    (d d' : ResumeData) :
  section u = sectionName s → handleUpdate u d = Returned d' →
  ∃ l, applyChange u (entries s d) = Returned l ∧ d' = setEntries s l d.
Proof.
  intros Hs. rewrite (handleUpdate_list s u d Hs).
  destruct (applyChange u (entries s d)) as [l|]; [|discriminate].
  cbn [bind]. intros [= <-]. eauto.
Qed.

(** X1. A message changes nothing outside the section it names: [name],
    [aboutMe] and every list of another section are as before, and a
    message naming no section of the document (["header"], say) returns the
    document as it was. *)
Theorem handleUpdate_frame (u : UpdateMessage) (d d' : ResumeData) :
  handleUpdate u d = Returned d' →
  (section u ≠ "name" → name d' = name d)
  ∧ (section u ≠ "aboutMe" → aboutMe d' = aboutMe d)
  ∧ (∀ s, section u ≠ sectionName s → entries s d' = entries s d)
  ∧ (section u ≠ "name" → section u ≠ "aboutMe" →
     listSectionOf (section u) = None → d' = d).
Proof.
  intros Hret.
  destruct (listSectionOf (section u)) as [s0|] eqn:Hsec.
  - apply listSectionOf_Some in Hsec.
    destruct (applyChange_of_returned s0 u d d' Hsec Hret) as (l & _ & ->).
    destruct (name_setEntries s0 l d) as [Hn Ha].
    repeat split; try done.
    intros s Hne. rewrite entries_setEntries.
    case_bool_decide; [subst; congruence|done].
  - revert Hret. unfold handleUpdate.
    destruct (String.eqb_spec (section u) "name") as [Hn|Hn].
    { intros [= <-]. repeat split; try done; by intros []. }
    destruct (String.eqb_spec (section u) "aboutMe") as [Ha|Ha].
    { intros [= <-]. repeat split; try done; by intros []. }
    unfold listSectionOf in Hsec.
    repeat match goal with
           | |- context [String.eqb (section u) ?k] =>
               destruct (String.eqb (section u) k); [discriminate|]
           end.
    intros [= <-]. repeat split; done.
Qed.

Lemma handleUpdate_frame_witness :
  ∃ d', handleUpdate (deleteMessage "header" "header_bundle") sampleDocument
        = Returned d' ∧ d' = sampleDocument.
Proof.
  exists sampleDocument. split; [reflexivity|].
  apply (handleUpdate_frame (deleteMessage "header" "header_bundle")
           sampleDocument sampleDocument eq_refl); cbn; done.
Defined.

Lemma handleUpdate_unmatched (s : ListSection) (u : UpdateMessage)
    (d : ResumeData) :
  documentOk d = true → section u = sectionName s → changeType u ≠ add →
  forallb (λ e, negb (hasId (entryId u) e)) (entries s d) = true →
  handleUpdate u d = Returned d.
Proof.
  intros Hd Hs Hct Hnone. rewrite (handleUpdate_list_returns s u d Hd Hs).
  unfold replayOne. destruct (changeType u); [done| |].
  - rewrite replaceFirst_none by done. by rewrite setEntries_same.
  - rewrite removeId_none by done. by rewrite setEntries_same.
Qed.

Lemma documentOk_setEntries (s : ListSection) (l : list value)
    (d : ResumeData) :
  documentOk d = true → entriesOk l = true →
  documentOk (setEntries s l d) = true.
Proof.
  intros Hd Hl. apply documentOk_entries. intros s'.
  rewrite entries_setEntries. case_bool_decide; [done|].
  by apply documentOk_entries.
Qed.

Lemma removeId_gone (entryId : string) (l : list value) :
  forallb (λ e, negb (hasId entryId e)) (removeId entryId l) = true.
Proof.
  induction l as [|e l IH]; [done|]. unfold removeId. cbn [List.filter].
  destruct (negb (hasId entryId e)) eqn:He; [|exact IH].
  cbn [forallb]. rewrite He. exact IH.
Qed.

(** X2. Deleting by id is final and idempotent: after a [delete] message no
    entry of the section has that id, a second [delete] and any [update]
    for the id return the document unchanged. *)
Theorem handleUpdate_delete_final (s : ListSection) (entryId : string)
    (c : value) (d : ResumeData) :
  documentOk d = true →
  ∃ d', handleUpdate (deleteMessage (sectionName s) entryId) d = Returned d'
        ∧ forallb (λ e, negb (hasId entryId e)) (entries s d') = true
        ∧ handleUpdate (deleteMessage (sectionName s) entryId) d' = Returned d'
        ∧ handleUpdate {| section := sectionName s; entryId := entryId;
                          changeType := update; content := c |} d'
          = Returned d'.
Proof.
  intros Hd.
  pose (del := deleteMessage (sectionName s) entryId).
  assert (handleUpdate del d
          = Returned (setEntries s (removeId entryId (entries s d)) d)) as Hret
    by (by apply handleUpdate_list_returns).
  eexists. split; [exact Hret|].
  assert (forallb (λ e, negb (hasId entryId e))
            (entries s (setEntries s (removeId entryId (entries s d)) d))
          = true) as Hgone.
  { rewrite entries_setEntries, bool_decide_eq_true_2 by done.
    apply removeId_gone. }
  split; [exact Hgone|].
  assert (documentOk (setEntries s (removeId entryId (entries s d)) d) = true)
    as Hd'.
  { apply documentOk_setEntries; [done|]. apply entriesOk_removeId.
    by apply documentOk_entries. }
  split; by apply (handleUpdate_unmatched s).
Qed.

Lemma handleUpdate_delete_final_witness :
  ∃ d', handleUpdate (deleteMessage "education" "edu_1") sampleDocument
        = Returned d'
        ∧ education d' = []
        ∧ handleUpdate (deleteMessage "education" "edu_1") d' = Returned d'.
Proof.
  destruct (handleUpdate_delete_final Education "edu_1" Null sampleDocument
              eq_refl) as (d' & Hret & _ & Hagain & _).
  exists d'. split; [exact Hret|]. split; [|exact Hagain].
  cbn in Hret. by injection Hret as <-.
Defined.


Lemma ids_replaceFirst (entryId : string) (c : value) (l : list value) :
  hasId entryId c = true → ids (replaceFirst entryId c l) = ids l.
Proof.
  intros Hc. induction l as [|e l IH]; [done|]. cbn [replaceFirst].
  destruct (hasId entryId e) eqn:He.
  - apply hasId_spec in Hc, He. unfold ids. cbn. by rewrite Hc, He.
  - unfold ids in *. cbn. by rewrite IH.
Qed.

Lemma ids_removeId_sublist (entryId : string) (l : list value) :
  ids (removeId entryId l) `sublist_of` ids l.
Proof.
  induction l as [|e l IH]; [done|]. unfold removeId. cbn [List.filter].
  destruct (negb (hasId entryId e)); unfold ids in *; cbn.
  - by apply sublist_skip.
  - by apply sublist_cons.
Qed.

(** X3. The store keeps the ids of a list unique: when they are pairwise
    distinct before a message they are so after it, provided an added entry
    brings an id not yet in the list and an updated entry keeps the id it is
    filed under (as every message of the section components does); a
    [delete] needs no condition. *)
Theorem handleUpdate_unique_ids (s : ListSection) (u : UpdateMessage)
    (d : ResumeData) :
  documentOk d = true → messageOk u = true → section u = sectionName s →
  NoDup (ids (entries s d)) →
  match changeType u with
  | add => optProp (content u) "id" ∉ ids (entries s d)
  | update => hasId (entryId u) (content u) = true
  | delete => True
  end →
  ∃ d', handleUpdate u d = Returned d'
        ∧ documentOk d' = true
        ∧ NoDup (ids (entries s d')).
Proof.
  intros Hd Hu Hs Hnd Hside.
  destruct (handleUpdate_step u d Hd Hu) as (d' & Hret & Hd' & Hent).
  exists d'. split; [exact Hret|]. split; [exact Hd'|].
  rewrite Hent, Hs, String.eqb_refl. unfold replayOne.
  destruct (changeType u).
  - rewrite ids_app. apply NoDup_app. split; [exact Hnd|]. split.
    + intros x Hx Hin. apply list_elem_of_singleton in Hin. by subst.
    + apply NoDup_singleton.
  - by rewrite ids_replaceFirst.
  - eapply sublist_NoDup; [exact Hnd|]. apply ids_removeId_sublist.
Qed.

Lemma handleUpdate_unique_ids_witness :
  ∃ d', handleUpdate
          (updateMessage "education" "edu_1"
             (Obj [("id", Str "edu_1"); ("degree", Str "BA")]))
          sampleDocument = Returned d'
        ∧ NoDup (ids (education d')).
Proof.
  destruct (handleUpdate_unique_ids Education
              (updateMessage "education" "edu_1"
                 (Obj [("id", Str "edu_1"); ("degree", Str "BA")]))
              sampleDocument eq_refl eq_refl eq_refl)
    as (d' & Hret & _ & Hnd); [apply NoDup_singleton|reflexivity|].
  exists d'. split; [exact Hret|exact Hnd].
Defined.

Lemma removeId_app (entryId : string) (l1 l2 : list value) :
  removeId entryId (l1 ++ l2)
  = (removeId entryId l1 ++ removeId entryId l2)%list.
Proof. apply List.filter_app. Qed.

(** X4. Adding an entry and deleting it again is a round trip: when no
    entry of the list has the id of the added one, [add] followed by
    [delete] of that id returns the document as it was. *)
Theorem handleUpdates_add_delete (s : ListSection) (i : string)
    (c : value) (d : ResumeData) :
  documentOk d = true →
  hasId i c = true →
  forallb (λ e, negb (hasId i e)) (entries s d) = true →
  handleUpdates [addMessage (sectionName s) i c;
                 deleteMessage (sectionName s) i] d
  = Returned d.
Proof.
  intros Hd Hc Hfresh. cbn [handleUpdates].
  rewrite (handleUpdate_list_returns s (addMessage (sectionName s) i c) d
             Hd eq_refl).
  cbn [bind].
  rewrite (handleUpdate_list_returns s (deleteMessage (sectionName s) i)).
  - cbn [bind]. f_equal. rewrite entries_setEntries.
    rewrite bool_decide_eq_true_2 by done. rewrite setEntries_twice.
    unfold replayOne.
    cbn [changeType addMessage deleteMessage content entryId].
    rewrite removeId_app, (removeId_none _ _ Hfresh).
    unfold removeId. cbn [List.filter]. rewrite Hc. cbn [negb].
    rewrite app_nil_r. apply setEntries_same.
  - apply documentOk_setEntries; [done|].
    apply entriesOk_replayOne; [|by apply documentOk_entries].
    intros _. cbn. destruct c; try done; discriminate.
  - reflexivity.
Qed.

Lemma handleUpdates_add_delete_witness :
  handleUpdates [addMessage "skills" "skill_3"
                   (Obj [("id", Str "skill_3"); ("skill", Str "Rocq")]);
                 deleteMessage "skills" "skill_3"] sampleDocument
  = Returned sampleDocument.
Proof.
  apply (handleUpdates_add_delete Skills "skill_3"
           (Obj [("id", Str "skill_3"); ("skill", Str "Rocq")])
           sampleDocument); reflexivity.
Defined.




(** What [findEntry] finds is the entry [replaceFirst] replaces. *)
Lemma findEntry_spec (id : string) (l : list value) :
  entriesOk l = true →
  ∃ r, findEntry id l = Returned r
       ∧ match r with
         | None => forallb (λ e, negb (hasId id e)) l = true
         | Some fs =>
             ∃ k, l !! k = Some (Obj fs)
                  ∧ hasId id (Obj fs) = true
                  ∧ ∀ c, replaceFirst id c l = <[k := c]> l
         end.
Proof.
  induction l as [|e l IH]; intros Hok.
  - by exists None.
  - apply entriesOk_cons in Hok as [He Hl].
    destruct (IH Hl) as (r & Hr & Hspec). cbn [findEntry].
    assert (hasId id e = false →
            ∃ r0, (let! _ := getProp e "id" in findEntry id l) = Returned r0
                  ∧ match r0 with
                    | None =>
                        forallb (λ e0, negb (hasId id e0)) (e :: l) = true
                    | Some fs =>
                        ∃ k, (e :: l) !! k = Some (Obj fs)
                             ∧ hasId id (Obj fs) = true
                             ∧ ∀ c, replaceFirst id c (e :: l)
                                    = <[k := c]> (e :: l)
                    end) as Hskip.
    { intros Hid. rewrite (getProp_present _ _ He). cbn [bind].
      exists r. split; [exact Hr|]. destruct r as [fs|].
      - destruct Hspec as (k & Hk & Hfs & Hrep). exists (S k).
        split; [exact Hk|]. split; [exact Hfs|].
        intros c. cbn [replaceFirst]. rewrite Hid. cbn. by rewrite Hrep.
      - cbn [forallb]. by rewrite Hid, Hspec. }
    destruct e as [| | | | |a|fs]; try (by apply Hskip).
    change (strictEqStr (lookup "id" fs) id) with (hasId id (Obj fs)).
    destruct (hasId id (Obj fs)) eqn:Hid.
    + exists (Some fs). split; [done|]. exists 0%nat.
      split; [done|]. split; [done|]. intros c. cbn [replaceFirst].
      by rewrite Hid.
    + destruct (Hskip eq_refl) as (r0 & Hr0 & Hspec0).
      rewrite (getProp_present _ _ He) in Hr0. cbn [bind] in Hr0. eauto.
Qed.

Lemma ids_insert_same (l : list value) (k : nat) (e e' : value) :
  l !! k = Some e → optProp e' "id" = optProp e "id" →
  ids (<[k := e']> l) = ids l.
Proof.
  intros Hk Hid. unfold ids. rewrite list_fmap_insert, Hid.
  apply list_insert_id. by rewrite list_lookup_fmap, Hk.
Qed.

(** X6. Editing a field of an entry through a section component and the
    store: when the entry exists, the update message replaces that entry by
    a copy with the one field changed, every other entry and every id is as
    before; when no entry has the id, the component sends no message. *)
Theorem editEntry_store (s : ListSection) (d : ResumeData)
    (id field : string) (v : value) :
  documentOk d = true → field ≠ "id" →
  ∃ r, editEntry (sectionName s) (entries s d) id field v = Returned r
       ∧ match r with
         | None => forallb (λ e, negb (hasId id e)) (entries s d) = true
         | Some u =>
             ∃ d' k e e',
               handleUpdate u d = Returned d'
               ∧ entries s d !! k = Some e
               ∧ hasId id e = true
               ∧ entries s d' = <[k := e']> (entries s d)
               ∧ overwrites [field] v e e'
               ∧ ids (entries s d') = ids (entries s d)
         end.
Proof.
  intros Hd Hfield. pose proof Hd as Hl.
  apply documentOk_entries with (s := s) in Hl.
  destruct (findEntry_spec id _ Hl) as (r & Hr & Hspec).
  unfold editEntry. rewrite Hr. cbn [bind]. eexists. split; [reflexivity|].
  destruct r as [fs|]; [|exact Hspec].
  destruct Hspec as (k & Hk & Hid & Hrep).
  assert (overwrites [field] v (Obj fs) (Obj (store field v fs))) as Hov.
  { split; [eauto|]. intros q. cbn [optProp existsb]. rewrite lookup_store.
    by destruct (String.eqb q field). }
  exists (setEntries s (<[k := Obj (store field v fs)]> (entries s d)) d),
    k, (Obj fs), (Obj (store field v fs)).
  split.
  { rewrite (handleUpdate_list_returns s
               (updateMessage (sectionName s) id (Obj (store field v fs)))
               d Hd eq_refl).
    unfold replayOne.
    cbn [changeType updateMessage content entryId]. by rewrite Hrep. }
  split; [exact Hk|]. split; [exact Hid|].
  rewrite entries_setEntries, bool_decide_eq_true_2 by done.
  split; [done|]. split; [exact Hov|].
  apply (ids_insert_same _ _ (Obj fs)); [exact Hk|].
  destruct Hov as [_ Hov]. rewrite (Hov "id"). cbn [existsb].
  destruct (String.eqb_spec "id" field); [congruence|done].
Qed.

Lemma editEntry_store_witness :
  ∃ u d', ExistingEducation.handleUpdate (education sampleDocument) "edu_1"
            "degree" "MSc" = Returned (Some u)
          ∧ handleUpdate u sampleDocument = Returned d'
          ∧ ids (education d') = ids (education sampleDocument)
          ∧ ∃ e', education d' = [e'] ∧ optProp e' "degree" = Str "MSc"
                  ∧ optProp e' "institution" = Str "MIT".
Proof.
  destruct (editEntry_store Education sampleDocument "edu_1" "degree"
              (Str "MSc") eq_refl) as (r & Hr & Hspec); [done|].
  vm_compute in Hr. injection Hr as <-.
  destruct Hspec as (d' & k & e & e' & Hret & Hk & _ & Hent & _ & Hids).
  eexists _, d'. split; [vm_compute; reflexivity|].
  split; [exact Hret|]. split; [exact Hids|].
  vm_compute in Hret. injection Hret as <-.
  eexists. repeat split.
Defined.

(** ** Skills and keywords: no duplicates *)

Lemma someSkill_spec (toLowerCase : string → string) (target : string)
    (l : list value) :
  skillsOk l →
  SkillsSection.someSkill toLowerCase target l
  = Returned (bool_decide (target ∈ toLowerCase <$> skillNames l)).
Proof.
  induction 1 as [|e l (fs & s & -> & Hs) _ IH]; [done|].
  cbn [SkillsSection.someSkill getProp bind]. rewrite Hs.
  unfold skillNames. cbn [omap list_omap optProp]. rewrite Hs. cbn [fmap list_fmap].
  fold (skillNames l).
  destruct (String.eqb_spec (toLowerCase s) target) as [<-|Hne].
  - rewrite bool_decide_eq_true_2; [done|]. by left.
  - rewrite IH. f_equal. apply bool_decide_ext.
    rewrite elem_of_cons. split; [auto|]. intros [?|?]; [congruence|done].
Qed.

(** X7. The skills list never gets a case-insensitive duplicate through
    "Add Skill": over any sequence of adds the lower-cased skill texts stay
    pairwise distinct, every added text is the trimmed input and is not
    blank, and blank or already listed input adds nothing. *)
Theorem addSkills_no_duplicates (trim toLowerCase : string → string)
    (evs : list (Z * string)) (d : ResumeData) :
  skillsOk (skills d) →
  NoDup (toLowerCase <$> skillNames (skills d)) →
  ∃ d' added,
    addSkills trim toLowerCase evs d = Returned d'
    ∧ skillsOk (skills d')
    ∧ skillNames (skills d') = (skillNames (skills d) ++ added)%list
    ∧ added `sublist_of` ((λ ev, trim (snd ev)) <$> evs)
    ∧ Forall (λ s, s ≠ "") added
    ∧ NoDup (toLowerCase <$> skillNames (skills d')).
Proof.
  revert d. induction evs as [|ev evs IH]; intros d Hok Hnd.
  - exists d, []. rewrite app_nil_r. repeat split; done.
  - cbn [addSkills]. unfold addSkill, SkillsSection.handleAdd.
    destruct (String.eqb_spec (trim (snd ev)) "") as [Hblank|Hblank].
    { cbn [bind]. destruct (IH d Hok Hnd) as (d' & added & Hret & ? & ? & ? & ? & ?).
      exists d', added. repeat split; try done. by apply sublist_cons. }
    rewrite (someSkill_spec _ _ _ Hok). cbn [bind].
    case_bool_decide as Hdup; cbn [bind].
    { destruct (IH d Hok Hnd) as (d' & added & Hret & ? & ? & ? & ? & ?).
      exists d', added. repeat split; try done. by apply sublist_cons. }
    cbn [handleUpdate section String.eqb Ascii.eqb Bool.eqb applyChange
         changeType bind content].
    set (e := Obj [("id", Str ("skill_" ++ pretty (fst ev)));
                   ("skill", Str (trim (snd ev)))]).
    assert (skillNames (skills d ++ [e]) = (skillNames (skills d) ++ [trim (snd ev)])%list)
      as Hnames.
    { unfold skillNames. by rewrite omap_app. }
    destruct (IH (set_skills (skills d ++ [e]) d))
      as (d' & added & Hret & Hok' & Hnames' & Hsub & Hnb & Hnd').
    + cbn. apply Forall_app. split; [exact Hok|].
      constructor; [|constructor]. subst e. eauto.
    + cbn [skills set_skills]. rewrite Hnames, fmap_app.
      apply NoDup_app. split; [exact Hnd|]. split; [|apply NoDup_singleton].
      intros x Hx Hin. apply list_elem_of_singleton in Hin. by subst.
    + exists d', (trim (snd ev) :: added).
      split; [exact Hret|]. split; [exact Hok'|].
      cbn [skills set_skills] in Hnames'.
      split; [by rewrite Hnames', Hnames, <- app_assoc|].
      split; [by apply sublist_skip|]. split; [by constructor|exact Hnd'].
Qed.

Lemma addSkills_no_duplicates_witness :
  ∃ d', addSkills id id [(5%Z, "Rocq"); (6%Z, "OCaml"); (7%Z, "Rocq")]
          initialData = Returned d'
        ∧ skillNames (skills d') = ["Rocq"; "OCaml"].
Proof.
  destruct (addSkills_no_duplicates id id
              [(5%Z, "Rocq"); (6%Z, "OCaml"); (7%Z, "Rocq")] initialData)
    as (d' & added & Hret & _); [constructor|constructor|].
  exists d'. split; [exact Hret|].
  vm_compute in Hret. by injection Hret as <-.
Defined.

(** X8. The keywords of the "new experience" form stay free of duplicates
    and of blanks: [addNewKeyword] appends the trimmed keyword unless it is
    blank or already listed, [removeNewKeyword] removes it, and removing a
    keyword just added to a form that did not have it gives the form
    back. *)
Theorem newKeywords_no_duplicates (trim : string → string) (k : string)
    (e : ExperienceSection.NewExperience) :
  NoDup (ExperienceSection.keywords e) →
  ("" ∉ ExperienceSection.keywords e) →
  let added := ExperienceSection.addNewKeyword trim k e in
  let removed := ExperienceSection.removeNewKeyword k e in
  NoDup (ExperienceSection.keywords added)
  ∧ ("" ∉ ExperienceSection.keywords added)
  ∧ (trim k ≠ "" → trim k ∈ ExperienceSection.keywords added)
  ∧ NoDup (ExperienceSection.keywords removed)
  ∧ (k ∉ ExperienceSection.keywords removed)
  ∧ (trim k ∉ ExperienceSection.keywords e →
     ExperienceSection.removeNewKeyword (trim k) added = e).
Proof.
  intros Hnd Hblank added removed.
  assert (∀ x l, existsb (String.eqb x) l = true ↔ x ∈ l) as Hex.
  { intros x l. rewrite existsb_exists, list_elem_of_In. split.
    - intros (y & Hy & ->%String.eqb_eq). exact Hy.
    - intros Hx. exists x. by rewrite String.eqb_refl. }
  assert (∀ x l, List.filter (λ y, negb (String.eqb y x)) l = l ↔ x ∉ l)
    as Hfilter.
  { intros x l. induction l as [|y l IH]; cbn [List.filter].
    - split; [intros _; apply not_elem_of_nil|done].
    - rewrite not_elem_of_cons. destruct (String.eqb_spec y x) as [->|Hne];
        cbn [negb].
      + split; [|by intros [? _]]. intros Heq.
        pose proof (List.filter_length_le (λ y, negb (String.eqb y x)) l) as Hle.
        rewrite Heq in Hle. cbn in Hle. lia.
      + split.
        * intros [= Heq]. split; [congruence|]. by apply IH.
        * intros [_ Hx]. f_equal. by apply IH. }
  assert (∀ x l, x ∉ List.filter (λ y, negb (String.eqb y x)) l) as Hgone.
  { intros x l Hin. apply list_elem_of_In, filter_In in Hin as [_ Hx].
    by rewrite String.eqb_refl in Hx. }
  assert (∀ x l, NoDup l → NoDup (List.filter (λ y, negb (String.eqb y x)) l))
    as Hndf.
  { intros x l Hl. apply NoDup_ListNoDup, List.NoDup_filter.
    by apply NoDup_ListNoDup. }
  assert (∀ x, x ∉ ExperienceSection.keywords e →
               ExperienceSection.removeNewKeyword x e = e) as Hback.
  { intros x Hx. unfold ExperienceSection.removeNewKeyword,
      ExperienceSection.setKeywords.
    destruct e. cbn in *. f_equal. by apply Hfilter. }
  subst added removed. unfold ExperienceSection.addNewKeyword.
  destruct (String.eqb_spec (trim k) "") as [Hb|Hb]; cbn [negb andb].
  { split_and!;
      [done|done|congruence|by apply Hndf|by apply Hgone|apply Hback]. }
  destruct (existsb (String.eqb (trim k)) (ExperienceSection.keywords e))
    eqn:Hin; cbn [negb].
  { apply Hex in Hin.
    split_and!; [done|done|done|by apply Hndf|by apply Hgone|].
    intros Hn. by destruct (Hn Hin). }
  assert (trim k ∉ ExperienceSection.keywords e) as Hnot.
  { intros H. apply Hex in H. congruence. }
  cbn [ExperienceSection.keywords ExperienceSection.setKeywords].
  split_and!.
  - apply NoDup_app. split; [done|]. split; [|apply NoDup_singleton].
    intros x Hx Hx'. apply list_elem_of_singleton in Hx'. by subst.
  - rewrite elem_of_app, list_elem_of_singleton. intros [?|?]; congruence.
  - intros _. apply elem_of_app. right. by apply list_elem_of_singleton.
  - by apply Hndf.
  - by apply Hgone.
  - intros _. unfold ExperienceSection.removeNewKeyword,
      ExperienceSection.setKeywords.
    destruct e. cbn in *. f_equal. rewrite List.filter_app.
    cbn [List.filter]. rewrite String.eqb_refl. cbn [negb].
    rewrite app_nil_r. by apply Hfilter.
Qed.

Lemma newKeywords_no_duplicates_witness :
  let e := {| ExperienceSection.title := "Engineer";
              ExperienceSection.company := "ACME";
              ExperienceSection.startDate := "";
              ExperienceSection.endDate := "";
              ExperienceSection.description := "";
              ExperienceSection.keywords := ["Rocq"] |} in
  ExperienceSection.keywords (ExperienceSection.addNewKeyword id "OCaml" e)
  = ["Rocq"; "OCaml"]
  ∧ ExperienceSection.addNewKeyword id "Rocq" e = e
  ∧ ExperienceSection.removeNewKeyword "OCaml"
      (ExperienceSection.addNewKeyword id "OCaml" e) = e.
Proof.
  intros e. split; [reflexivity|]. split; [reflexivity|].
  apply (newKeywords_no_duplicates id "OCaml" e);
    first [apply NoDup_singleton
          |intros H; apply list_elem_of_singleton in H; discriminate].
Defined.

Lemma findEntry_replaceFirst (id : string) (fs fs' : list (string * value))
    (l : list value) :
  findEntry id l = Returned (Some fs) →
  hasId id (Obj fs') = true →
  findEntry id (replaceFirst id (Obj fs') l) = Returned (Some fs').
Proof.
  intros Hfind Hid'. induction l as [|e l IH]; [discriminate|].
  cbn [findEntry replaceFirst] in *.
  destruct e as [| | | | |a|fs0]; cbn [getProp bind] in Hfind;
    try discriminate;
    try (change (hasId id ?x) with false; cbn [findEntry getProp bind];
         by apply IH).
  change (strictEqStr (lookup "id" fs0) id) with (hasId id (Obj fs0)) in Hfind.
  destruct (hasId id (Obj fs0)) eqn:Hid0.
  - cbn [findEntry].
    change (strictEqStr (lookup "id" fs') id) with (hasId id (Obj fs')).
    by rewrite Hid'.
  - cbn [findEntry].
    change (strictEqStr (lookup "id" fs0) id) with (hasId id (Obj fs0)).
    rewrite Hid0. by apply IH.
Qed.

Lemma hasId_store (id k : string) (v : value) (fs : list (string * value)) :
  k ≠ "id" → hasId id (Obj (store k v fs)) = hasId id (Obj fs).
Proof.
  intros Hk. unfold hasId. cbn [optProp]. rewrite lookup_store.
  destruct (String.eqb_spec "id" k); [congruence|done].
Qed.

Lemma findEntry_hasId (id : string) (fs : list (string * value))
    (l : list value) :
  findEntry id l = Returned (Some fs) → hasId id (Obj fs) = true.
Proof.
  induction l as [|e l IH]; [discriminate|]. cbn [findEntry].
  destruct e as [| | | | |a|fs0]; cbn [getProp bind]; try discriminate;
    try exact IH.
  change (strictEqStr (lookup "id" fs0) id) with (hasId id (Obj fs0)).
  destruct (hasId id (Obj fs0)) eqn:Hid; [|exact IH]. by intros [= <-].
Qed.

Lemma strictEqStr_spec (v : value) (x : string) :
  strictEqStr v x = true ↔ v = Str x.
Proof.
  destruct v; cbn; try (split; discriminate).
  rewrite String.eqb_eq. split; congruence.
Qed.

(** The store after the [keywords] of the entry [id] are set to [ks']. *)
Lemma setKeywords_store (d : ResumeData) (id : string)
    (fs : list (string * value)) (ks' : list value) :
  documentOk d = true →
  findEntry id (experience d) = Returned (Some fs) →
  ∃ d', ExperienceSection.handleUpdate (experience d) id "keywords" (Arr ks')
        = Returned (Some (updateMessage "experience" id
                            (Obj (store "keywords" (Arr ks') fs))))
        ∧ handleUpdate (updateMessage "experience" id
                          (Obj (store "keywords" (Arr ks') fs))) d
          = Returned d'
        ∧ keywordsOf id (experience d') ks'
        ∧ ids (experience d') = ids (experience d).
Proof.
  intros Hd Hfind. pose proof (findEntry_hasId _ _ _ Hfind) as Hid.
  assert (hasId id (Obj (store "keywords" (Arr ks') fs)) = true) as Hid'
    by (by rewrite hasId_store).
  eexists. split.
  { unfold ExperienceSection.handleUpdate, editEntry. by rewrite Hfind. }
  split.
  { apply (handleUpdate_list_returns Experience); [exact Hd|reflexivity]. }
  cbn [setEntries entries experience set_experience]. unfold replayOne.
  cbn [changeType updateMessage content entryId]. split.
  - eexists. split; [by apply (findEntry_replaceFirst id fs)|].
    by rewrite lookup_store.
  - by apply ids_replaceFirst.
Qed.

(** X9. Keyword edits on a stored experience entry: [addKeyword] appends
    the trimmed keyword to the entry's keywords, unless it is blank or
    already there, in which case nothing is sent; [removeKeyword] removes
    every occurrence.  Keywords without duplicates stay so, and no edit
    touches an id. *)
Theorem keywords_store (trim : string → string)
    (codePoints : string → list string) (d : ResumeData) (id kw : string)
    (ks : list value) :
  documentOk d = true →
  keywordsOf id (experience d) ks →
  (∃ r, ExperienceSection.addKeyword trim codePoints (experience d) id kw
        = Returned r
        ∧ match r with
          | None => trim kw = "" ∨ Str (trim kw) ∈ ks
          | Some u =>
              trim kw ≠ "" ∧ (Str (trim kw) ∉ ks)
              ∧ ∃ d', handleUpdate u d = Returned d'
                      ∧ keywordsOf id (experience d')
                          (ks ++ [Str (trim kw)])
                      ∧ (NoDup ks → NoDup (ks ++ [Str (trim kw)]))
                      ∧ ids (experience d') = ids (experience d)
          end)
  ∧ (∃ u d' ks',
       ExperienceSection.removeKeyword (experience d) id kw
       = Returned (Some u)
       ∧ handleUpdate u d = Returned d'
       ∧ keywordsOf id (experience d') ks'
       ∧ ks' `sublist_of` ks
       ∧ (Str kw ∉ ks')
       ∧ (∀ k, k ∈ ks → k ≠ Str kw → k ∈ ks')
       ∧ ids (experience d') = ids (experience d)).
Proof.
  intros Hd (fs & Hfind & Hks).
  assert (∀ x l, existsb (λ k, strictEqStr k x) l = true ↔ Str x ∈ l) as Hex.
  { intros x l. rewrite existsb_exists, list_elem_of_In. split.
    - intros (y & Hy & ->%strictEqStr_spec). exact Hy.
    - intros Hx. exists (Str x). split; [exact Hx|]. by apply strictEqStr_spec. }
  split.
  - unfold ExperienceSection.addKeyword. rewrite Hfind. cbn [bind].
    destruct (String.eqb_spec (trim kw) "") as [Hb|Hb].
    { exists None. split; [done|]. by left. }
    rewrite Hks. cbn [ExperienceSection.includesKeyword bind].
    destruct (existsb _ ks) eqn:Hin.
    { exists None. split; [done|]. right. by apply Hex. }
    assert (Str (trim kw) ∉ ks) as Hnot.
    { intros H. apply Hex in H. congruence. }
    cbn [ExperienceSection.appendKeyword bind].
    destruct (setKeywords_store d id fs (ks ++ [Str (trim kw)]) Hd Hfind)
      as (d' & Hmsg & Hret & Hkw & Hids).
    rewrite Hmsg. eexists. split; [reflexivity|].
    split; [exact Hb|]. split; [exact Hnot|].
    exists d'. split; [exact Hret|]. split; [exact Hkw|].
    split; [|exact Hids].
    intros Hnd. apply NoDup_app. split; [exact Hnd|].
    split; [|apply NoDup_singleton].
    intros x Hx Hx'. apply list_elem_of_singleton in Hx'. by subst.
  - unfold ExperienceSection.removeKeyword. rewrite Hfind. cbn [bind].
    rewrite Hks. cbn [ExperienceSection.withoutKeyword bind].
    set (ks' := List.filter (λ k, negb (strictEqStr k kw)) ks).
    destruct (setKeywords_store d id fs ks' Hd Hfind)
      as (d' & Hmsg & Hret & Hkw & Hids).
    rewrite Hmsg. do 3 eexists. split; [reflexivity|].
    split; [exact Hret|]. split; [exact Hkw|].
    split_and!.
    + subst ks'. clear. induction ks as [|k ks IH]; [done|].
      cbn [List.filter]. destruct (negb _); [by apply sublist_skip|].
      by apply sublist_cons.
    + subst ks'. intros Hin. apply list_elem_of_In, filter_In in Hin as [_ Hx].
      by rewrite (proj2 (strictEqStr_spec _ _) eq_refl) in Hx.
    + intros k Hk Hne. subst ks'. apply list_elem_of_In, filter_In.
      split; [by apply list_elem_of_In|].
      destruct (strictEqStr k kw) eqn:Hk'; [|done].
      by apply strictEqStr_spec in Hk'.
    + exact Hids.
Qed.

Lemma keywords_store_witness :
  ∃ u d', ExperienceSection.addKeyword id (λ _, []) [sampleExperience]
            "exp_1" "Iris" = Returned (Some u)
          ∧ handleUpdate u experiencedDocument = Returned d'
          ∧ keywordsOf "exp_1" (experience d')
              [Str "Rocq"; Str "OCaml"; Str "Iris"].
Proof.
  destruct (keywords_store id (λ _, []) experiencedDocument "exp_1" "Iris"
              [Str "Rocq"; Str "OCaml"] eq_refl) as [(r & Hr & Hspec) _].
  { eexists. split; reflexivity. }
  vm_compute in Hr. injection Hr as <-.
  destruct Hspec as (_ & _ & d' & Hret & Hkw & _).
  eexists _, d'. split; [vm_compute; reflexivity|].
  split; [exact Hret|exact Hkw].
Defined.

(** ** The polish client: what it leaves alone *)

Lemma setEntryProp_ids (i : Z) (k : string) (x : value) (l l' : list value) :
  k ≠ "id" → setEntryProp i k x l = Returned l' →
  ids l' = ids l ∧ length l' = length l.
Proof.
  intros Hk. unfold setEntryProp.
  destruct (l !! Z.to_nat i) as [e|] eqn:He; cbn [default]; [|discriminate].
  destruct e; try discriminate. cbn [setProp bind]. intros [= <-].
  split; [|apply length_insert].
  eapply ids_insert_same; [exact He|]. cbn [optProp]. rewrite lookup_store.
  destruct (String.eqb_spec "id" k); [congruence|done].
Qed.

Lemma setPolishedAt_ids (i : Z) (t : value) (l l' : list value) :
  setPolishedAt i t l = Returned l' →
  ids l' = ids l ∧ length l' = length l.
Proof.
  unfold setPolishedAt.
  destruct (setEntryProp i "polishedDescription" t l) as [l1|] eqn:H1;
    [|discriminate].
  cbn [bind]. intros H2.
  apply setEntryProp_ids in H1 as [Hi1 Hl1]; [|done].
  apply setEntryProp_ids in H2 as [Hi2 Hl2]; [|done].
  split; congruence.
Qed.

(** X10. Polishing never adds, removes or re-identifies an entry: whatever
    the response, a call of [handlePolish] that returns leaves [name], the
    contacts and the skills as they were and, in every list, the same
    number of entries with the same ids in the same order; and it clears
    the polishing marker. *)
Theorem handlePolish_preserves_structure (sec entryId : string) (now : Z)
    (net : FetchResult) (st st' : Builder) :
  handlePolish sec entryId now net st = Returned st' →
  name (resumeData st') = name (resumeData st)
  ∧ contact (resumeData st') = contact (resumeData st)
  ∧ skills (resumeData st') = skills (resumeData st)
  ∧ (∀ s, ids (entries s (resumeData st')) = ids (entries s (resumeData st))
          ∧ length (entries s (resumeData st'))
            = length (entries s (resumeData st)))
  ∧ isPolishing st' = None.
Proof.
  unfold handlePolish.
  destruct (polishResponse net) as [[n t]|msg]; [|by intros [= <-]].
  destruct (polishUpdater sec entryId n t (resumeData st)) as [d'|] eqn:Hup;
    [|discriminate].
  cbn [bind]. intros [= <-]. cbn [resumeData isPolishing].
  assert (name d' = name (resumeData st)
          ∧ contact d' = contact (resumeData st)
          ∧ skills d' = skills (resumeData st)
          ∧ ∀ s, ids (entries s d') = ids (entries s (resumeData st))
                 ∧ length (entries s d') = length (entries s (resumeData st)));
    [|tauto].
  revert Hup. unfold polishUpdater.
  assert (∀ d0 : ResumeData,
            name d0 = name d0 ∧ contact d0 = contact d0
            ∧ skills d0 = skills d0
            ∧ ∀ s, ids (entries s d0) = ids (entries s d0)
                   ∧ length (entries s d0) = length (entries s d0))
    as Hsame by done.
  destruct (String.eqb sec "aboutMe").
  { destruct (truthy t); [|intros [= <-]; apply Hsame].
    destruct (setPolished t _); [|discriminate]. cbn [bind].
    intros [= <-]. split_and!; try done; by intros []. }
  destruct (String.eqb sec "education").
  { destruct (findIndex entryId _) as [i|]; [|discriminate]. cbn [bind].
    destruct (_ && _); [|intros [= <-]; apply Hsame].
    destruct (setPolishedAt i t _) as [l|] eqn:Hl; [|discriminate].
    cbn [bind]. intros [= <-]. apply setPolishedAt_ids in Hl.
    split_and!; try done; by intros []. }
  destruct (String.eqb sec "experience").
  { destruct (findIndex entryId _) as [i|]; [|discriminate]. cbn [bind].
    destruct (_ && _); [|intros [= <-]; apply Hsame].
    destruct (setPolishedAt i t _) as [l|] eqn:Hl; [|discriminate].
    cbn [bind]. intros [= <-]. apply setPolishedAt_ids in Hl.
    split_and!; try done; by intros []. }
  destruct (String.eqb sec "customSections"); [|intros [= <-]; apply Hsame].
  destruct (findIndex entryId _) as [i|]; [|discriminate]. cbn [bind].
  destruct (0 <=? i)%Z; [|intros [= <-]; apply Hsame].
  destruct (truthy _); [|intros [= <-]; apply Hsame].
  destruct (setEntryProp i "content" _ _) as [l|] eqn:Hl; [|discriminate].
  cbn [bind]. intros [= <-]. apply setEntryProp_ids in Hl; [|done].
  split_and!; try done; by intros [].
Qed.

Lemma handlePolish_preserves_structure_witness :
  ∃ st', handlePolish "education" "edu_1" 7 (okResponse polishedAbout)
           sampleBuilder = Returned st'
         ∧ ids (education (resumeData st')) = [Str "edu_1"]
         ∧ name (resumeData st') = name sampleDocument.
Proof.
  eexists. split; [vm_compute; reflexivity|].
  pose proof (handlePolish_preserves_structure "education" "edu_1" 7
                (okResponse polishedAbout) sampleBuilder _
                ltac:(vm_compute; reflexivity)) as (Hname & _ & _ & Hids & _).
  split; [exact (proj1 (Hids Education))|exact Hname].
Defined.

(** X11. A polish whose target does not exist changes nothing in the
    document but still emits the submit trigger: that is so for a section
    the updater has no case for, and for an education, experience or custom
    section id that no entry carries. *)
Theorem handlePolish_no_target (sec entryId : string) (now : Z)
    (net : FetchResult) (st : Builder) (n t : value) :
  documentOk (resumeData st) = true →
  polishResponse net = Returned (n, t) →
  sec ≠ "aboutMe" →
  (∀ s, sec = sectionName s →
        forallb (λ e, negb (hasId entryId e)) (entries s (resumeData st))
        = true) →
  handlePolish sec entryId now net st
  = Returned {| resumeData := resumeData st;
                isPolishing := None;
                submitTrigger := Some (polishTrigger sec entryId now);
                errorLog := errorLog st |}.
Proof.
  intros Hd Hr Habout Hnone. unfold handlePolish. rewrite Hr.
  assert (polishUpdater sec entryId n t (resumeData st)
          = Returned (resumeData st)) as ->; [|done].
  rewrite documentOk_entries in Hd. unfold polishUpdater.
  destruct (String.eqb_spec sec "aboutMe"); [done|].
  assert (∀ s, sec = sectionName s →
               findIndex entryId (entries s (resumeData st))
               = Returned (-1)%Z) as Hminus.
  { intros s Hs.
    destruct (findIndex_replaceFirst entryId _ (Hd s))
      as (i & Hi & _ & Hiff & _).
    rewrite Hi. f_equal. apply Hiff. by apply Hnone. }
  destruct (String.eqb_spec sec "education") as [Hs|_].
  { pose proof (Hminus Education Hs) as Hi. cbn [entries] in Hi.
    by rewrite Hi. }
  destruct (String.eqb_spec sec "experience") as [Hs|_].
  { pose proof (Hminus Experience Hs) as Hi. cbn [entries] in Hi.
    by rewrite Hi. }
  destruct (String.eqb_spec sec "customSections") as [Hs|_]; [|done].
  pose proof (Hminus CustomSections Hs) as Hi. cbn [entries] in Hi.
  by rewrite Hi.
Qed.

Lemma handlePolish_no_target_witness :
  handlePolish "education" "edu_404" 7 (okResponse polishedAbout)
    sampleBuilder
  = Returned {| resumeData := sampleDocument; isPolishing := None;
                submitTrigger := Some (polishTrigger "education" "edu_404" 7);
                errorLog := [] |}
  ∧ handlePolish "skills" "skill_1" 7 (okResponse polishedAbout)
      sampleBuilder
    = Returned {| resumeData := sampleDocument; isPolishing := None;
                  submitTrigger := Some (polishTrigger "skills" "skill_1" 7);
                  errorLog := [] |}.
Proof.
  split.
  - apply (handlePolish_no_target "education" "edu_404" 7
             (okResponse polishedAbout) sampleBuilder
             (Obj [("polishedDescription",
                    Str "I am a passionate software engineer.")])
             (Str "I am a passionate software engineer."));
      [reflexivity|reflexivity|discriminate|].
    intros [] [=]. reflexivity.
  - apply (handlePolish_no_target "skills" "skill_1" 7
             (okResponse polishedAbout) sampleBuilder
             (Obj [("polishedDescription",
                    Str "I am a passionate software engineer.")])
             (Str "I am a passionate software engineer."));
      [reflexivity|reflexivity|discriminate|].
    intros [] [=]. reflexivity.
Defined.

(** X12. The draft polish of the education and experience forms reads the
    improved text from [polishedDescription] and [description] only.  When
    the response has one of the two, the draft gets the text [handlePolish]
    would use; when it has neither, the draft is left unchanged even if
    [summary] or [text] hold a text that [handlePolish] accepts.  A failed
    request is logged and changes nothing, and a blank description sends
    nothing. *)
Theorem polishNewDraft_keys (trim : string → string) (description : string)
    (net : FetchResult) :
  (trim description = "" → polishNewDraft trim description net = DraftNotSent)
  ∧ (trim description ≠ "" →
     (∀ msg, polishResponse net = Thrown msg →
             polishNewDraft trim description net = DraftFailed msg)
     ∧ (∀ n t, polishResponse net = Returned (n, t) →
          (isNullish (optProp n "polishedDescription")
           && isNullish (optProp n "description") = false →
           polishNewDraft trim description net
           = if truthy t then DraftRewritten t else DraftUnchanged)
          ∧ (isNullish (optProp n "polishedDescription")
             && isNullish (optProp n "description") = true →
             polishNewDraft trim description net = DraftUnchanged))).
Proof.
  unfold polishNewDraft. split.
  - intros ->. done.
  - intros Hne.
    destruct (String.eqb_spec (trim description) "") as [Heq|_]; [done|].
    split.
    + by intros msg ->.
    + intros n t Hr. rewrite Hr.
      assert (t = getImprovedText n) as ->.
      { revert Hr. unfold polishResponse. destruct net as [|res]; [done|].
        destruct (negb (ok res)); [done|].
        destruct (json res) as [body|]; [|done]. cbn [bind].
        destruct (getProp body "success") as [success|]; [|done]. cbn [bind].
        destruct (negb (truthy success)).
        - destruct (getProp body "message"); done.
        - destruct (normalize body); [|done]. cbn [bind]. congruence. }
      unfold draftImprovedText, getImprovedText, nullish.
      destruct (isNullish (optProp n "polishedDescription")) eqn:H1,
               (isNullish (optProp n "description")) eqn:H2;
        cbn [andb]; split; intros Hc; try discriminate Hc;
        repeat (cbv iota; rewrite ?H1, ?H2); reflexivity.
Qed.

Lemma polishNewDraft_keys_witness :
  polishNewDraft id "taught maths"
    (okResponse (Obj [("success", Bool true); ("summary", Str "Taught.")]))
  = DraftUnchanged
  ∧ improvedTextOf (Obj [("success", Bool true); ("summary", Str "Taught.")])
    = Returned (Str "Taught.").
Proof.
  split; [|reflexivity].
  apply (proj2 (polishNewDraft_keys id "taught maths"
                  (okResponse (Obj [("success", Bool true);
                                    ("summary", Str "Taught.")])))
           ltac:(discriminate))
    with (n := Obj [("success", Bool true); ("summary", Str "Taught.")])
         (t := Str "Taught."); reflexivity.
Defined.

(** ** The preview between events *)

Lemma latexResult_returned (fallback : string) (r : FetchResult)
    (code : value) :
  latexResult fallback r = Returned code →
  truthy code = true ∧ failedGeneration r = false.
Proof.
  unfold latexResult, failedGeneration. destruct r as [msg|res]; [done|].
  destruct (ok res); cbn [negb orb]; [|done].
  destruct (json res) as [body|]; [|done]. cbn [bind].
  destruct (isNullish body) eqn:Hb.
  { destruct body; done. }
  rewrite !getProp_present by done. cbn [bind].
  destruct (truthy (optProp body "success")); cbn [andb negb]; [|done].
  destruct (truthy (optProp body "latexCode")) eqn:Hc; [|done].
  by intros [= <-].
Qed.

Lemma latexResult_thrown (fallback : string) (r : FetchResult) (msg : string) :
  latexResult fallback r = Thrown msg → failedGeneration r = true.
Proof. intros H. apply (latexResult_failed fallback). eauto. Qed.

Lemma sectionSuccesses_snoc (net : Network) (j : nat) (l : list Request)
    (r : Request) :
  sectionSuccesses net j (l ++ [r])
  = (sectionSuccesses net j l
     + (if isSectionRequest r && negb (failedGeneration (net (j + length l)%nat))
        then 1 else 0))%Z.
Proof.
  revert j. induction l as [|x l IH]; intros j; cbn [app sectionSuccesses length].
  - rewrite Nat.add_0_r. lia.
  - rewrite IH. replace (S j + length l)%nat with (j + S (length l))%nat by lia.
    lia.
Qed.

(** The part of [previewInvariant] that the generation code maintains. *)
Lemma scrapeTemplate_invariant (c : Closure) (net : Network) (st : Preview) :
  let st' := scrapeTemplate c net st in
  latexCode st' = latexCode st
  ∧ isUpdating st' = isUpdating st
  ∧ updates st' = updates st
  ∧ hasGeneratedPreview st' = hasGeneratedPreview st
  ∧ isInitialized st' = isInitialized st
  ∧ (isScrapingTemplate st = false → isScrapingTemplate st' = false)
  ∧ sectionSuccesses net 0 (sent st') = sectionSuccesses net 0 (sent st).
Proof.
  unfold scrapeTemplate. destruct (isTemplateScraped c); [done|].
  destruct (scrapeResult _); cbn; rewrite sectionSuccesses_snoc; cbn;
    split_and!; try done; lia.
Qed.

Lemma initializeLatex_invariant (c : Closure) (net : Network)
    (st st' : Preview) :
  initializeLatex c net st = Returned st' →
  st' = st
  ∨ (isUpdating st' = false
     ∧ isScrapingTemplate st' = isScrapingTemplate st
     ∧ updates st' = updates st
     ∧ sectionSuccesses net 0 (sent st') = sectionSuccesses net 0 (sent st)
     ∧ ((isInitialized st' = true ∧ truthy (latexCode st') = true
         ∧ hasGeneratedPreview st' = true)
        ∨ (isInitialized st' = isInitialized st
           ∧ latexCode st' = latexCode st
           ∧ hasGeneratedPreview st' = hasGeneratedPreview st))).
Proof.
  unfold initializeLatex.
  destruct (hasData (data c)) as [has|]; [|discriminate]. cbn [bind].
  destruct has, (isTemplateScraped c) eqn:Hc; cbn [negb orb];
    try (intros [= <-]; by left).
  rewrite scrapeTemplate_scraped by done.
  destruct (latexResult _ _) as [code|msg] eqn:Hres; intros [= <-]; right;
    cbn; rewrite sectionSuccesses_snoc; cbn; split_and!; try done; try lia.
  - left. apply latexResult_returned in Hres as [Hcode _]. auto.
  - right. auto.
Qed.

Lemma updateLatexSection_invariant (c : Closure) (u : SubmitTrigger)
    (net : Network) (st st' : Preview) :
  updateLatexSection c u net st = Returned st' →
  isUpdating st = false → isScrapingTemplate st = false →
  updates st = sectionSuccesses net 0 (sent st) →
  isUpdating st' = false
  ∧ isScrapingTemplate st' = false
  ∧ updates st' = sectionSuccesses net 0 (sent st')
  ∧ ((isInitialized st' = true ∧ truthy (latexCode st') = true
      ∧ (hasGeneratedPreview st = true ∨ isInitialized st = false →
         hasGeneratedPreview st' = true))
     ∨ (isInitialized st' = isInitialized st
        ∧ latexCode st' = latexCode st
        ∧ hasGeneratedPreview st' = hasGeneratedPreview st)).
Proof.
  unfold updateLatexSection. intros Hret Hup Hscr Hcount.
  set (st0 := if negb (isTemplateScraped c) then scrapeTemplate c net st
              else st) in *.
  assert (latexCode st0 = latexCode st
          ∧ isUpdating st0 = false
          ∧ updates st0 = sectionSuccesses net 0 (sent st0)
          ∧ hasGeneratedPreview st0 = hasGeneratedPreview st
          ∧ isInitialized st0 = isInitialized st
          ∧ isScrapingTemplate st0 = false)
    as (Hcode0 & Hup0 & Hcount0 & Hgen0 & Hinit0 & Hscr0).
  { subst st0. destruct (negb (isTemplateScraped c)); [|done].
    destruct (scrapeTemplate_invariant c net st)
      as (? & ? & ? & ? & ? & ? & ?).
    split_and!; try congruence. auto. }
  clearbody st0.
  destruct (isInitialized st0) eqn:Hi0; cbn [negb] in Hret.
  - destruct (latexResult _ _) as [code|msg] eqn:Hres.
    + injection Hret as <-. cbn.
      apply latexResult_returned in Hres as [Hcode Hok].
      cbn in Hok. rewrite sectionSuccesses_snoc. cbn. rewrite Hok. cbn.
      split_and!; try done; [lia|]. left. split_and!; try done.
      intros [Hg|Hn]; congruence.
    + destruct (initializeLatex c net _) as [st3|] eqn:H3; [|discriminate].
      cbn [bind] in Hret. injection Hret as <-.
      apply latexResult_thrown in Hres. cbn in Hres.
      apply initializeLatex_invariant in H3 as [->|H3].
      * cbn. rewrite sectionSuccesses_snoc. cbn. rewrite Hres. cbn.
        split_and!; try done; [lia|]. right. split_and!; congruence.
      * cbn in H3. rewrite sectionSuccesses_snoc in H3. cbn in H3.
        rewrite Hres in H3. cbn in H3.
        destruct H3 as (Hu3 & Hs3 & Hc3 & Hss3 & Hcases). cbn.
        split_and!; try done; try congruence; [lia|].
        destruct Hcases as [(? & ? & ?)|(? & ? & ?)].
        -- left. split_and!; congruence.
        -- right. split_and!; congruence.
  - apply initializeLatex_invariant in Hret as [->|H3].
    + split_and!; try done. right. split_and!; congruence.
    + destruct H3 as (Hu3 & Hs3 & Hc3 & Hss3 & Hcases).
      split_and!; try congruence.
      destruct Hcases as [(? & ? & ?)|(? & ? & ?)].
      * left. split_and!; congruence.
      * right. split_and!; congruence.
Qed.

Lemma fullStep_previewInvariant (ev : FullEvent) (net : Network)
    (pdfNet : nat → PdfResult) (st st' : FullPreview) :
  fullStep ev net pdfNet st = Returned st' →
  previewInvariant net st → previewInvariant net st'.
Proof.
  intros Hstep (Hup & Hscr & Hinit & Hgen & Hshow & Hcount & Hlive & Hurl).
  destruct ev as [[d u|d]| | |]; cbn [fullStep step] in Hstep.
  - (* a submit *)
    destruct (processSubmit _ u net (core st)) as [c|] eqn:Hc; [|discriminate].
    cbn [bind] in Hstep. injection Hstep as <-. unfold processSubmit in Hc.
    unfold previewInvariant. cbn [core withCore pdfUrl showLatex liveUrls
                                  createdUrls].
    destruct (String.eqb (trigSection u) "header").
    + apply initializeLatex_invariant in Hc as [->|H3]; [by split_and!|].
      destruct H3 as (Hu3 & Hs3 & Hc3 & Hss3 & Hcases).
      split_and!; try done; try congruence.
      * destruct Hcases as [(? & ? & ?)|(Hi & Hl & Hg)]; [done|].
        intros Hi'. rewrite Hl, Hg. apply Hinit. congruence.
      * destruct Hcases as [(? & ? & ?)|(Hi & Hl & Hg)]; [auto|].
        rewrite Hi, Hg. exact Hgen.
    + apply updateLatexSection_invariant in Hc
        as (Hu3 & Hs3 & Hc3 & Hcases); try done.
      split_and!; try done.
      * destruct Hcases as [(Hi & Ht & Hg)|(Hi & Hl & Hg)].
        -- intros _. split; [done|]. apply Hg.
           destruct (isInitialized (core st)) eqn:Hi0; [|auto].
           left. by apply Hinit.
        -- intros Hi'. rewrite Hl, Hg. apply Hinit. congruence.
      * destruct Hcases as [(Hi & Ht & Hg)|(Hi & Hl & Hg)]; [auto|].
        rewrite Hi, Hg. exact Hgen.
  - (* a click on "Scrape Template" *)
    injection Hstep as <-.
    destruct (scrapeTemplate_invariant (render d (core st)) net (core st))
      as (Hl & Hu & Hupd & Hg & Hi & Hs & Hss).
    unfold previewInvariant. cbn [core withCore pdfUrl showLatex liveUrls
                                  createdUrls].
    rewrite Hl, Hu, Hupd, Hg, Hi, Hss. split_and!; auto.
  - (* "Generate PDF" *)
    injection Hstep as <-. unfold generatePdf.
    destruct (pdfResult _); unfold previewInvariant; cbn.
    + split_and!; try done.
      * intros Hi. split; [by apply Hinit|done].
      * intros _. right. by eexists.
      * rewrite Hlive. destruct (pdfUrl st) as [old|] eqn:Hold; cbn.
        -- rewrite Nat.eqb_refl. cbn.
           specialize (Hurl old eq_refl).
           destruct (Nat.eqb_spec (createdUrls st) old); [lia|done].
        -- done.
      * intros u [= <-]. lia.
    + split_and!; done.
  - injection Hstep as <-. unfold previewInvariant; cbn.
    split_and!; done.
  - injection Hstep as <-. unfold previewInvariant; cbn.
    split_and!; done.
Qed.

Lemma fullRun_previewInvariant (evs : list FullEvent) (net : Network)
    (pdfNet : nat → PdfResult) (st st' : FullPreview) :
  fullRun evs net pdfNet st = Returned st' →
  previewInvariant net st → previewInvariant net st'.
Proof.
  revert st. induction evs as [|ev evs IH]; intros st; cbn [fullRun].
  - by intros [= <-].
  - destruct (fullStep ev net pdfNet st) as [st1|] eqn:H1; [|discriminate].
    cbn [bind]. intros Hrun Hinv. apply (IH st1 Hrun).
    by apply (fullStep_previewInvariant ev net pdfNet st).
Qed.

Lemma initialFullPreview_invariant (net : Network) :
  previewInvariant net initialFullPreview.
Proof. unfold previewInvariant. cbn. split_and!; done. Qed.

(** X13. However a session goes, when an event has been handled the
    preview is not left busy (neither "updating" nor "scraping"), and once
    the generator is initialized there is non-empty LaTeX code to show and
    the preview counts as generated. *)
Theorem preview_settles (evs : list FullEvent) (net : Network)
    (pdfNet : nat → PdfResult) (st : FullPreview) :
  fullRun evs net pdfNet initialFullPreview = Returned st →
  isUpdating (core st) = false
  ∧ isScrapingTemplate (core st) = false
  ∧ (isInitialized (core st) = true →
     truthy (latexCode (core st)) = true
     ∧ hasGeneratedPreview (core st) = true).
Proof.
  intros Hrun.
  destruct (fullRun_previewInvariant evs net pdfNet _ _ Hrun
              (initialFullPreview_invariant net))
    as (? & ? & ? & _).
  auto.
Qed.

(** X14. The update counter of the preview counts exactly the section
    requests that were answered with LaTeX code: header generations, scrape
    requests and failed section requests do not move it. *)
Theorem updates_counts_section_successes (evs : list FullEvent)
    (net : Network) (pdfNet : nat → PdfResult) (st : FullPreview) :
  fullRun evs net pdfNet initialFullPreview = Returned st →
  updates (core st) = sectionSuccesses net 0 (sent (core st)).
Proof.
  intros Hrun.
  by destruct (fullRun_previewInvariant evs net pdfNet _ _ Hrun
                 (initialFullPreview_invariant net))
    as (_ & _ & _ & _ & _ & ? & _).
Qed.

(** X15. Object URLs do not leak: at any point of a session the only URL
    created and not revoked is the one the preview shows, and the cleanup on
    unmount revokes that one too. *)
Theorem object_urls_do_not_leak (evs : list FullEvent) (net : Network)
    (pdfNet : nat → PdfResult) (st : FullPreview) :
  fullRun evs net pdfNet initialFullPreview = Returned st →
  liveUrls st = match pdfUrl st with Some u => [u] | None => [] end
  ∧ unmount st = [].
Proof.
  intros Hrun.
  destruct (fullRun_previewInvariant evs net pdfNet _ _ Hrun
              (initialFullPreview_invariant net))
    as (_ & _ & _ & _ & _ & _ & Hlive & _).
  split; [exact Hlive|]. unfold unmount. rewrite Hlive.
  destruct (pdfUrl st); cbn; [|done]. by rewrite Nat.eqb_refl.
Qed.

(** X16. The last branch of the preview area, the "Processing..." panel,
    is never shown: whenever the preview counts as generated there is
    either LaTeX code being shown or a PDF. *)
Theorem processing_panel_unreachable (evs : list FullEvent) (net : Network)
    (pdfNet : nat → PdfResult) (st : FullPreview) (d : ResumeData) :
  fullRun evs net pdfNet initialFullPreview = Returned st →
  panel d st ≠ Returned ProcessingPanel.
Proof.
  intros Hrun.
  destruct (fullRun_previewInvariant evs net pdfNet _ _ Hrun
              (initialFullPreview_invariant net))
    as (_ & _ & Hinit & Hgen & Hshow & _).
  unfold panel. destruct (negb (falsyError _)); [done|].
  destruct (hasData d) as [has|]; [|done]. cbn [bind].
  destruct (negb has); [done|].
  destruct (isUpdating (core st)); [done|].
  destruct (hasGeneratedPreview (core st)) eqn:Hg; cbn [negb]; [|done].
  destruct (pdfUrl st) as [u|] eqn:Hu.
  { by destruct (_ && _). }
  destruct (Hgen eq_refl) as [Hi|[? [=]]].
  destruct (Hinit Hi) as [Ht _]. rewrite Ht.
  destruct (showLatex st) eqn:Hs; [done|].
  by destruct (Hshow eq_refl) as [? [=]].
Qed.

Lemma preview_settles_witness :
  ∃ st, fullRun sampleFullSession allFine pdfFine initialFullPreview
        = Returned st
        ∧ isUpdating (core st) = false
        ∧ isScrapingTemplate (core st) = false
        ∧ (isInitialized (core st) = true →
           truthy (latexCode (core st)) = true
           ∧ hasGeneratedPreview (core st) = true).
Proof.
  eexists. split; [vm_compute; reflexivity|].
  apply (preview_settles sampleFullSession allFine pdfFine).
  vm_compute; reflexivity.
Defined.

Lemma updates_counts_section_successes_witness :
  ∃ st, fullRun sampleFullSession allFine pdfFine initialFullPreview
        = Returned st
        ∧ updates (core st) = 2%Z
        ∧ sectionSuccesses allFine 0 (sent (core st)) = 2%Z.
Proof.
  eexists. split; [vm_compute; reflexivity|].
  split; [|vm_compute; reflexivity].
  etransitivity;
    [apply (updates_counts_section_successes sampleFullSession allFine
              pdfFine); vm_compute; reflexivity|].
  vm_compute; reflexivity.
Defined.

Lemma object_urls_do_not_leak_witness :
  ∃ st, fullRun sampleFullSession allFine pdfFine initialFullPreview
        = Returned st
        ∧ pdfUrl st = Some 1%nat
        ∧ liveUrls st = match pdfUrl st with Some u => [u] | None => [] end
        ∧ unmount st = [].
Proof.
  eexists. split; [vm_compute; reflexivity|].
  split; [vm_compute; reflexivity|].
  apply (object_urls_do_not_leak sampleFullSession allFine pdfFine).
  vm_compute; reflexivity.
Defined.

Lemma processing_panel_unreachable_witness :
  ∃ st, fullRun sampleFullSession allFine pdfFine initialFullPreview
        = Returned st
        ∧ panel sampleDocument st ≠ Returned ProcessingPanel.
Proof.
  eexists. split; [vm_compute; reflexivity|].
  apply (processing_panel_unreachable sampleFullSession allFine pdfFine).
  vm_compute; reflexivity.
Defined.

(** X17. An initialized preview whose template is scraped answers a section
    trigger by sending, first, one section request with the trigger's
    [changeType] and section name and the document's current data of that
    section; for a section name it does not know ([contact], [name], ...)
    the request is sent all the same, with a [null] entry.  The submit
    buttons of the builder only name sections it knows. *)
Theorem section_request_payload (c : Closure) (u : SubmitTrigger)
    (net : Network) (st st' : Preview) :
  isTemplateScraped c = true → isInitialized st = true →
  updateLatexSection c u net st = Returned st' →
  (∃ entry rs,
     sent st'
     = (sent st
        ++ LatexUpdate
             (Obj [("type", Str "section");
                   ("action", Str (trigChangeType u));
                   ("data", Obj [("section", Str (trigSection u));
                                 ("entry", entry)])]) :: rs)%list
     ∧ (trigSection u = "aboutMe" → entry = aboutMe (data c))
     ∧ (∀ s, s ≠ Contact → trigSection u = sectionName s →
             entry = Arr (entries s (data c)))
     ∧ (trigSection u ∉ ["aboutMe"; "education"; "experience"; "skills";
                         "customSections"] → entry = Null))
  ∧ ∀ b now, b ∈ sectionSubmitButtons →
      trigSection (b now) ∈ ["aboutMe"; "education"; "experience"; "skills";
                             "customSections"]
      ∧ trigChangeType (b now) = "update".
Proof.
  intros Hc Hi Hrun. split.
  - unfold updateLatexSection in Hrun. rewrite Hc in Hrun.
    cbn [negb] in Hrun. rewrite Hi in Hrun. cbn [negb] in Hrun.
    exists (sectionData (trigSection u) (data c)).
    assert (∃ rs, sent st'
                  = (sent st ++ LatexUpdate (sectionPayload u (data c)) :: rs)%list)
      as [rs Hrs].
    { destruct (latexResult _ _) as [code|msg].
      - injection Hrun as <-. by exists [].
      - destruct (initializeLatex c net _) as [st3|] eqn:H3; [|discriminate].
        injection Hrun as <-.
        apply initializeLatex_effect in H3 as [[->|(_ & _ & H3)] _]; cbn.
        + by exists [].
        + rewrite H3. cbn. rewrite <- app_assoc. by eexists. }
    exists rs. split; [exact Hrs|]. unfold sectionData. split_and!.
    + by intros ->.
    + intros s Hs ->. by destruct s.
    + intros Hnot. rewrite !not_elem_of_cons in Hnot.
      destruct Hnot as (H1 & H2 & H3 & H4 & H5 & _).
      apply String.eqb_neq in H1, H2, H3, H4, H5.
      by rewrite H1, H2, H3, H4, H5.
  - intros b now Hb. unfold sectionSubmitButtons in Hb.
    rewrite !elem_of_cons in Hb.
    destruct Hb as [->|[->|[->|[->|[->|Hb]]]]];
      [..|by apply not_elem_of_nil in Hb]; cbn;
      (split; [|done]); rewrite !elem_of_cons; auto 10.
Qed.

Lemma section_request_payload_witness :
  ∃ st', updateLatexSection (render sampleDocument initializedPreview)
           (submitOf "contact") allFine initializedPreview = Returned st'
         ∧ ∃ rs, sent st'
                 = (sent initializedPreview
                    ++ LatexUpdate
                         (Obj [("type", Str "section");
                               ("action", Str "update");
                               ("data", Obj [("section", Str "contact");
                                             ("entry", Null)])]) :: rs)%list.
Proof.
  destruct (updateLatexSection (render sampleDocument initializedPreview)
              (submitOf "contact") allFine initializedPreview)
    as [st'|] eqn:Hrun; [|vm_compute in Hrun; discriminate].
  exists st'. split; [reflexivity|].
  destruct (section_request_payload
              (render sampleDocument initializedPreview)
              (submitOf "contact") allFine initializedPreview st'
              eq_refl eq_refl Hrun)
    as [(entry & rs & Hsent & _ & _ & Hnull) _].
  exists rs. rewrite Hsent, Hnull; [reflexivity|].
  cbn [submitOf trigSection]. rewrite !not_elem_of_cons.
  split_and!; try discriminate.
  apply not_elem_of_nil.
Defined.

Lemma withField_absent (id field : string) (v : value) (l : list value) :
  entriesOk l = true →
  forallb (λ e, negb (hasId id e)) l = true →
  CustomSectionsSection.withField id field v l = Returned l.
Proof.
  induction l as [|e l IH]; [done|].
  intros [He Hl]%entriesOk_cons. cbn [forallb].
  intros [Hid Hrest]%andb_true_iff. apply negb_true_iff in Hid.
  cbn [CustomSectionsSection.withField]. rewrite (IH Hl Hrest).
  destruct e as [| | | | |a|fs]; try done. cbn [bind].
  change (strictEqStr (lookup "id" fs) id) with (hasId id (Obj fs)).
  by rewrite Hid.
Qed.

Lemma absent_of_fresh (id : string) (l : list value) :
  Str id ∉ ids l → forallb (λ e, negb (hasId id e)) l = true.
Proof.
  induction l as [|e l IH]; [done|]. unfold ids. cbn [fmap list_fmap].
  rewrite not_elem_of_cons. intros [Hne Hrest]. cbn [forallb].
  rewrite (IH Hrest), andb_true_r. apply negb_true_iff.
  destruct (hasId id e) eqn:Hid; [|done].
  apply hasId_spec in Hid. congruence.
Qed.

Lemma withField_spec (id field : string) (v : value) (l : list value) :
  entriesOk l = true → NoDup (ids l) →
  ∃ r, findEntry id l = Returned r
       ∧ CustomSectionsSection.withField id field v l
         = Returned (match r with
                     | Some fs => replaceFirst id (Obj (store field v fs)) l
                     | None => l
                     end).
Proof.
  induction l as [|e l IH]; [by exists None|].
  intros [He Hl]%entriesOk_cons Hnd. unfold ids in Hnd.
  cbn [fmap list_fmap] in Hnd. apply NoDup_cons in Hnd as [Hfresh Hnd].
  destruct (IH Hl Hnd) as (r & Hr & Hmap).
  cbn [findEntry CustomSectionsSection.withField replaceFirst].
  destruct e as [| | | | |a|fs0]; try done;
    try (exists r; cbn [getProp bind]; split; [exact Hr|];
         rewrite Hmap; cbn [bind];
         change (hasId id ?x) with false; by destruct r).
  change (strictEqStr (lookup "id" fs0) id) with (hasId id (Obj fs0)).
  destruct (hasId id (Obj fs0)) eqn:Hid.
  - exists (Some fs0). split; [done|]. cbn [bind].
    apply hasId_spec in Hid. rewrite Hid in Hfresh.
    by rewrite (withField_absent _ _ _ _ Hl (absent_of_fresh _ _ Hfresh)).
  - exists r. split; [exact Hr|]. cbn [bind]. rewrite Hmap. cbn [bind].
    by destruct r.
Qed.

(** X18. [CustomSectionsSection] keeps its own copy of the sections.  As
    long as the ids are distinct the copy and the document agree after every
    action: adding a section under an id not yet used, editing the title or
    the content of a section, deleting a section.  The ids stay distinct. *)
Theorem customSections_in_sync (a : CustomSectionsSection.Action)
    (d : ResumeData) :
  documentOk d = true → NoDup (ids (customSections d)) →
  CustomSectionsSection.actionOk a (customSections d) →
  ∃ sections' d',
    CustomSectionsSection.act a (customSections d) d
    = Returned (sections', d')
    ∧ customSections d' = sections'
    ∧ documentOk d' = true
    ∧ NoDup (ids sections').
Proof.
  intros Hd Hnd Hok.
  pose proof (proj1 (documentOk_entries d) Hd CustomSections) as Hl.
  cbn [entries] in Hl.
  assert (∀ u, section u = "customSections" →
               (changeType u ≠ delete → isNullish (content u) = false) →
               handleUpdate u d
               = Returned (set_customSections
                             (replayOne u (customSections d)) d)
               ∧ documentOk (set_customSections
                               (replayOne u (customSections d)) d) = true)
    as Hstore.
  { intros u Hs Hc. split.
    - by rewrite (handleUpdate_list_returns CustomSections u d Hd Hs).
    - apply (documentOk_setEntries CustomSections); [done|].
      by apply entriesOk_replayOne. }
  destruct a as [now|id field v|id];
    cbn [CustomSectionsSection.act CustomSectionsSection.actionOk] in *.
  - unfold CustomSectionsSection.addSection. cbn [fst snd].
    destruct (Hstore (addMessage "customSections" (pretty now)
                        (Obj [("id", Str (pretty now)); ("title", Str "");
                              ("content", Str "")])))
      as [-> Hd']; [done|done|].
    cbn [bind]. do 2 eexists. split; [reflexivity|].
    split; [done|]. split; [exact Hd'|].
    rewrite ids_app. apply NoDup_app. split; [exact Hnd|]. split.
    + intros x Hx Hin. apply list_elem_of_singleton in Hin. by subst.
    + apply NoDup_singleton.
  - unfold CustomSectionsSection.updateSection.
    destruct (withField_spec id field (Str v) _ Hl Hnd) as (r & Hr & ->).
    cbn [bind]. destruct r as [fs|].
    + assert (hasId id (Obj (store field (Str v) fs)) = true) as Hid.
      { rewrite hasId_store by done. by apply (findEntry_hasId id fs _ Hr). }
      rewrite (findEntry_replaceFirst _ _ _ _ Hr Hid). cbn [bind fst snd].
      destruct (Hstore (updateMessage "customSections" id
                          (Obj (store field (Str v) fs))))
        as [-> Hd']; [done|done|].
      cbn [bind]. do 2 eexists. split; [reflexivity|].
      split; [done|]. split; [exact Hd'|]. by rewrite ids_replaceFirst.
    + rewrite Hr. cbn [bind fst snd]. do 2 eexists.
      split; [reflexivity|]. by split_and!.
  - unfold CustomSectionsSection.deleteSection.
    rewrite (filterOut_removeId _ _ Hl). cbn [bind fst snd].
    destruct (Hstore (deleteMessage "customSections" id)) as [-> Hd'];
      [done|done|].
    cbn [bind]. do 2 eexists. split; [reflexivity|].
    split; [done|]. split; [exact Hd'|].
    eapply sublist_NoDup; [exact Hnd|]. apply ids_removeId_sublist.
Qed.

Lemma customSections_in_sync_witness :
  ∃ sections' d',
    CustomSectionsSection.act
      (CustomSectionsSection.UpdateSection "7" "title" "Prizes")
      (customSections sampleDocument) sampleDocument
    = Returned (sections', d')
    ∧ customSections d' = sections'
    ∧ documentOk d' = true
    ∧ NoDup (ids sections').
Proof.
  apply (customSections_in_sync
           (CustomSectionsSection.UpdateSection "7" "title" "Prizes")
           sampleDocument).
  - reflexivity.
  - vm_compute. apply NoDup_singleton.
  - discriminate.
Defined.

Lemma currentDescription_polished (showing : bool) (t : value)
    (fs : list (string * value)) :
  truthy t = true →
  currentDescription showing
    (Obj (store "description" t (store "polishedDescription" t fs)))
  = Returned t.
Proof.
  intros Ht. unfold currentDescription. cbn [getProp bind].
  rewrite !lookup_store. cbn. rewrite Ht. by destruct showing.
Qed.

(** X19. A successful polish leaves no original to go back to: for
    [aboutMe], and for the [education] or [experience] entry polished, the
    description the section shows is the improved text whether or not
    "show polished" is on. *)
Theorem polished_text_replaces_original (sec entryId : string) (now : Z)
    (net : FetchResult) (st : Builder) (n t : value) :
  polishResponse net = Returned (n, t) → truthy t = true →
  (sec = "aboutMe" → (∃ fs, aboutMe (resumeData st) = Obj fs) →
   ∃ st', handlePolish sec entryId now net st = Returned st'
          ∧ ∀ showing,
              currentDescription showing (aboutMe (resumeData st'))
              = Returned t)
  ∧ (∀ s i, s = Education ∨ s = Experience → sec = sectionName s →
       findIndex entryId (entries s (resumeData st)) = Returned i →
       (0 ≤ i)%Z →
       ∃ st' e',
         handlePolish sec entryId now net st = Returned st'
         ∧ entries s (resumeData st') !! Z.to_nat i = Some e'
         ∧ hasId entryId e' = true
         ∧ ∀ showing, currentDescription showing e' = Returned t).
Proof.
  intros Hr Ht. unfold handlePolish. rewrite Hr. split.
  - intros -> [fs Hfs]. unfold polishUpdater. rewrite Ht, Hfs.
    cbn -[store]. eexists. split; [reflexivity|]. cbn -[store].
    intros showing. by apply currentDescription_polished.
  - intros s i Hs -> Hi Hpos.
    destruct (findIndex_found _ _ _ Hi Hpos) as (e & He & Hid).
    destruct (hasId_object _ _ Hid) as [fs ->].
    unfold polishUpdater.
    destruct Hs as [-> | ->]; cbn [sectionName String.eqb Ascii.eqb Bool.eqb];
      cbn [entries] in *; rewrite Hi; cbn [bind]; rewrite Ht;
      (destruct (Z.leb_spec 0 i); [|lia]); cbn [andb];
      rewrite (setPolishedAt_object _ _ _ _ He); cbn [bind];
      do 2 eexists; (split; [reflexivity|]); cbn -[store];
      (split; [apply list_lookup_insert_eq; by eapply lookup_lt_Some|]);
      (split; [by rewrite !hasId_store|]);
      intros showing; by apply currentDescription_polished.
Qed.

Lemma polished_text_replaces_original_witness :
  let t := Str "I am a passionate software engineer." in
  ∃ st', handlePolish "aboutMe" "about" 7 (okResponse polishedAbout)
           sampleBuilder = Returned st'
         ∧ currentDescription false (aboutMe (resumeData st')) = Returned t
         ∧ currentDescription true (aboutMe (resumeData st')) = Returned t.
Proof.
  intros t.
  destruct (polished_text_replaces_original "aboutMe" "about" 7
              (okResponse polishedAbout) sampleBuilder _ t eq_refl eq_refl)
    as [Habout _].
  destruct (Habout eq_refl (ex_intro _ _ eq_refl)) as (st' & Hrun & Hshow).
  exists st'. split; [exact Hrun|]. split; apply Hshow.
Defined.

(** X20. In [AboutMeSection] typing keeps the polished text, so that "Use
    Polished" afterwards makes it the description again; submitting the
    section then writes the same two values back. *)
Theorem aboutMe_use_polished_after_edit (d : ResumeData)
    (fs : list (string * value)) (x : string) :
  aboutMe d = Obj fs →
  truthy (lookup "polishedDescription" fs) = true →
  let p := lookup "polishedDescription" fs in
  ∃ u1 d1 u2 d2 u3,
    AboutMeSection.handleChange (aboutMe d) x = Returned u1
    ∧ handleUpdate u1 d = Returned d1
    ∧ optProp (aboutMe d1) "description" = Str x
    ∧ optProp (aboutMe d1) "polishedDescription" = p
    ∧ AboutMeSection.handleUsePolished (aboutMe d1) = Returned (Some u2)
    ∧ handleUpdate u2 d1 = Returned d2
    ∧ aboutMe d2 = Obj [("description", p); ("polishedDescription", p)]
    ∧ AboutMeSection.handleSubmit (aboutMe d2) = Returned u3
    ∧ handleUpdate u3 d2 = Returned d2.
Proof.
  intros Hfs Hp p. rewrite Hfs.
  unfold AboutMeSection.handleChange. cbn [getProp bind].
  do 5 eexists. split; [reflexivity|]. cbn.
  split; [reflexivity|]. cbn. fold p.
  split; [reflexivity|]. split; [reflexivity|].
  unfold AboutMeSection.handleUsePolished. cbn. fold p.
  unfold p at 1. rewrite Hp.
  split; [reflexivity|]. cbn. split; [reflexivity|]. cbn.
  split; [reflexivity|]. split; [reflexivity|]. by destruct d.
Qed.

Lemma aboutMe_use_polished_after_edit_witness :
  let d := set_aboutMe (Obj [("description", Str "i like coding");
                             ("polishedDescription", Str "I enjoy coding.")])
             sampleDocument in
  ∃ u1 d1 u2 d2,
    AboutMeSection.handleChange (aboutMe d) "i code" = Returned u1
    ∧ handleUpdate u1 d = Returned d1
    ∧ AboutMeSection.handleUsePolished (aboutMe d1) = Returned (Some u2)
    ∧ handleUpdate u2 d1 = Returned d2
    ∧ optProp (aboutMe d2) "description" = Str "I enjoy coding.".
Proof.
  intros d.
  destruct (aboutMe_use_polished_after_edit d _ "i code" eq_refl eq_refl)
    as (u1 & d1 & u2 & d2 & u3 & H1 & H2 & _ & _ & H3 & H4 & H5 & _).
  exists u1, d1, u2, d2. split_and!; try done. by rewrite H5.
Defined.
